(** * vic: an editor wrapper with RCS check-out / check-in sessions

    A shallow embedding of [vic.js] and the properties of its session
    engine.  JavaScript strings are modelled by [string]: one character of
    the model stands for one UTF-16 code unit of the JavaScript string, in
    the range 0..255.  Numbers that the program only compares with list
    lengths are modelled by [Z]. *)

From Stdlib Require Import String Ascii List ZArith Lia Bool Arith.
From Stdlib Require Import Numbers.DecimalString.
From Stdlib Require Numbers.DecimalPos.
Import ListNotations.
Open Scope string_scope.


(* ================================================================== *)
(** * JavaScript string primitives used by the program                  *)
(* ================================================================== *)

Module JS.

Definition dquote : ascii := Eval cbv in ascii_of_nat 34.
Definition newline : ascii := Eval cbv in ascii_of_nat 10.
Definition creturn : ascii := Eval cbv in ascii_of_nat 13.
Definition tab : ascii := Eval cbv in ascii_of_nat 9.

(** [str c] is the one-character string. *)
Definition str (c : ascii) : string := String c "".

(** [s] between double quotes, as a template literal of the source
    writes a quoted argument. *)
Definition quoted (s : string) : string := str dquote ++ s ++ str dquote.

(** White space removed by [String.prototype.trim] (code units below
    256): TAB, LF, VT, FF, CR, SPACE and NBSP. *)
Definition is_ws (c : ascii) : bool :=
  let n := nat_of_ascii c in
  ((9 <=? n)%nat && (n <=? 13)%nat) || (n =? 32)%nat || (n =? 160)%nat.

(** Line terminators, which [.] of a regular expression does not match. *)
Definition is_lt (c : ascii) : bool :=
  Ascii.eqb c newline || Ascii.eqb c creturn.

Definition is_digit (c : ascii) : bool :=
  let n := nat_of_ascii c in (48 <=? n)%nat && (n <=? 57)%nat.

Fixpoint trimStart (s : string) : string :=
  match s with
  | "" => ""
  | String c r => if is_ws c then trimStart r else s
  end.

Fixpoint trimEnd (s : string) : string :=
  match s with
  | "" => ""
  | String c r =>
      match trimEnd r with
      | "" => if is_ws c then "" else str c
      | r' => String c r'
      end
  end.

Definition trim (s : string) : string := trimEnd (trimStart s).

(** [s.startsWith(p)] *)
Definition startsWith (s p : string) : bool := prefix p s.

(** [s.slice(n)] for [0 <= n] *)
Fixpoint slice (n : nat) (s : string) : string :=
  match n, s with
  | O, _ => s
  | S n', String _ r => slice n' r
  | S _, "" => ""
  end.

(** [s.includes(sub)]; also [/sub/.test(s)] for a literal pattern. *)
Fixpoint includes (s sub : string) : bool :=
  prefix sub s ||
  match s with
  | "" => false
  | String _ r => includes r sub
  end.

(** [s.endsWith(p)] *)
Fixpoint endsWith (s p : string) : bool :=
  String.eqb s p ||
  match s with
  | "" => false
  | String _ r => endsWith r p
  end.

(** [s.replace(/c/g, d)] for single characters [c], [d]. *)
Fixpoint replaceAllChar (c d : ascii) (s : string) : string :=
  match s with
  | "" => ""
  | String x r =>
      String (if Ascii.eqb x c then d else x) (replaceAllChar c d r)
  end.

(** [s.substring(0, n)] *)
Fixpoint take (n : nat) (s : string) : string :=
  match n, s with
  | S n', String c r => String c (take n' r)
  | _, _ => ""
  end.

(** [s.replace(lit, empty)]: a string pattern removes its first
    occurrence. *)
Fixpoint removeFirst (lit s : string) : string :=
  if prefix lit s then slice (String.length lit) s
  else match s with
       | "" => ""
       | String c r => String c (removeFirst lit r)
       end.

(** [s.split] at every newline. *)
Fixpoint splitLines (s : string) : list string :=
  match s with
  | "" => [""]
  | String c r =>
      if Ascii.eqb c newline then "" :: splitLines r
      else match splitLines r with
           | l :: ls => String c l :: ls
           | [] => [str c]
           end
  end.

(** [l.join(sep)] *)
Definition join (sep : string) (l : list string) : string :=
  String.concat sep l.

(** [s.replace(/^\/+/, empty)] *)
Fixpoint stripLeadingSlashes (s : string) : string :=
  match s with
  | String "/" r => stripLeadingSlashes r
  | _ => s
  end.

(** [s.replace(/\/+$/, empty)] *)
Fixpoint stripTrailingSlashes (s : string) : string :=
  match s with
  | "" => ""
  | String c r =>
      match stripTrailingSlashes r with
      | "" => if Ascii.eqb c "/" then "" else str c
      | r' => String c r'
      end
  end.

(** Match of [/.*lit/] anchored at the start of [s]: what follows the
    match.  The dot does not cross a line terminator and is greedy, so
    the last occurrence of [lit] on the line is taken. *)
Fixpoint dotStarLit (lit s : string) : option string :=
  match s with
  | "" => if prefix lit "" then Some "" else None
  | String c r =>
      match (if is_lt c then None else dotStarLit lit r) with
      | Some rest => Some rest
      | None => if prefix lit s then Some (slice (String.length lit) s)
                else None
      end
  end.

(** [s.replace(/.*lit/, empty)]: the leftmost match is removed. *)
Fixpoint removeDotStarLit (lit s : string) : string :=
  match dotStarLit lit s with
  | Some rest => rest
  | None =>
      match s with
      | "" => ""
      | String c r => String c (removeDotStarLit lit r)
      end
  end.

(** The part of [s] from its first slash on. *)
Fixpoint fromSlash (s : string) : string :=
  match s with
  | "" => ""
  | String c r => if Ascii.eqb c "/" then s else fromSlash r
  end.

(** [s.replace(/^\/Volumes\/[^/]+/, empty)] *)
Definition stripVolume (s : string) : string :=
  if prefix "/Volumes/" s then
    match slice 9 s with
    | String c r => if Ascii.eqb c "/" then s else fromSlash r
    | "" => s
    end
  else s.

(** The part of [s] from its first line terminator on. *)
Fixpoint skipDots (s : string) : string :=
  match s with
  | "" => ""
  | String c r => if is_lt c then s else skipDots r
  end.

(** [s.replace(/;.*/, empty)] *)
Fixpoint removeSemiDotStar (s : string) : string :=
  match s with
  | "" => ""
  | String c r =>
      if Ascii.eqb c ";" then skipDots r
      else String c (removeSemiDotStar r)
  end.

(** The longest prefix without [;], and the rest. *)
Fixpoint spanNotSemi (s : string) : string * string :=
  match s with
  | "" => ("", "")
  | String c r =>
      if Ascii.eqb c ";" then ("", s)
      else let (a, b) := spanNotSemi r in (String c a, b)
  end.

(** Match of [/date: ([^;]+);/] anchored at the start of [s]: group 1. *)
Definition dateAt (s : string) : option string :=
  if prefix "date: " s then
    match spanNotSemi (slice 6 s) with
    | (String c d, String _ _) => Some (String c d)
    | _ => None
    end
  else None.

(** [s.match(/date: ([^;]+);/)]: group 1 of the leftmost match. *)
Fixpoint matchDate (s : string) : option string :=
  match dateAt s with
  | Some d => Some d
  | None =>
      match s with
      | "" => None
      | String _ r => matchDate r
      end
  end.

Fixpoint allDigits (s : string) : bool :=
  match s with
  | "" => true
  | String c r => is_digit c && allDigits r
  end.

Fixpoint spanDigits (s : string) : string * string :=
  match s with
  | "" => ("", "")
  | String c r =>
      if is_digit c then let (a, b) := spanDigits r in (String c a, b)
      else ("", s)
  end.

(** [/^\d+\.\d+$/.test(s)] *)
Definition isRevision (s : string) : bool :=
  match spanDigits s with
  | (String _ _, String "." r) =>
      match r with
      | "" => false
      | _ => allDigits r
      end
  | _ => false
  end.

Fixpoint digitsValue (acc : Z) (s : string) : Z :=
  match s with
  | "" => acc
  | String c r =>
      if is_digit c
      then digitsValue (10 * acc + Z.of_nat (nat_of_ascii c - 48))%Z r
      else acc
  end.

(** [parseInt(s, 10)]; [None] is NaN.  The exact integer stands for the
    double the program holds: rounding is monotone, so the comparisons
    with [args.length] agree. *)
Definition parseInt (s : string) : option Z :=
  let t := trimStart s in
  let '(neg, body) :=
    match t with
    | String "-" r => (true, r)
    | String "+" r => (false, r)
    | _ => (false, t)
    end in
  match body with
  | String c _ =>
      if is_digit c
      then Some (if neg then Z.opp (digitsValue 0 body)
                 else digitsValue 0 body)
      else None
  | "" => None
  end.

(** Template-literal rendering of an integer. *)
Definition showZ (z : Z) : string := NilZero.string_of_int (Z.to_int z).

End JS.


(** Node's [path.dirname] and [path.basename] (POSIX), which the program
    imports from the runtime. *)
Module Path.

(** The part of [s] before its last slash, if it has one. *)
Fixpoint beforeLastSlash (s : string) : option string :=
  match s with
  | "" => None
  | String c r =>
      match beforeLastSlash r with
      | Some p => Some (String c p)
      | None => if Ascii.eqb c "/" then Some "" else None
      end
  end.

Definition dirname (path : string) : string :=
  match path with
  | "" => "."
  | String c0 rest =>
      let hasRoot := Ascii.eqb c0 "/" in
      match beforeLastSlash (JS.stripTrailingSlashes rest) with
      | None => if hasRoot then "/" else "."
      | Some pre =>
          if hasRoot && String.eqb pre "" then "//" else String c0 pre
      end
  end.

(** The part of [s] after its last slash (all of [s] without one). *)
Fixpoint lastSegment (s : string) : string :=
  match s with
  | "" => ""
  | String c r =>
      if JS.includes r "/" then lastSegment r
      else if Ascii.eqb c "/" then r else s
  end.

Definition basename (path : string) : string :=
  lastSegment (JS.stripTrailingSlashes path).

End Path.

(* ================================================================== *)
(** * Configuration: the module-level constants of [vic.js]             *)
(* ================================================================== *)

(** Values read from the environment when the module is loaded. *)
Record Config := {
  RCS_ROOT : string;    (* dirname(which rcs) *)
  EDITOR : string;      (* VISUAL, else EDITOR, else vi *)
  HOME_DIR : string;    (* process.env.HOME *)
  CLAUDE_CLI : string;  (* which claude, empty when absent *)
  IS_MACOS : bool;
  pid : string;         (* process.pid, as a template literal prints it *)
  cwd : string          (* process.cwd() *)
}.

Definition RCS_DIR : string := ".rcs".
Definition XATTR_KEY : string := "com.manion.rcs.path".
Definition VERSION : string := "1.1.1".

Section Constants.
Variable cfg : Config.

Definition RCS_CHECKOUT : string := RCS_ROOT cfg ++ "/co -l -zLT".
Definition RCS_CHECKIN_BASE : string := RCS_ROOT cfg ++ "/ci -u -zLT".
Definition RCS_LOCK : string := RCS_ROOT cfg ++ "/rcs -l -q -zLT".
Definition RCS_UNLOCK : string := RCS_ROOT cfg ++ "/rcs -u -q -zLT".
Definition RCS_DIFF : string := RCS_ROOT cfg ++ "/rcsdiff -u -zLT".
Definition RLOG : string := RCS_ROOT cfg ++ "/rlog -zLT".
Definition XCS_ROOT : string := HOME_DIR cfg ++ "/.xcs".
End Constants.

Definition nl : string := JS.str JS.newline.

Definition CLAUDE_PROMPT : string :=
  "You are a commit message generator. Analyze the following unified diff and write a concise, descriptive RCS commit message."
  ++ nl ++ nl ++ "Rules:" ++ nl
  ++ "- Write a single line summary (max 72 chars) describing WHAT changed" ++ nl
  ++ "- Focus on the functional change, not the mechanics (avoid "
  ++ JS.quoted "changed line X" ++ ")" ++ nl
  ++ "- Use imperative mood (" ++ JS.quoted "Add feature" ++ " not "
  ++ JS.quoted "Added feature" ++ ")" ++ nl
  ++ "- Be specific but concise" ++ nl
  ++ "- If multiple changes, summarize the main theme" ++ nl
  ++ "- Output ONLY the commit message, nothing else" ++ nl ++ nl
  ++ "Diff:" ++ nl.

(* ================================================================== *)
(** * The operating system as the program sees it                       *)
(* ================================================================== *)

(** A call that may throw: [Err] carries [e.message]. *)
Inductive Try (A : Type) : Type :=
| Ok (a : A)
| Err (message : string).
Arguments Ok {A} a.
Arguments Err {A} message.

(** What [fs.statSync] is read for. *)
Record Stats := {
  st_mode : Z;
  st_nlink : Z;
  st_isFile : bool
}.

(** What [spawnSync] returns; [status] is [None] for JavaScript's [null]
    (the child was killed by a signal or by the timeout, or never ran). *)
Record SpawnResult := {
  status : option Z;
  stdout : string;
  stderr : string
}.

Inductive Shell := Sh | Bash.

(** What eslint did with one file: its formatted report (empty when
    there is nothing to report or the extension has no rule set), an
    error while linting, or a failure to load eslint at all. *)
Inductive LintOutcome :=
| LintReport (text : string)
| LintFailed (message : string)
| LintUnavailable (message : string).

(** The runtime and the machine under the program.  Queries read the
    world; updates and child processes may change it in any way.  Nothing
    is assumed about the RCS tools, the attribute tools, the editor, the
    summariser or the user beyond their types. *)
Class System (W : Type) : Type := {
  (* node:fs *)
  existsSync : string -> W -> bool;
  statSync : string -> W -> Try Stats;
  lstatIsSymbolicLink : string -> W -> Try bool;
  realpathSync : string -> W -> Try string;
  writeFileSync : string -> string -> W -> Try unit * W;
  mkdirSync : string -> Z -> W -> Try unit * W;
  chmodSync : string -> Z -> W -> Try unit * W;
  unlinkSync : string -> W -> Try unit * W;
  (* node:child_process *)
  runCommand : Shell -> string -> W -> Try SpawnResult * W;
  runClaude : string -> list string -> W -> Try SpawnResult * W;
  runEditor : string -> list string -> W -> W;
  (* node:readline: the answer typed at a question *)
  question : string -> W -> string * W;
  (* eslint, loaded and run on one file *)
  lintFile : string -> W -> LintOutcome * W;
  (* node:path resolve, which yields an absolute path *)
  resolve : string -> string;
  resolve_absolute : forall p, JS.startsWith (resolve p) "/" = true
}.

(** The child processes of the program, one constructor per command
    line of the source. *)
Inductive Command :=
| XattrGet (dir : string)
| XattrSet (dir relativePath : string)
| XattrRemove (dir : string)
| RlogPair (fname rcsv : string)
| RlogFile (rcsFile : string)
| Checkin (message fname rcsFile : string)
| Checkout (fname rcsFile : string)
| Lock (fname rcsFile : string)
| Unlock (fname rcsFile : string)
| DiffTo (fname rcsFile out : string)
| DiffRev (rev1 : string) (rev2 : option string) (fname rcsFile : string)
| Cat (file : string)
| CatQuoted (file : string).

Section CommandLine.
Variable cfg : Config.
Import JS.

(** The command line handed to the shell. *)
Definition commandLine (c : Command) : string :=
  match c with
  | XattrGet dir =>
      if IS_MACOS cfg
      then "xattr -p " ++ XATTR_KEY ++ " " ++ quoted dir ++ " 2>/dev/null"
      else "getfattr -n user." ++ XATTR_KEY ++ " --only-values "
           ++ quoted dir ++ " 2>/dev/null"
  | XattrSet dir rel =>
      if IS_MACOS cfg
      then "xattr -w " ++ XATTR_KEY ++ " " ++ quoted rel ++ " " ++ quoted dir
      else "setfattr -n user." ++ XATTR_KEY ++ " -v " ++ quoted rel
           ++ " " ++ quoted dir
  | XattrRemove dir =>
      if IS_MACOS cfg
      then "xattr -d " ++ XATTR_KEY ++ " " ++ quoted dir ++ " 2>/dev/null"
      else "setfattr -x user." ++ XATTR_KEY ++ " " ++ quoted dir
           ++ " 2>/dev/null"
  | RlogPair fname rcsv =>
      RLOG cfg ++ " " ++ quoted fname ++ " " ++ quoted rcsv ++ " 2>/dev/null"
  | RlogFile rcsFile =>
      RLOG cfg ++ " " ++ quoted rcsFile ++ " 2>/dev/null"
  | Checkin message fname rcsFile =>
      RCS_CHECKIN_BASE cfg ++ " -m" ++ quoted message ++ " "
      ++ quoted fname ++ " " ++ quoted rcsFile
  | Checkout fname rcsFile =>
      RCS_CHECKOUT cfg ++ " " ++ quoted fname ++ " " ++ quoted rcsFile
  | Lock fname rcsFile =>
      RCS_LOCK cfg ++ " " ++ quoted fname ++ " " ++ quoted rcsFile
  | Unlock fname rcsFile =>
      RCS_UNLOCK cfg ++ " " ++ quoted fname ++ " " ++ quoted rcsFile
  | DiffTo fname rcsFile out =>
      RCS_DIFF cfg ++ " " ++ quoted fname ++ " " ++ quoted rcsFile
      ++ " >" ++ out ++ " 2>/dev/null"
  | DiffRev rev1 None fname rcsFile =>
      RCS_DIFF cfg ++ " -r" ++ rev1 ++ " " ++ quoted fname ++ " "
      ++ quoted rcsFile
  | DiffRev rev1 (Some rev2) fname rcsFile =>
      RCS_DIFF cfg ++ " -r" ++ rev1 ++ " -r" ++ rev2 ++ " "
      ++ quoted fname ++ " " ++ quoted rcsFile
  | Cat file => "cat " ++ file
  | CatQuoted file => "cat " ++ quoted file
  end.
End CommandLine.

(** What the program did to the outside, in order. *)
Inductive Event :=
| EvLog (line : string)
| EvError (line : string)
| EvQuestion (q answer : string)
| EvCloseReadline
| EvRun (c : Command) (r : Try SpawnResult)
| EvClaude (args : list string) (r : Try SpawnResult)
| EvEditor (editor : string) (files : list string)
| EvWriteFile (path : string) (r : Try unit)
| EvMkdir (path : string) (mode : Z) (r : Try unit)
| EvChmod (path : string) (mode : Z) (r : Try unit)
| EvUnlink (path : string) (r : Try unit)
| EvLint (fname : string) (r : LintOutcome).

(* ================================================================== *)
(** * The monad of the program: state, trace, exit and exceptions       *)
(* ================================================================== *)

Section Monad.
Variable W : Type.

(** The world, the trace so far, and the two module-level variables
    [rl] (is the shared readline interface open) and
    [enableSyntaxCheck]. *)
Record State := {
  world : W;
  trace : list Event;
  rl : bool;
  enableSyntaxCheck : bool
}.

Inductive Outcome (A : Type) : Type :=
| Done (a : A)
| Exit (code : Z)          (* process.exit(code) *)
| Throw (message : string) (* an exception nobody caught yet *).
Arguments Done {A} a.
Arguments Exit {A} code.
Arguments Throw {A} message.

Definition M (A : Type) : Type := State -> Outcome A * State.

Definition ret {A} (a : A) : M A := fun s => (Done a, s).

Definition bind {A B} (m : M A) (k : A -> M B) : M B :=
  fun s =>
    match m s with
    | (Done a, s') => k a s'
    | (Exit c, s') => (Exit c, s')
    | (Throw e, s') => (Throw e, s')
    end.

Definition exit {A} (code : Z) : M A := fun s => (Exit code, s).
Definition throw {A} (e : string) : M A := fun s => (Throw e, s).

Definition emit (e : Event) : M unit :=
  fun s => (Done tt, {| world := world s; trace := trace s ++ [e];
                        rl := rl s;
                        enableSyntaxCheck := enableSyntaxCheck s |}).

(** A call that reads the world. *)
Definition ask {A} (f : W -> A) : M A := fun s => (Done (f (world s)), s).

(** A call that may change the world. *)
Definition call {A} (f : W -> A * W) : M A :=
  fun s =>
    let (a, w) := f (world s) in
    (Done a, {| world := w; trace := trace s; rl := rl s;
                enableSyntaxCheck := enableSyntaxCheck s |}).

Definition setReadline (b : bool) : M unit :=
  fun s => (Done tt, {| world := world s; trace := trace s; rl := b;
                        enableSyntaxCheck := enableSyntaxCheck s |}).

Definition setSyntaxCheck (b : bool) : M unit :=
  fun s => (Done tt, {| world := world s; trace := trace s; rl := rl s;
                        enableSyntaxCheck := b |}).

Definition getState : M State := fun s => (Done s, s).

(** [for (const x of l) await f(x)] *)
Fixpoint forEach {A} (f : A -> M unit) (l : list A) : M unit :=
  match l with
  | [] => ret tt
  | x :: r => bind (f x) (fun _ => forEach f r)
  end.

End Monad.

Arguments Done {A} a.
Arguments Exit {A} code.
Arguments Throw {A} message.
Arguments world {W} s.
Arguments trace {W} s.
Arguments rl {W} s.
Arguments enableSyntaxCheck {W} s.
Arguments ret {W A} a.
Arguments bind {W A B} m k.
Arguments exit {W A} code.
Arguments throw {W A} e.
Arguments emit {W} e.
Arguments ask {W A} f.
Arguments call {W A} f.
Arguments setReadline {W} b.
Arguments setSyntaxCheck {W} b.
Arguments getState {W}.
Arguments forEach {W A} f l.

Declare Scope vic_scope.
Delimit Scope vic_scope with vic.
Notation "x <- m ;; k" := (bind m (fun x => k))
  (at level 61, m at next level, right associativity) : vic_scope.
Notation "m ;; k" := (bind m (fun _ => k))
  (at level 61, right associativity) : vic_scope.
(** [x <-? m ;; k]: go on with [x] unless [m] made the function return
    [null]. *)
Notation "x <-? m ;; k" :=
  (bind m (fun o => match o with Some x => k | None => ret None end))
  (at level 61, m at next level, right associativity) : vic_scope.
Notation "' pat <-? m ;; k" :=
  (bind m (fun o => match o with Some pat => k | None => ret None end))
  (at level 61, pat pattern, m at next level, right associativity)
  : vic_scope.
Open Scope vic_scope.

(* ================================================================== *)
(** * The program                                                       *)
(* ================================================================== *)

(** JavaScript truthiness of a string. *)
Definition truthy (s : string) : bool := negb (String.eqb s "").

(** [a || b] for a value that is [null] or a string. *)
Definition orElse (a : option string) (b : string) : string :=
  match a with
  | Some s => if truthy s then s else b
  | None => b
  end.

(** The lines of a text the way [grep] reads them: a final newline ends
    the last line and does not start another one. *)
Fixpoint dropLastEmpty (l : list string) : list string :=
  match l with
  | [] => []
  | x :: r =>
      match r with
      | [] => if String.eqb x "" then [] else [x]
      | _ => x :: dropLastEmpty r
      end
  end.

Definition textLines (s : string) : list string :=
  dropLastEmpty (JS.splitLines s).

(** [grep pat]: the lines that contain the fixed string [pat]. *)
Definition grepLines (pat text : string) : list string :=
  filter (fun l => JS.includes l pat) (textLines text).

(** Every line followed by a newline. *)
Definition unlines (ls : list string) : string :=
  fold_right (fun l rest => l ++ nl ++ rest) "" ls.

(** The holder's name in the trimmed output: the text up to the last
    [locked by: ] of the first line that has one is removed, then the
    text from the first semicolon to the end of its line. *)
Definition lockerOf (result : string) : string :=
  JS.removeSemiDotStar (JS.removeDotStarLit "locked by: " (JS.trim result)).

(** The trimmed output with every double quote replaced by an
    apostrophe and every newline by a space, cut to 200 characters. *)
Definition sanitize (out : string) : string :=
  JS.take 200
    (JS.replaceAllChar JS.newline " "
       (JS.replaceAllChar JS.dquote "'" (JS.trim out))).

Definition underlineMessage (s : string) : string :=
  JS.str (ascii_of_nat 27) ++ "[4m" ++ s ++ JS.str (ascii_of_nat 27) ++ "[0m".

(** The walk of [findXcsBundleRoot]: [fuel] bounds the iterations. *)
Fixpoint xcsWalk (home : string) (fuel : nat) (current : string)
  : option string :=
  match fuel with
  | O => None
  | S f =>
      if String.eqb current "/" || String.eqb current home then None
      else if JS.endsWith current ".xcs" then Some current
      else xcsWalk home f (Path.dirname current)
  end.

Section PathHint.
Variable cfg : Config.

(** Generate a hint for the remote RCS path from a directory. *)
Definition getPathHint (dir : string) : string :=
  let hint :=
    if JS.startsWith dir (HOME_DIR cfg)
    then JS.slice (String.length (HOME_DIR cfg)) dir
    else if JS.startsWith dir "/Volumes/"
    then JS.stripVolume dir
    else dir in
  JS.stripTrailingSlashes (JS.stripLeadingSlashes hint).
End PathHint.

Record PathInfo := { relative : string; full : string }.

Record FileInfo := {
  fname : string;
  rcsFile : string;
  baseName : string;
  originalMode : Z;
  rcsBasePath : option string
}.

Record HistoryEntry := { rev : string; date : string; msg : string }.

(** The state of the loop of [showCommits] over the lines of the log. *)
Record ParseState := {
  inRevision : bool;
  currentRev : string;
  currentDate : string;
  currentMsg : list string;
  entries : list HistoryEntry
}.

Definition REVISION_SEPARATOR : string := "----------------------------".

(** [if (currentRev && currentMsg.length) entries.push(...)] *)
Definition pushEntry (st : ParseState) : list HistoryEntry :=
  if truthy (currentRev st) && negb (Nat.eqb (List.length (currentMsg st)) 0)
  then entries st ++
       [{| rev := currentRev st; date := currentDate st;
           msg := JS.trim (JS.join " " (currentMsg st)) |}]
  else entries st.

(** One turn of the loop. *)
Definition parseLine (st : ParseState) (line : string) : ParseState :=
  if JS.startsWith line "revision " then
    {| inRevision := true;
       currentRev := JS.trim (JS.removeFirst "revision " line);
       currentDate := currentDate st;
       currentMsg := [];
       entries := pushEntry st |}
  else if inRevision st && JS.startsWith line "date: " then
    {| inRevision := inRevision st;
       currentRev := currentRev st;
       currentDate := match JS.matchDate line with
                      | Some d => JS.trim d
                      | None => currentDate st
                      end;
       currentMsg := currentMsg st;
       entries := entries st |}
  else if inRevision st && JS.startsWith line REVISION_SEPARATOR then
    {| inRevision := false;
       currentRev := "";
       currentDate := currentDate st;
       currentMsg := [];
       entries := pushEntry st |}
  else if inRevision st && JS.startsWith line "===" then
    {| inRevision := inRevision st;
       currentRev := currentRev st;
       currentDate := currentDate st;
       currentMsg := currentMsg st;
       entries := pushEntry st |}
  else if inRevision st && truthy line && negb (JS.startsWith line "date:")
          && negb (JS.startsWith line "branches:") then
    {| inRevision := inRevision st;
       currentRev := currentRev st;
       currentDate := currentDate st;
       currentMsg := currentMsg st ++ [line];
       entries := entries st |}
  else st.

Definition parseStart : ParseState :=
  {| inRevision := false; currentRev := ""; currentDate := "";
     currentMsg := []; entries := [] |}.

(** The entries in the order of the log, newest first. *)
Definition parseLog (result : string) : list HistoryEntry :=
  entries (fold_left parseLine (JS.splitLines result) parseStart).

(** [entries.reverse()]: the history as it is shown, oldest first. *)
Definition history (result : string) : list HistoryEntry :=
  List.rev (parseLog result).

(** [parseInt(v, 10) || 3] where [v] is [undefined] when absent: NaN and
    0 are falsy. *)
Definition maxFilesOf (v : option string) : Z :=
  match v with
  | Some s =>
      match JS.parseInt s with
      | Some 0%Z => 3%Z
      | Some z => z
      | None => 3%Z
      end
  | None => 3%Z
  end.

(** [args[0] === flag] *)
Definition firstIs (args : list string) (flag : string) : bool :=
  match args with
  | a :: _ => String.eqb a flag
  | [] => false
  end.

Section Program.
Context {W : Type} {Sys : System W}.
Variable cfg : Config.
Import JS Path.

Local Abbreviation M := (M W).

Definition log (line : string) : M unit := emit (EvLog line).
Definition logError (line : string) : M unit := emit (EvError line).

(** [closeReadline]: closes the shared interface when there is one. *)
Definition closeReadline : M unit :=
  s <- getState ;;
  if rl s then emit EvCloseReadline ;; setReadline false else ret tt.

(** [prompt]: [getReadline] creates the interface when there is none. *)
Definition prompt (q : string) : M string :=
  setReadline true ;;
  answer <- call (question q) ;;
  emit (EvQuestion q answer) ;;
  ret answer.

(** [shell]: run a command with bash and give its exit code; a throw
    of [spawnSync] counts as code 1. *)
Definition shell (c : Command) : M (option Z) :=
  r <- call (runCommand Bash (commandLine cfg c)) ;;
  emit (EvRun c r) ;;
  ret (match r with
       | Ok res => status res
       | Err _ => Some 1%Z
       end).

(** [execSync] inside [try]: the output, or [Err] when it throws, which
    it does unless the command exits with code 0. *)
Definition execSync (c : Command) : M (Try string) :=
  r <- call (runCommand Sh (commandLine cfg c)) ;;
  emit (EvRun c r) ;;
  ret (match r with
       | Ok res =>
           match status res with
           | Some 0%Z => Ok (stdout res)
           | _ => Err "Command failed"
           end
       | Err e => Err e
       end).

(** [execSync] of a pipeline [c | grep pat]: the shell gives the
    pipeline the exit code of [grep], which is 0 exactly when a line
    matched; the exit code of [c] is lost. *)
Definition execSyncGrep (c : Command) (pat : string) : M (Try string) :=
  r <- call (runCommand Sh (commandLine cfg c)) ;;
  emit (EvRun c r) ;;
  ret (match r with
       | Ok res =>
           match grepLines pat (stdout res) with
           | [] => Err "Command failed"
           | ls => Ok (unlines ls)
           end
       | Err e => Err e
       end).

(** Generate commit message using Claude AI *)
Definition generateCommitMessage (diff : string) : M string :=
  if negb (truthy (CLAUDE_CLI cfg)) || negb (truthy diff)
     || String.eqb (trim diff) ""
  then ret "-"
  else
    let args := ["--print"; "--max-turns"; "1"; CLAUDE_PROMPT ++ diff] in
    r <- call (runClaude (CLAUDE_CLI cfg) args) ;;
    emit (EvClaude args r) ;;
    match r with
    | Ok result =>
        match status result with
        | Some 0%Z =>
            if truthy (stdout result)
            then let sanitized := sanitize (stdout result) in
                 ret (if truthy sanitized then sanitized else "-")
            else ret "-"
        | _ => ret "-"
        end
    | Err e => log ("Claude error: " ++ e) ;; ret "-"
    end.

(** Read xattr from directory (returns relative path or null) *)
Definition getXattrPath (dir : string) : M (option string) :=
  r <- execSync (XattrGet dir) ;;
  ret (match r with
       | Ok result => let t := trim result in
                      if truthy t then Some t else None
       | Err _ => None
       end).

(** Write xattr to directory; a failure is silent. *)
Definition setXattrPath (dir relativePath : string) : M unit :=
  execSync (XattrSet dir relativePath) ;; ret tt.

(** Remove invalid xattr from directory; a failure is silent. *)
Definition removeXattr (dir : string) : M unit :=
  execSync (XattrRemove dir) ;; ret tt.

(** Find the .xcs bundle root by walking up from filePath *)
Definition findXcsBundleRoot (filePath : string) : M (option string) :=
  let current := resolve filePath in
  ex <- ask (existsSync current) ;;
  current <- (if ex then
                st <- ask (statSync current) ;;
                match st with
                | Ok stats => ret (if st_isFile stats then dirname current
                                   else current)
                | Err e => throw e
                end
              else ret current) ;;
  ret (xcsWalk (HOME_DIR cfg) (S (String.length current)) current).

(** What [promptForRcsPath] makes of the answer: a blank answer or a dot
    is the local .rcs directory, anything else a path under ~/.xcs. *)
Definition pathInfoFor (localDir answer : string) : PathInfo :=
  let trimmed := trim answer in
  if String.eqb trimmed "" || String.eqb trimmed "."
  then {| relative := "."; full := localDir ++ "/" ++ RCS_DIR |}
  else
    let relativePath := stripTrailingSlashes (stripLeadingSlashes trimmed) in
    {| relative := relativePath; full := XCS_ROOT cfg ++ "/" ++ relativePath |}.

Definition rcsPathQuestion (localDir : string) : string :=
  "  hint: " ++ getPathHint cfg localDir ++ nl ++ "> ".

(** Prompt user for RCS path *)
Definition promptForRcsPath (localDir : string) : M PathInfo :=
  log "No RCS directory. Enter remote path or <enter>" ;;
  answer <- prompt (rcsPathQuestion localDir) ;;
  ret (pathInfoFor localDir answer).

(** Resolve RCS store path *)
Definition resolveRcsPath (filePath fileDir : string) : M (option string) :=
  xcsRoot <- findXcsBundleRoot filePath ;;
  let xattrDir := orElse xcsRoot fileDir in
  let localDir := orElse xcsRoot fileDir in
  xattrValue <- getXattrPath xattrDir ;;
  cached <- match xattrValue with
            | Some v =>
                let fullPath :=
                  if String.eqb v "." then localDir ++ "/" ++ RCS_DIR
                  else XCS_ROOT cfg ++ "/" ++ v in
                ex <- ask (existsSync fullPath) ;;
                if ex then ret (Some fullPath)
                else removeXattr xattrDir ;; ret None
            | None => ret None
            end ;;
  match cached with
  | Some fullPath => ret (Some fullPath)
  | None =>
      pathInfo <- promptForRcsPath localDir ;;
      closeReadline ;;
      ex <- ask (existsSync (full pathInfo)) ;;
      created <- (if ex then ret true
                  else
                    r <- call (mkdirSync (full pathInfo) 509%Z) ;;
                    emit (EvMkdir (full pathInfo) 509%Z r) ;;
                    match r with
                    | Ok _ => ret true
                    | Err e =>
                        log ("Error creating directory " ++ full pathInfo
                             ++ ": " ++ e) ;;
                        ret false
                    end) ;;
      if created : bool
      then setXattrPath xattrDir (relative pathInfo) ;;
           ret (Some (full pathInfo))
      else ret None
  end.

(** Get the name of the person who holds the lock *)
Definition getLockersName (fname : string) (rcsBasePath : option string)
  : M string :=
  let baseName := basename fname in
  let rcsDir := orElse rcsBasePath (dirname fname ++ "/" ++ RCS_DIR) in
  r <- execSyncGrep (RlogPair fname (rcsDir ++ "/" ++ baseName ++ ",v"))
                    "locked by:" ;;
  ret (match r with
       | Ok result => lockerOf result
       | Err _ => ""
       end).

(** Run ESLint on the file when syntax checking is enabled *)
Definition runSyntaxCheck (fname : string) : M unit :=
  s <- getState ;;
  if negb (enableSyntaxCheck s) then log ""
  else
    r <- call (lintFile fname) ;;
    emit (EvLint fname r) ;;
    match r with
    | LintReport text => log text
    | LintFailed e => logError ("ESLint error: " ++ e)
    | LintUnavailable e => throw e
    end.

(** ** checkoutFile, block by block *)

(** Handle symbolic links: the file name, directory and base name to go
    on with, or [None] when the user declines to edit the target. *)
Definition checkoutFile_symlink (fname : string)
  : M (option (string * string * string)) :=
  let dirName := dirname (resolve fname) in
  let baseName := basename fname in
  ex <- ask (existsSync fname) ;;
  if ex then
    l <- ask (lstatIsSymbolicLink fname) ;;
    match l with
    | Ok true =>
        rp <- ask (realpathSync fname) ;;
        match rp with
        | Ok realPath =>
            log (fname ++ " is a symbolic link to " ++ realPath) ;;
            ans <- prompt "Edit the linked file? [Y/n] " ;;
            if includes ans "n" || includes ans "N" then ret None
            else ret (Some (realPath, dirname realPath, basename realPath))
        | Err e =>
            log ("Warning: " ++ e) ;; ret (Some (fname, dirName, baseName))
        end
    | Ok false => ret (Some (fname, dirName, baseName))
    | Err e => log ("Warning: " ++ e) ;; ret (Some (fname, dirName, baseName))
    end
  else ret (Some (fname, dirName, baseName)).

(** Ensure file exists *)
Definition checkoutFile_ensureExists (fname : string) : M (option unit) :=
  ex <- ask (existsSync fname) ;;
  if ex then ret (Some tt)
  else
    r <- call (writeFileSync fname "") ;;
    emit (EvWriteFile fname r) ;;
    match r with
    | Ok _ => ret (Some tt)
    | Err e => log ("Cannot create " ++ fname ++ ": " ++ e) ;; ret None
    end.

(** Check for hard links and capture original permissions *)
Definition checkoutFile_hardLinks (fname : string) : M (option Z) :=
  st <- ask (statSync fname) ;;
  match st with
  | Err e => throw e
  | Ok stats =>
      if (1 <? st_nlink stats)%Z then
        log ("There are " ++ showZ (st_nlink stats) ++ " links to this file.") ;;
        log "It is best to delete all names except one before continuing." ;;
        ret None
      else ret (Some (st_mode stats))
  end.

(** Determine RCS path - check for existing local .rcs first: the store
    root and [rcsBasePath]. *)
Definition checkoutFile_rcsPath (fname dirName : string)
  : M (option (string * option string)) :=
  let fullPath := resolve fname in
  let localRcsPath := dirName ++ "/" ++ RCS_DIR in
  ex <- ask (existsSync localRcsPath) ;;
  if ex then ret (Some (localRcsPath, None))
  else
    r <- resolveRcsPath fullPath dirName ;;
    match r with
    | Some p => if truthy p then ret (Some (p, Some p)) else ret None
    | None => ret None
    end.

(** Ensure RCS directory exists *)
Definition checkoutFile_ensureRcsDir (rcsPath : string) : M (option unit) :=
  ex <- ask (existsSync rcsPath) ;;
  if ex then ret (Some tt)
  else
    r <- call (mkdirSync rcsPath 509%Z) ;;
    emit (EvMkdir rcsPath 509%Z r) ;;
    match r with
    | Ok _ => ret (Some tt)
    | Err e =>
        log ("Permission denied creating directory " ++ rcsPath ++ ": " ++ e) ;;
        ret None
    end.

(** Check in if no RCS entry exists *)
Definition checkoutFile_initialCheckin (fname rcsFile : string) : M unit :=
  ex <- ask (existsSync rcsFile) ;;
  if ex then ret tt
  else
    log (nl ++ "NOTE: " ++ fname ++ " has never been checked into RCS") ;;
    shell (Checkin "Initial checkin" fname rcsFile) ;;
    ret tt.

(** The first three blocks: the file to edit, its directory, its base
    name and its mode. *)
Definition checkoutFile_identify (fname0 : string)
  : M (option (string * string * string * Z)) :=
  '(fname, dirName, baseName) <-? checkoutFile_symlink fname0 ;;
  'tt <-? checkoutFile_ensureExists fname ;;
  originalMode <-? checkoutFile_hardLinks fname ;;
  ret (Some (fname, dirName, baseName, originalMode)).

(** Everything up to the lock check: the session as far as it is known. *)
Definition checkoutFile_prepare (fname0 : string) : M (option FileInfo) :=
  '(fname, dirName, baseName, originalMode) <-? checkoutFile_identify fname0 ;;
  '(rcsPath, rcsBasePath) <-? checkoutFile_rcsPath fname dirName ;;
  'tt <-? checkoutFile_ensureRcsDir rcsPath ;;
  let rcsFile := rcsPath ++ "/" ++ baseName ++ ",v" in
  checkoutFile_initialCheckin fname rcsFile ;;
  ret (Some {| fname := fname; rcsFile := rcsFile; baseName := baseName;
               originalMode := originalMode; rcsBasePath := rcsBasePath |}).

Definition unlockQuestion : string := nl ++ "Do you want to unlock the file? ".

(** The answer to the offer to unlock is a refusal unless it has a y in it:
    the test is [!/y/i.test(ans)]. *)
Definition declined (ans : string) : bool :=
  negb (includes ans "y" || includes ans "Y").

(** Check if file is locked by someone else *)
Definition checkoutFile_lockConflict (f : FileInfo) : M (option unit) :=
  lname <- getLockersName (fname f) (rcsBasePath f) ;;
  if truthy lname then
    log ("ERROR: " ++ quoted (fname f) ++ " locked (checked out) by: " ++ lname) ;;
    log "       You can force an unlock, but be sure they're not editing it." ;;
    ans <- prompt unlockQuestion ;;
    if declined ans then ret None
    else shell (Unlock (fname f) (rcsFile f)) ;; ret (Some tt)
  else ret (Some tt).

Definition tmpFile : string := "/tmp/" ++ pid cfg ++ ".vic".

(** Ignore a throw of [unlinkSync]. *)
Definition tryUnlink (path : string) : M unit :=
  r <- call (unlinkSync path) ;; emit (EvUnlink path r).

(** Ignore a throw of [chmodSync]. *)
Definition tryChmod (path : string) (mode : Z) : M unit :=
  r <- call (chmodSync path mode) ;; emit (EvChmod path mode r).

(** Check for uncommitted changes: the mode to restore at the end, or
    [None] when the session is given up. *)
Definition checkoutFile_drift (f : FileInfo) : M (option Z) :=
  code <- shell (DiffTo (fname f) (rcsFile f) tmpFile) ;;
  match code with
  | Some 0%Z => ret (Some (originalMode f))
  | _ =>
      log (nl ++ "ERROR: File has been changed since last check in.") ;;
      log ("       Someone edited " ++ quoted (fname f)
           ++ " without checking in their changes." ++ nl) ;;
      log "       Here are the changes:" ;;
      shell (Cat tmpFile) ;;
      tryUnlink tmpFile ;;
      log (nl ++ "  '<' = RCS has information that the file does not.") ;;
      log ("  '>' = The file has information that RCS does not." ++ nl) ;;
      log "Options:" ;;
      log "     1. Check the changes into RCS" ;;
      log "     2. Exit" ;;
      log "     3. Ignore changes and continue (DANGEROUS)" ;;
      ans <- prompt "---> " ;;
      if includes ans "1" then
        log "" ;;
        shell (Lock (fname f) (rcsFile f)) ;;
        shell (Checkin "Sync uncommitted changes" (fname f) (rcsFile f)) ;;
        st <- ask (statSync (fname f)) ;;
        match st with
        | Err e => throw e
        | Ok newStats => log "" ;; ret (Some (st_mode newStats))
        end
      else if negb (includes ans "3") then
        log "No changes made" ;; ret None
      else ret (Some (originalMode f))
  end.

(** Remove the temporary file and the write bits of the RCS file and of
    the working file. *)
Definition checkoutFile_readOnly (f : FileInfo) (originalMode : Z) : M unit :=
  tryUnlink tmpFile ;;
  tryChmod (rcsFile f) (Z.land originalMode (Z.lnot 146)) ;;
  tryChmod (fname f) (Z.land originalMode (Z.lnot 146)).

(** Everything up to the check for uncommitted changes. *)
Definition checkoutFile_upToDrift (fname0 : string) : M (option FileInfo) :=
  f <-? checkoutFile_prepare fname0 ;;
  'tt <-? checkoutFile_lockConflict f ;;
  ret (Some f).

(** Everything up to the checkout command. *)
Definition checkoutFile_upToCheckout (fname0 : string) : M (option FileInfo) :=
  f <-? checkoutFile_upToDrift fname0 ;;
  mode <-? checkoutFile_drift f ;;
  checkoutFile_readOnly f mode ;;
  ret (Some {| fname := fname f; rcsFile := rcsFile f;
               baseName := baseName f; originalMode := mode;
               rcsBasePath := rcsBasePath f |}).

(** Checkout, and make sure the lock was taken. *)
Definition checkoutFile_checkout (f : FileInfo) : M (option FileInfo) :=
  code <- shell (Checkout (fname f) (rcsFile f)) ;;
  match code with
  | Some 0%Z =>
      lname <- getLockersName (fname f) (rcsBasePath f) ;;
      if negb (truthy lname) then
        log ("Could not lock " ++ fname f ++ ".") ;; ret None
      else log "" ;; ret (Some f)
  | _ => log ("Checkout failed for " ++ fname f) ;; ret None
  end.

(** Checkout a file from RCS - returns file info for later checkin, or
    null on failure *)
Definition checkoutFile (fname0 : string) : M (option FileInfo) :=
  f <-? checkoutFile_upToCheckout fname0 ;;
  checkoutFile_checkout f.

(** Checkin a file to RCS *)
Definition checkinFile (f : FileInfo) : M unit :=
  let diffTmpFile := "/tmp/" ++ pid cfg ++ "." ++ basename (fname f) ++ ".diff" in
  shell (DiffTo (fname f) (rcsFile f) diffTmpFile) ;;
  r <- execSync (CatQuoted diffTmpFile) ;;
  commitMessage <- match r with
                   | Ok diffContent =>
                       m <- (if truthy (trim diffContent)
                             then generateCommitMessage diffContent
                             else ret "-") ;;
                       tryUnlink diffTmpFile ;;
                       ret m
                   | Err _ => ret "-"
                   end ;;
  (if negb (String.eqb commitMessage "-")
   then log (underlineMessage "Commit message:" ++ nl ++ commitMessage ++ nl)
   else ret tt) ;;
  shell (Checkin commitMessage (fname f) (rcsFile f)) ;;
  lname <- getLockersName (fname f) (rcsBasePath f) ;;
  (if truthy lname
   then shell (Unlock (fname f) (rcsFile f)) ;;
        log ("File " ++ fname f ++ " has been unlocked.")
   else ret tt) ;;
  tryChmod (fname f) (originalMode f) ;;
  runSyntaxCheck (fname f).

(** Determine RCS file location, as [showCommits] and [showDiff] both do:
    [None] after the message that there is no history. *)
Definition locateRcsFile (fname : string) : M (option string) :=
  let dirName := dirname (resolve fname) in
  let baseName := basename fname in
  let localRcsPath := dirName ++ "/" ++ RCS_DIR in
  let noHistory := log ("No RCS history found for " ++ fname) ;; ret None in
  ex <- ask (existsSync localRcsPath) ;;
  rcsFile <-? (if ex then ret (Some (localRcsPath ++ "/" ++ baseName ++ ",v"))
               else
                 xcsRoot <- findXcsBundleRoot (resolve fname) ;;
                 let xattrDir := orElse xcsRoot dirName in
                 xattrValue <- getXattrPath xattrDir ;;
                 match xattrValue with
                 | Some v =>
                     if negb (String.eqb v ".")
                     then ret (Some (XCS_ROOT cfg ++ "/" ++ v ++ "/"
                                     ++ baseName ++ ",v"))
                     else ret (Some (orElse xcsRoot dirName ++ "/" ++ RCS_DIR
                                     ++ "/" ++ baseName ++ ",v"))
                 | None => noHistory
                 end) ;;
  ex <- ask (existsSync rcsFile) ;;
  if ex then ret (Some rcsFile) else noHistory.

(** Show commit history for a file *)
Definition showCommits (fname : string) : M unit :=
  located <- locateRcsFile fname ;;
  match located with
  | None => ret tt
  | Some rcsFile =>
      r <- execSync (RlogFile rcsFile) ;;
      match r with
      | Ok result =>
          log (nl ++ underlineMessage fname ++ nl) ;;
          forEach (fun entry =>
                     log ("  " ++ rev entry ++ "  " ++ date entry ++ "  "
                          ++ msg entry))
                  (history result) ;;
          log ""
      | Err e => log ("Error reading RCS history: " ++ e)
      end
  end.

(** Show diff between revisions *)
Definition showDiff (fname rev1 : string) (rev2 : option string) : M unit :=
  located <- locateRcsFile fname ;;
  match located with
  | None => ret tt
  | Some rcsFile =>
      let rev2 := match rev2 with
                  | Some r => if truthy r then Some r else None
                  | None => None
                  end in
      log (nl ++ underlineMessage fname ++ " (" ++ rev1 ++ " vs "
           ++ orElse rev2 "current" ++ ")" ++ nl) ;;
      shell (DiffRev rev1 rev2 fname rcsFile) ;;
      ret tt
  end.

(** The loop that checks out all files first: the sessions of the files
    whose checkout did not return null, in order. *)
Fixpoint checkoutAll (args : list string) : M (list FileInfo) :=
  match args with
  | [] => ret []
  | fname :: rest =>
      fileInfo <- checkoutFile fname ;;
      others <- checkoutAll rest ;;
      ret (match fileInfo with
           | Some f => f :: others
           | None => others
           end)
  end.

Definition tooManyFiles (n : nat) (maxFiles : Z) (hint : string) : M unit :=
  logError ("Too many files (" ++ showZ (Z.of_nat n) ++ "). Maximum is "
            ++ showZ maxFiles ++ ".") ;;
  logError ("Use -n NUM to increase the limit, e.g.: vic -n 5 " ++ hint) ;;
  exit 1%Z.

Definition spawnEditor (files : list string) : M unit :=
  call (fun w => (tt, runEditor (EDITOR cfg) files w)) ;;
  emit (EvEditor (EDITOR cfg) files).

(** Main: [argv] is [process.argv.slice(2)]. *)
Definition main (argv : list string) : M unit :=
  if Nat.eqb (List.length argv) 0 then
    logError "Usage: vic [-pc] [-n NUM] [-log] [-diff REV [REV]] file1 ..." ;;
    exit 1%Z
  else if String.eqb (RCS_ROOT cfg) "." || String.eqb (RCS_ROOT cfg) "" then
    logError "No RCS found! Install: brew install rcs" ;;
    exit 1%Z
  else if existsb (String.eqb "--version") argv then
    log VERSION ;; exit 0%Z
  else
    (* Handle -pc flag for syntax checking *)
    args <- (if firstIs argv "-pc"
             then setSyntaxCheck true ;; ret (tl argv)
             else ret argv) ;;
    (* Handle -n flag for max file count (default 3) *)
    let '(maxFiles, args) :=
      if firstIs args "-n"
      then (maxFilesOf (hd_error (tl args)), tl (tl args))
      else (3%Z, args) in
    if firstIs args "-log" then
      (* Handle -log flag to show commit history *)
      let args := tl args in
      if (maxFiles <? Z.of_nat (List.length args))%Z then
        tooManyFiles (List.length args) maxFiles "-log file1 file2 ..."
      else forEach showCommits args
    else if firstIs args "-diff" then
      (* Handle -diff flag to show diff between revisions *)
      let args := tl args in
      match args with
      | rev1 :: args =>
          if negb (truthy rev1) || negb (isRevision rev1) then
            logError "Usage: vic -diff REV [REV] file" ;;
            logError "  vic -diff 1.1 file.js        # diff 1.1 vs current" ;;
            logError "  vic -diff 1.1 1.3 file.js    # diff 1.1 vs 1.3" ;;
            exit 1%Z
          else
            let '(rev2, args) :=
              match args with
              | a :: rest =>
                  if truthy a && isRevision a then (Some a, rest)
                  else (None, args)
              | [] => (None, args)
              end in
            match args with
            | [fname] => showDiff fname rev1 rev2
            | _ => logError "Error: -diff requires exactly 1 file" ;; exit 1%Z
            end
      | [] =>
          logError "Usage: vic -diff REV [REV] file" ;;
          logError "  vic -diff 1.1 file.js        # diff 1.1 vs current" ;;
          logError "  vic -diff 1.1 1.3 file.js    # diff 1.1 vs 1.3" ;;
          exit 1%Z
      end
    else if (maxFiles <? Z.of_nat (List.length args))%Z then
      (* Limit file count *)
      tooManyFiles (List.length args) maxFiles "file1 file2 ..."
    else
      log "" ;;
      (* If under ~/.xcs directory, just spawn editor and exit *)
      if startsWith (cwd cfg) (XCS_ROOT cfg ++ "/")
         || String.eqb (cwd cfg) (XCS_ROOT cfg)
      then spawnEditor args
      else
        (* Checkout all files first *)
        checkedOutFiles <- checkoutAll args ;;
        if Nat.eqb (List.length checkedOutFiles) 0 then
          (* If no files were checked out, exit *)
          log "No files to edit." ;; closeReadline
        else
          (* Open editor with ALL files at once *)
          closeReadline ;;
          spawnEditor (map fname checkedOutFiles) ;;
          (if (1 <? List.length checkedOutFiles)%nat then log "" else ret tt) ;;
          (* Checkin all files *)
          forEach checkinFile checkedOutFiles ;;
          closeReadline.

(** The script: [main().catch(console.error)]. *)
Definition vic (argv : list string) : M unit :=
  fun s =>
    match main argv s with
    | (Throw e, s') => logError e s'
    | r => r
    end.

End Program.

(* ================================================================== *)
(** * Vocabulary of the properties                                      *)
(* ================================================================== *)

(** The holder's name as [getLockersName] reads it off the answer of the
    log command. *)
Definition holderOf (r : Try SpawnResult) : string :=
  match r with
  | Ok res =>
      match grepLines "locked by:" (stdout res) with
      | [] => ""
      | ls => lockerOf (unlines ls)
      end
  | Err _ => ""
  end.

(** What [main] makes of the flags [-pc] and [-n NUM] at the front of the
    command line: the arguments left, and the ceiling in force. *)
Definition afterPc (argv : list string) : list string :=
  if firstIs argv "-pc" then tl argv else argv.

Definition argsAfterFlags (argv : list string) : list string :=
  if firstIs (afterPc argv) "-n" then tl (tl (afterPc argv)) else afterPc argv.

Definition maxFilesFor (argv : list string) : Z :=
  if firstIs (afterPc argv) "-n"
  then maxFilesOf (hd_error (tl (afterPc argv)))
  else 3%Z.

(** The files an invocation names: what follows the flags, and [-log]
    when it is there. *)
Definition requestedFiles (argv : list string) : list string :=
  if firstIs (argsAfterFlags argv) "-log" then tl (argsAfterFlags argv)
  else argsAfterFlags argv.

(** An invocation that edits files or shows their logs: RCS was found,
    there are arguments, none of them is [--version], and the mode is not
    [-diff]. *)
Definition batchInvocation (cfg : Config) (argv : list string) : bool :=
  negb (Nat.eqb (List.length argv) 0)
  && negb (String.eqb (RCS_ROOT cfg) "." || String.eqb (RCS_ROOT cfg) "")
  && negb (existsb (String.eqb "--version") argv)
  && negb (firstIs (argsAfterFlags argv) "-diff").

(** An invocation that edits files. *)
Definition editInvocation (cfg : Config) (argv : list string) : bool :=
  batchInvocation cfg argv && negb (firstIs (argsAfterFlags argv) "-log").

(** The ceiling as the specification words it: 3, or the number given to
    [-n]. *)
Definition configuredCeiling (argv : list string) : Z :=
  if firstIs (afterPc argv) "-n"
  then match hd_error (tl (afterPc argv)) with
       | Some v => match JS.parseInt v with
                   | Some z => z
                   | None => 3%Z
                   end
       | None => 3%Z
       end
  else 3%Z.

(** The two lines of the count error. *)
Definition countErrorLines (n : nat) (maxFiles : Z) (events : list Event)
  : Prop :=
  exists hint,
    events =
      [EvError ("Too many files (" ++ JS.showZ (Z.of_nat n) ++ "). Maximum is "
                ++ JS.showZ maxFiles ++ ".");
       EvError ("Use -n NUM to increase the limit, e.g.: vic -n 5 " ++ hint)].

(** The invocation failed with a count error: exit code 1 and nothing
    done but the two lines of the error. *)
Definition countError {W} (s : State W) (r : Outcome unit * State W) : Prop :=
  fst r = Exit 1%Z /\
  world (snd r) = world s /\
  exists n maxFiles evs,
    trace (snd r) = (trace s ++ evs)%list /\ countErrorLines n maxFiles evs.

(** The working directory is the remote store base or beneath it. *)
Definition underXcs (cfg : Config) : bool :=
  JS.startsWith (cwd cfg) (XCS_ROOT cfg ++ "/")
  || String.eqb (cwd cfg) (XCS_ROOT cfg).

(** The lock conflict as the specification words it: the holder is not
    empty and differs from the intended editor. *)
Definition conflictExpected (holder editor : string) : bool :=
  truthy holder && negb (String.eqb holder editor).

(** The conflict is surfaced: the holder is reported and the user is
    asked whether to unlock. *)
Definition conflictSurfaced (fname holder : string) (events : list Event)
  : Prop :=
  In (EvLog ("ERROR: " ++ JS.quoted fname ++ " locked (checked out) by: "
             ++ holder)) events /\
  exists answer, In (EvQuestion unlockQuestion answer) events.

(** A message that is safe between the double quotes of the check-in
    command: no double quote, no newline, at most 200 characters. *)
Definition cleanMessage (m : string) : Prop :=
  JS.includes m (JS.str JS.dquote) = false /\
  JS.includes m nl = false /\
  String.length m <= 200.

(** Events that read, write or remove the directory metadata, or ask the
    user for a store path. *)
Definition metadataEvent (e : Event) : Prop :=
  match e with
  | EvRun (XattrGet _) _ => True
  | EvRun (XattrSet _ _) _ => True
  | EvRun (XattrRemove _) _ => True
  | EvQuestion q _ => JS.startsWith q "  hint: " = true
  | _ => False
  end.

(** The RCS file an event names, for the commands of a session. *)
Definition usesRcsFile (rcs : string) (e : Event) : Prop :=
  match e with
  | EvRun (Checkin _ _ r) _ => r = rcs
  | EvRun (Checkout _ r) _ => r = rcs
  | EvRun (Lock _ r) _ => r = rcs
  | EvRun (Unlock _ r) _ => r = rcs
  | EvRun (DiffTo _ r _) _ => r = rcs
  | _ => True
  end.

(** ** The text of the backend's log *)

(** One revision as [rlog] prints it. *)
Record Revision := {
  r_number : string;
  r_lockedBy : option string;
  r_date : string;
  r_author : string;
  r_state : string;
  r_lines : string;
  r_branches : option string;
  r_log : list string
}.

Definition LOG_END : string :=
  "=============================================================================".

Definition revisionTitle (r : Revision) : string :=
  r_number r ++ match r_lockedBy r with
                | Some n => JS.str JS.tab ++ "locked by: " ++ n ++ ";"
                | None => ""
                end.

(** The lines of one revision in the format of [rlog], which the program
    reads: the separator, the revision line, the date line, the line of
    branches when there are some, and the lines of the message. *)
Definition revisionLines (r : Revision) : list string :=
  [REVISION_SEPARATOR;
   "revision " ++ revisionTitle r;
   "date: " ++ r_date r ++ ";  author: " ++ r_author r ++ ";  state: "
   ++ r_state r ++ ";" ++ r_lines r]
  ++ match r_branches r with
     | Some b => ["branches:  " ++ b]
     | None => []
     end
  ++ r_log r.

(** The whole log: the header, the revisions newest first, the end. *)
Definition rlogText (header : list string) (revs : list Revision) : string :=
  unlines (header ++ flat_map revisionLines revs ++ [LOG_END]).

Definition singleLine (s : string) : bool := negb (JS.includes s nl).

(** A line of a message that the parser keeps as such. *)
Definition plainMessageLine (l : string) : bool :=
  truthy l && singleLine l
  && negb (JS.startsWith l "revision ")
  && negb (JS.startsWith l "date:")
  && negb (JS.startsWith l "branches:")
  && negb (JS.startsWith l REVISION_SEPARATOR)
  && negb (JS.startsWith l "===").

(** A revision as the log can hold it: its fields are single lines, its
    title is not blank, its date is not empty and has no semicolon, and
    its message has at least one line, none of them empty. *)
Definition loggedRevision (r : Revision) : bool :=
  singleLine (revisionTitle r)
  && truthy (JS.trim (revisionTitle r))
  && truthy (r_date r) && negb (JS.includes (r_date r) ";")
  && singleLine (r_date r ++ ";  author: " ++ r_author r ++ ";  state: "
                 ++ r_state r ++ ";" ++ r_lines r)
  && match r_branches r with Some b => singleLine b | None => true end
  && negb (Nat.eqb (List.length (r_log r)) 0)
  && forallb (fun l => truthy l && singleLine l) (r_log r).

(** A revision of the log whose message lines are all plain. *)
Definition plainRevision (r : Revision) : bool :=
  loggedRevision r && forallb plainMessageLine (r_log r).

Definition plainHeaderLine (l : string) : bool :=
  singleLine l && negb (JS.startsWith l "revision ").

(** The entry the history shows for a revision. *)
Definition entryOf (r : Revision) : HistoryEntry :=
  {| rev := JS.trim (revisionTitle r);
     date := JS.trim (r_date r);
     msg := JS.trim (JS.join " " (r_log r)) |}.


(** The state of the parser inside a revision. *)
Definition openState (title dat : string) (message : list string)
  (es : list HistoryEntry) : ParseState :=
  {| inRevision := true; currentRev := title; currentDate := dat;
     currentMsg := message; entries := es |}.

(** A log to try the history on: the header of [rlog] and revisions
    with one line of message each. *)
Definition sampleHeader : list string :=
  [""; "RCS file: .rcs/notes.txt,v"; "Working file: notes.txt"; "head: 1.3";
   "branch:"; "locks: strict"; "access list:"; "symbolic names:";
   "keyword substitution: kv";
   "total revisions: 3;" ++ JS.str JS.tab ++ "selected revisions: 3";
   "description:"].

Definition revisionOf (number dat message : string) : Revision :=
  {| r_number := number; r_lockedBy := None; r_date := dat;
     r_author := "casey"; r_state := "Exp"; r_lines := "  lines: +1 -0";
     r_branches := None; r_log := [message] |}.

Definition threeRevisions : list Revision :=
  [revisionOf "1.3" "2026/01/22 09:00:00" "Third version";
   revisionOf "1.2" "2026/01/21 09:00:00" "Second version";
   revisionOf "1.1" "2026/01/20 09:00:00" "Initial checkin"].

(** The same log, where the message of revision 1.2 starts like the date
    line of the log. *)
Definition datedRevisions : list Revision :=
  [revisionOf "1.3" "2026/01/22 09:00:00" "Third version";
   revisionOf "1.2" "2026/01/21 09:00:00" "date: show the year in the footer";
   revisionOf "1.1" "2026/01/20 09:00:00" "Initial checkin"].

(** ** A small program logic over traces *)

(** [satisfies P E Q m]: whatever the state, [m] only appends events that
    satisfy [P]; when it returns, the value satisfies [Q]; when it exits,
    the code satisfies [E]. *)
Definition satisfies {W A} (P : Event -> Prop) (E : Z -> Prop)
  (Q : A -> Prop) (m : M W A) : Prop :=
  forall s,
    exists evs,
      trace (snd (m s)) = (trace s ++ evs)%list /\
      Forall P evs /\
      match fst (m s) with
      | Done a => Q a
      | Exit c => E c
      | Throw _ => True
      end.

Definition anything {A} : A -> Prop := fun _ => True.
Definition never {A} : A -> Prop := fun _ => False.

(** Check-in commands whose message is clean. *)
Definition cleanCheckin (e : Event) : Prop :=
  match e with
  | EvRun (Checkin m _ _) _ => cleanMessage m
  | _ => True
  end.

(** The summariser did not deliver: it threw, exited with another code
    than 0, or was killed (by the timeout or a signal). *)
Definition summarizerFailed (r : Try SpawnResult) : Prop :=
  match r with
  | Ok res => status res <> Some 0%Z
  | Err _ => True
  end.

(** Events of a session on the local store [rcs]: no metadata is read,
    written or removed, the user is not asked for a store path, and
    every RCS command is about [rcs]. *)
Definition localSessionEvent (rcs : string) (e : Event) : Prop :=
  ~ metadataEvent e /\ usesRcsFile rcs e.

(** The RCS file whose log [getLockersName] asks for, and the command. *)
Definition lockLogFile (fname : string) (rcsBasePath : option string)
  : string :=
  orElse rcsBasePath (Path.dirname fname ++ "/" ++ RCS_DIR) ++ "/"
  ++ Path.basename fname ++ ",v".

Definition lockQuery (fname : string) (rcsBasePath : option string)
  : Command :=
  RlogPair fname (lockLogFile fname rcsBasePath).

Section Vocabulary.
Context {W : Type} {Sys : System W}.
Variable cfg : Config.

(** The state once the flags are read: [-pc] sets [enableSyntaxCheck]. *)
Definition afterFlags (argv : list string) (s : State W) : State W :=
  if firstIs argv "-pc"
  then {| world := world s; trace := trace s; rl := rl s;
          enableSyntaxCheck := true |}
  else s.

(** What [main] does with the files once the count is accepted. *)
Definition editFiles (args : list string) : M W unit :=
  log "" ;;
  if underXcs cfg
  then spawnEditor cfg args
  else
    checkedOutFiles <- checkoutAll cfg args ;;
    if Nat.eqb (List.length checkedOutFiles) 0 then
      log "No files to edit." ;; closeReadline
    else
      closeReadline ;;
      spawnEditor cfg (map fname checkedOutFiles) ;;
      (if (1 <? List.length checkedOutFiles)%nat then log "" else ret tt) ;;
      forEach (checkinFile cfg) checkedOutFiles ;;
      closeReadline.

(** [s] with another world, more events and the readline flag [r]. *)
Definition withTrace (s : State W) (w : W) (evs : list Event) (r : bool)
  : State W :=
  {| world := w; trace := trace s ++ evs; rl := r;
     enableSyntaxCheck := enableSyntaxCheck s |}.

(** The lines that report a lock conflict, and the question. *)
Definition conflictReport (f : FileInfo) (holder answer : string)
  : list Event :=
  [EvLog ("ERROR: " ++ JS.quoted (fname f) ++ " locked (checked out) by: "
          ++ holder);
   EvLog "       You can force an unlock, but be sure they're not editing it.";
   EvQuestion unlockQuestion answer].

(** What the user is shown when the file has drifted, up to the
    question. *)
Definition driftReport (f : FileInfo) (diff cat : Try SpawnResult)
  (unlinked : Try unit) (answer : string) : list Event :=
  [EvRun (DiffTo (fname f) (rcsFile f) (tmpFile cfg)) diff;
   EvLog (nl ++ "ERROR: File has been changed since last check in.");
   EvLog ("       Someone edited " ++ JS.quoted (fname f)
          ++ " without checking in their changes." ++ nl);
   EvLog "       Here are the changes:";
   EvRun (Cat (tmpFile cfg)) cat;
   EvUnlink (tmpFile cfg) unlinked;
   EvLog (nl ++ "  '<' = RCS has information that the file does not.");
   EvLog ("  '>' = The file has information that RCS does not." ++ nl);
   EvLog "Options:";
   EvLog "     1. Check the changes into RCS";
   EvLog "     2. Exit";
   EvLog "     3. Ignore changes and continue (DANGEROUS)";
   EvQuestion "---> " answer].

(** The store root a hint stands for. *)
Definition hintedPath (localDir hint : string) : string :=
  if String.eqb hint "." then localDir ++ "/" ++ RCS_DIR
  else XCS_ROOT cfg ++ "/" ++ hint.

(** The rest of [checkoutFile] once the store root is known. *)
Definition checkoutFile_withStore (fname baseName : string) (mode : Z)
  (rcsPath : string) (rcsBasePath : option string) : M W (option FileInfo) :=
  'tt <-? checkoutFile_ensureRcsDir rcsPath ;;
  let f := {| fname := fname; rcsFile := rcsPath ++ "/" ++ baseName ++ ",v";
              baseName := baseName; originalMode := mode;
              rcsBasePath := rcsBasePath |} in
  checkoutFile_initialCheckin cfg fname (rcsFile f) ;;
  'tt <-? checkoutFile_lockConflict cfg f ;;
  mode' <-? checkoutFile_drift cfg f ;;
  checkoutFile_readOnly cfg f mode' ;;
  checkoutFile_checkout cfg
    {| fname := fname; rcsFile := rcsFile f; baseName := baseName;
       originalMode := mode'; rcsBasePath := rcsBasePath |}.

End Vocabulary.

(* ================================================================== *)
(** * A small scripted machine, to run the program on                   *)
(* ================================================================== *)

Module Toy.

(** The paths that exist, the symbolic links, what the user will type,
    what each command line will answer (an answer is used once, the
    first listed first), what the summariser will answer, and whether
    directories can be created. *)
Record World := {
  paths : list string;
  links : list (string * string);
  answers : list string;
  outputs : list (string * SpawnResult);
  summary : Try SpawnResult;
  canMkdir : bool
}.

Definition succeeded (out : string) : SpawnResult :=
  {| status := Some 0%Z; stdout := out; stderr := "" |}.

Definition failed (code : Z) : SpawnResult :=
  {| status := Some code; stdout := ""; stderr := "" |}.

Definition withPaths (w : World) (ps : list string) : World :=
  {| paths := ps; links := links w; answers := answers w;
     outputs := outputs w; summary := summary w; canMkdir := canMkdir w |}.

Fixpoint lookup {A} (k : string) (l : list (string * A)) : option A :=
  match l with
  | [] => None
  | (k', v) :: r => if String.eqb k k' then Some v else lookup k r
  end.

Fixpoint removeKey {A} (k : string) (l : list (string * A))
  : list (string * A) :=
  match l with
  | [] => []
  | (k', v) :: r => if String.eqb k k' then r else (k', v) :: removeKey k r
  end.

Definition run (cmd : string) (w : World) : Try SpawnResult * World :=
  (Ok (match lookup cmd (outputs w) with
       | Some r => r
       | None => succeeded ""
       end),
   {| paths := paths w; links := links w; answers := answers w;
      outputs := removeKey cmd (outputs w); summary := summary w;
      canMkdir := canMkdir w |}).

Definition ask (w : World) : string * World :=
  (hd "" (answers w),
   {| paths := paths w; links := links w; answers := tl (answers w);
      outputs := outputs w; summary := summary w; canMkdir := canMkdir w |}).

Definition toyResolve (p : string) : string :=
  if JS.startsWith p "/" then p else "/w/" ++ p.

Definition toyResolveAbsolute (p : string)
  : JS.startsWith (toyResolve p) "/" = true :=
  match JS.startsWith p "/" as b
        return JS.startsWith p "/" = b ->
               JS.startsWith (if b then p else "/w/" ++ p) "/" = true
  with
  | true => fun e => e
  | false => fun _ => eq_refl
  end eq_refl.

#[global] Instance system : System World := {|
  existsSync := fun p w => existsb (String.eqb (toyResolve p)) (paths w);
  statSync := fun p w =>
    Ok {| st_mode := 33188%Z; st_nlink := 1%Z; st_isFile := true |};
  lstatIsSymbolicLink := fun p w =>
    Ok (match lookup p (links w) with Some _ => true | None => false end);
  realpathSync := fun p w =>
    match lookup p (links w) with
    | Some t => Ok t
    | None => Ok p
    end;
  writeFileSync := fun p _ w => (Ok tt, withPaths w (toyResolve p :: paths w));
  mkdirSync := fun p _ w =>
    if canMkdir w then (Ok tt, withPaths w (toyResolve p :: paths w))
    else (Err "EACCES: permission denied", w);
  chmodSync := fun _ _ w => (Ok tt, w);
  unlinkSync := fun p w =>
    (Ok tt, withPaths w (filter (fun q => negb (String.eqb (toyResolve p) q))
                                (paths w)));
  runCommand := fun _ cmd w => run cmd w;
  runClaude := fun _ _ w => (summary w, w);
  runEditor := fun _ _ w => w;
  question := fun _ w => ask w;
  lintFile := fun _ w => (LintReport "", w);
  resolve := toyResolve;
  resolve_absolute := toyResolveAbsolute
|}.

Definition config : Config :=
  {| RCS_ROOT := "/usr/bin"; EDITOR := "vi"; HOME_DIR := "/home/u";
     CLAUDE_CLI := "/usr/bin/claude"; IS_MACOS := false; pid := "4242";
     cwd := "/w" |}.

(** The same machine, started inside the remote store base. *)
Definition configInXcs : Config :=
  {| RCS_ROOT := "/usr/bin"; EDITOR := "vi"; HOME_DIR := "/home/u";
     CLAUDE_CLI := "/usr/bin/claude"; IS_MACOS := false; pid := "4242";
     cwd := "/home/u/.xcs/notes" |}.

Definition start (w : World) : State World :=
  {| world := w; trace := []; rl := false; enableSyntaxCheck := false |}.

(** A working directory [/w] with a local store, in which [a.txt] is
    already under RCS. *)
Definition tidy : World :=
  {| paths := ["/w/a.txt"; "/w/.rcs"; "/w/.rcs/a.txt,v"];
     links := []; answers := []; outputs := [];
     summary := Ok (succeeded "Update a.txt"); canMkdir := true |}.

(** [a.txt] is locked by casey, and the user will answer no. *)
Definition lockedByCasey : World :=
  {| paths := paths tidy; links := []; answers := ["n"];
     outputs :=
       [(commandLine config (lockQuery "a.txt" None),
         succeeded ("revision 1.2" ++ JS.str JS.tab ++ "locked by: casey;"
                    ++ nl))];
     summary := summary tidy; canMkdir := true |}.

(** [a.txt] has changes that were never checked in, and the user will
    answer 2. *)
Definition drifted : World :=
  {| paths := paths tidy; links := []; answers := ["2"];
     outputs :=
       [(commandLine config
           (DiffTo "a.txt" "/w/.rcs/a.txt,v" (tmpFile config)), failed 1)];
     summary := summary tidy; canMkdir := true |}.

(** [/w] has no store, its metadata names a remote store that is gone,
    and the user will press enter. *)
Definition staleHint : World :=
  {| paths := ["/w/b.txt"]; links := []; answers := [""];
     outputs :=
       [(commandLine config (XattrGet "/w"), succeeded ("projects/old" ++ nl))];
     summary := summary tidy; canMkdir := true |}.

End Toy.

(** The session of [a.txt] as [checkoutFile] has it at the lock check. *)
Definition toySession (mode : Z) : FileInfo :=
  {| fname := "a.txt"; rcsFile := "/w/.rcs/a.txt,v"; baseName := "a.txt";
     originalMode := mode; rcsBasePath := None |}.

(** The outcome and the events of a run from the tidy directory. *)
Definition cliRun (argv : list string) : Outcome unit * list Event :=
  let r := vic Toy.config argv (Toy.start Toy.tidy) in (fst r, trace (snd r)).

(** ** Vocabulary of the further properties *)



(** The line of the log that names the holder of a lock; [before] is
    what the line starts with, the revision number and a TAB for
    [rlog]. *)
Definition lockedByLine (before name : string) : string :=
  before ++ "locked by: " ++ name ++ ";".


(** A revision number that the parser read off a line of [lines]. *)
Definition revisionRead (lines : list string) (r : string) : Prop :=
  exists line,
    In line lines /\ JS.startsWith line "revision " = true /\
    r = JS.trim (JS.removeFirst "revision " line).

(** A message that the parser collected from lines of [lines]. *)
Definition messageRead (lines ms : list string) : Prop :=
  Forall (fun l => In l lines /\ l <> "") ms.

(** An entry of the history that stands for something in the log. *)
Definition entryRead (lines : list string) (e : HistoryEntry) : Prop :=
  rev e <> "" /\ revisionRead lines (rev e) /\
  exists ms, ms <> [] /\ messageRead lines ms /\
             msg e = JS.trim (JS.join " " ms).

(** What the loop of [showCommits] keeps true of its variables. *)
Definition parsed (lines : list string) (st : ParseState) : Prop :=
  Forall (entryRead lines) (entries st) /\
  (currentRev st = "" \/ revisionRead lines (currentRev st)) /\
  messageRead lines (currentMsg st).

(** The log invocation failed, as the specification words it: the
    command could not be run, or the log did not exit with code 0. *)
Definition logInvocationFailed (r : Try SpawnResult) : bool :=
  match r with
  | Ok res =>
      match status res with
      | Some 0%Z => false
      | _ => true
      end
  | Err _ => true
  end.

(** A response to the question about uncommitted changes that is
    neither option 1 nor option 3, as the specification words it: what
    was typed, without the white space around it, is not the number of
    one of these options. *)
Definition otherResponse (answer : string) : bool :=
  negb (String.eqb (JS.trim answer) "1")
  && negb (String.eqb (JS.trim answer) "3").

(** ** What the program does to the machine *)

(** Write permission for owner, group and others: [0o222]. *)
Definition WRITE_BITS : Z := 146.

Section Events.
Variable cfg : Config.

(** The temporary file of [checkinFile]. *)
Definition diffTmpFile (f : FileInfo) : string :=
  "/tmp/" ++ pid cfg ++ "." ++ Path.basename (fname f) ++ ".diff".

(** A file of the program's own in [/tmp]: its name starts with the
    process id and a dot, and has no slash after them. *)
Definition ownTempFile (p : string) : Prop :=
  exists name,
    p = "/tmp/" ++ pid cfg ++ "." ++ name /\ JS.includes name "/" = false.

(** What the checkout of a file may do. *)
Definition checkoutEvent (e : Event) : Prop :=
  match e with
  | EvLog _ | EvQuestion _ _ | EvCloseReadline | EvWriteFile _ _ => True
  | EvRun c _ =>
      match c with
      | XattrGet _ | XattrSet _ _ | XattrRemove _ | RlogPair _ _
      | Checkout _ _ | Lock _ _ | Unlock _ _ => True
      | Checkin m _ _ =>
          m = "Initial checkin" \/ m = "Sync uncommitted changes"
      | DiffTo _ _ out => out = tmpFile cfg
      | Cat file => file = tmpFile cfg
      | RlogFile _ | DiffRev _ _ _ _ | CatQuoted _ => False
      end
  | EvMkdir _ mode _ => mode = 509%Z
  | EvChmod _ mode _ => Z.land mode WRITE_BITS = 0%Z
  | EvUnlink p _ => p = tmpFile cfg
  | EvError _ | EvClaude _ _ | EvEditor _ _ | EvLint _ _ => False
  end.

(** What the check-in of the session [f] may do. *)
Definition checkinEvent (f : FileInfo) (e : Event) : Prop :=
  match e with
  | EvLog _ | EvError _ => True
  | EvLint file _ => file = fname f
  | EvRun c _ =>
      match c with
      | DiffTo file rcs out =>
          file = fname f /\ rcs = rcsFile f /\ out = diffTmpFile f
      | CatQuoted file => file = diffTmpFile f
      | Checkin m file rcs =>
          cleanMessage m /\ file = fname f /\ rcs = rcsFile f
      | RlogPair file _ => file = fname f
      | Unlock file rcs => file = fname f /\ rcs = rcsFile f
      | _ => False
      end
  | EvClaude _ _ => CLAUDE_CLI cfg <> ""
  | EvChmod p mode _ => p = fname f /\ mode = originalMode f
  | EvUnlink p _ => p = diffTmpFile f
  | EvQuestion _ _ | EvCloseReadline | EvEditor _ _ | EvWriteFile _ _
  | EvMkdir _ _ _ => False
  end.

(** What showing a log or a diff may do: print, read the metadata and
    run [rlog] or [rcsdiff] between revisions that are numbers. *)
Definition readOnlyEvent (e : Event) : Prop :=
  match e with
  | EvLog _ | EvError _ => True
  | EvRun c _ =>
      match c with
      | XattrGet _ | RlogFile _ => True
      | DiffRev rev1 rev2 _ _ =>
          JS.isRevision rev1 = true /\
          match rev2 with
          | Some r => JS.isRevision r = true
          | None => True
          end
      | _ => False
      end
  | _ => False
  end.

(** What an invocation may do, whatever its arguments. *)
Definition programEvent (e : Event) : Prop :=
  match e with
  | EvRun c _ =>
      match c with
      | DiffTo _ _ out => ownTempFile out
      | Cat file | CatQuoted file => ownTempFile file
      | DiffRev rev1 rev2 _ _ =>
          JS.isRevision rev1 = true /\
          match rev2 with
          | Some r => JS.isRevision r = true
          | None => True
          end
      | _ => True
      end
  | EvClaude _ _ => CLAUDE_CLI cfg <> ""
  | EvEditor editor _ => editor = EDITOR cfg
  | EvMkdir _ mode _ => mode = 509%Z
  | EvUnlink p _ => ownTempFile p
  | _ => True
  end.

End Events.

(** The exit codes of an invocation: 0 for [--version], 1 for an error
    in the arguments or a missing RCS. *)
Definition exitCode (argv : list string) (c : Z) : Prop :=
  (c = 0%Z /\ In "--version" argv) \/ c = 1%Z.

(** A revision number as the pattern of [-diff] describes it: digits, a
    dot, digits. *)
Definition revisionNumber (s : string) : Prop :=
  exists a b,
    s = a ++ "." ++ b /\ a <> "" /\ b <> "" /\
    JS.allDigits a = true /\ JS.allDigits b = true.

Section Prefixes.
Context {W : Type} {Sys : System W}.

(** The first two blocks of [checkoutFile]: the file to edit, made to
    exist, with its directory and its base name. *)
Definition checkoutFile_upToLinks (fname0 : string)
  : M W (option (string * string * string)) :=
  '(fname, dirName, baseName) <-? checkoutFile_symlink fname0 ;;
  'tt <-? checkoutFile_ensureExists fname ;;
  ret (Some (fname, dirName, baseName)).

End Prefixes.

(** What [checkoutFile] may do before it looks for the store: print,
    ask, and create the file. *)
Definition identifyEvent (e : Event) : Prop :=
  match e with
  | EvLog _ | EvQuestion _ _ | EvWriteFile _ _ => True
  | _ => False
  end.

(** [m] always returns: it neither exits nor throws, and it only appends
    to the trace. *)
Definition runsThrough {W A} (m : M W A) : Prop :=
  forall s, exists a evs,
    fst (m s) = Done a /\ trace (snd (m s)) = (trace s ++ evs)%list.

(** Whatever its outcome, [m] appends an event that satisfies [c]. *)
Definition emits {W A} (c : Event -> Prop) (m : M W A) : Prop :=
  forall s, exists evs,
    trace (snd (m s)) = (trace s ++ evs)%list /\ Exists c evs.

(** The check-in command of a session. *)
Definition checksIn (f : FileInfo) (e : Event) : Prop :=
  exists m r, e = EvRun (Checkin m (fname f) (rcsFile f)) r /\ cleanMessage m.

(** An event of the check-in of one of the sessions. *)
Definition checkinEvent_any (cfg : Config) (sessions : list FileInfo)
  (e : Event) : Prop :=
  exists f, In f sessions /\ checkinEvent cfg f e.

(** Anything but the editor. *)
Definition notEditor (e : Event) : Prop :=
  match e with
  | EvEditor _ _ => False
  | _ => True
  end.

(** The event of [closeReadline] in the state [s], if any. *)
Definition closeEvents {W} (s : State W) : list Event :=
  if rl s then [EvCloseReadline] else [].

(** ** Finding the commands *)

Section Which.
Context {W : Type} {Sys : System W}.

Definition whichCommand (cmd : string) : string :=
  "which " ++ cmd ++ " 2>/dev/null".

(** [which]: the trimmed output of the command, or the empty string
    when [execSync] throws, which it does unless the command exits with
    code 0. *)
Definition which (cmd : string) (w : W) : string :=
  match fst (runCommand Sh (whichCommand cmd) w) with
  | Ok res =>
      match status res with
      | Some 0%Z => JS.trim (stdout res)
      | _ => ""
      end
  | Err _ => ""
  end.

(** The constants that the module computes with [which] when it is
    loaded on the machine [w]. *)
Definition loadedOn (cfg : Config) (w : W) : Prop :=
  RCS_ROOT cfg = Path.dirname (which "rcs" w).

End Which.

(** ** The syntax check *)

(** [flagged b P Q m]: started with [enableSyntaxCheck] equal to [b],
    [m] leaves it so, only appends events that satisfy [P], and returns
    values that satisfy [Q]. *)
Definition flagged {W A} (b : bool) (P : Event -> Prop) (Q : A -> Prop)
  (m : M W A) : Prop :=
  forall s,
    enableSyntaxCheck s = b ->
    exists evs,
      trace (snd (m s)) = (trace s ++ evs)%list /\
      Forall P evs /\
      enableSyntaxCheck (snd (m s)) = b /\
      match fst (m s) with
      | Done a => Q a
      | _ => True
      end.

(** Anything but eslint. *)
Definition notLint (e : Event) : Prop :=
  match e with
  | EvLint _ _ => False
  | _ => True
  end.

(** eslint on the file [file]. *)
Definition lintOf (file : string) (e : Event) : Prop :=
  exists r, e = EvLint file r.

(** What [runSyntaxCheck] prints after eslint ran. *)
Definition lintReport (r : LintOutcome) : list Event :=
  match r with
  | LintReport text => [EvLog text]
  | LintFailed e => [EvError ("ESLint error: " ++ e)]
  | LintUnavailable _ => []
  end.

(** Started with [enableSyntaxCheck] set, [m] ends with eslint on
    [file] and its report. *)
Definition endsWithLint {W A} (file : string) (m : M W A) : Prop :=
  forall s,
    enableSyntaxCheck s = true ->
    exists evs r,
      trace (snd (m s))
      = (trace s ++ evs ++ EvLint file r :: lintReport r)%list /\
      Forall notLint evs.

(** ** The rules of the syntax check *)

(** [String.prototype.toLowerCase] on a code unit below 256: the
    letters A to Z and the capital letters of Latin-1, which are 32
    below their small letters. *)
Definition toLowerChar (c : ascii) : ascii :=
  let n := nat_of_ascii c in
  if ((65 <=? n)%nat && (n <=? 90)%nat)
     || ((192 <=? n)%nat && (n <=? 222)%nat && negb (n =? 215)%nat)
  then ascii_of_nat (n + 32)
  else c.

Fixpoint toLowerCase (s : string) : string :=
  match s with
  | "" => ""
  | String c r => String (toLowerChar c) (toLowerCase r)
  end.

(** [s.split(sep)] for a separator of one character. *)
Fixpoint splitOn (sep : ascii) (s : string) : list string :=
  match s with
  | "" => [""]
  | String c r =>
      if Ascii.eqb c sep then "" :: splitOn sep r
      else match splitOn sep r with
           | l :: ls => String c l :: ls
           | [] => [JS.str c]
           end
  end.

(** [fname.split(".").pop().toLowerCase()] *)
Definition lintExtension (fname : string) : string :=
  toLowerCase (List.last (splitOn "." fname) "").

(** The rule sets of [lib/]. *)
Inductive RuleSet := JsRules | HtmRules | CssRules | JsonRules.

(** The rule set that [runSyntaxCheck] loads for an extension; [None]
    when it prints an empty line and returns. *)
Definition rulesOf (ext : string) : option RuleSet :=
  if existsb (String.eqb ext) ["js"; "ts"; "jsx"; "tsx"; "mjs"; "mts"]
  then Some JsRules
  else if existsb (String.eqb ext) ["htm"; "html"] then Some HtmRules
  else if existsb (String.eqb ext) ["css"] then Some CssRules
  else if existsb (String.eqb ext) ["json"; "jsonc"; "json5"]
  then Some JsonRules
  else None.

Definition lintRules (fname : string) : option RuleSet :=
  rulesOf (lintExtension fname).

(** ** More machines to run the program on *)

(** The scripted machine without a summariser, and with no RCS found
    when the module was loaded. *)
Definition configNoClaude : Config :=
  {| RCS_ROOT := "/usr/bin"; EDITOR := "vi"; HOME_DIR := "/home/u";
     CLAUDE_CLI := ""; IS_MACOS := false; pid := "4242"; cwd := "/w" |}.

Definition configNoRcs : Config :=
  {| RCS_ROOT := "."; EDITOR := "vi"; HOME_DIR := "/home/u";
     CLAUDE_CLI := ""; IS_MACOS := false; pid := "4242"; cwd := "/w" |}.

(** The line of the log that names casey as the holder of revision 1.2. *)
Definition caseyHolds : string :=
  lockedByLine ("revision 1.2" ++ JS.str JS.tab) "casey" ++ nl.

(** [a.txt] is free, and the checkout will lock it for casey: the log
    names no holder the first time it is asked, and casey the second
    time. *)
Definition lockable : Toy.World :=
  {| Toy.paths := Toy.paths Toy.tidy; Toy.links := []; Toy.answers := [];
     Toy.outputs :=
       [(commandLine Toy.config (lockQuery "a.txt" None), Toy.succeeded "");
        (commandLine Toy.config (lockQuery "a.txt" None),
         Toy.succeeded caseyHolds)];
     Toy.summary := Toy.summary Toy.tidy; Toy.canMkdir := true |}.

(** The log of [a.txt] fails with code 1 after it printed the line that
    names casey as the holder. *)
Definition failedLogWithLock : Toy.World :=
  {| Toy.paths := Toy.paths Toy.tidy; Toy.links := []; Toy.answers := [];
     Toy.outputs :=
       [(commandLine Toy.config (lockQuery "a.txt" None),
         {| status := Some 1%Z; stdout := caseyHolds; stderr := "" |})];
     Toy.summary := Toy.summary Toy.tidy; Toy.canMkdir := true |}.

(** The entry of [a.txt] in the store is missing: the log fails with
    code 1 and prints nothing on its standard output. *)
Definition missingEntry : Toy.World :=
  {| Toy.paths := ["/w/a.txt"; "/w/.rcs"]; Toy.links := []; Toy.answers := [];
     Toy.outputs :=
       [(commandLine Toy.config (lockQuery "a.txt" None), Toy.failed 1)];
     Toy.summary := Toy.summary Toy.tidy; Toy.canMkdir := true |}.

(** [a.txt] has changes that were never checked in, the user will answer
    [23], and the checkout will lock the file for casey. *)
Definition driftedAnswer23 : Toy.World :=
  {| Toy.paths := Toy.paths Toy.tidy; Toy.links := []; Toy.answers := ["23"];
     Toy.outputs :=
       [(commandLine Toy.config
           (DiffTo "a.txt" "/w/.rcs/a.txt,v" (tmpFile Toy.config)),
         Toy.failed 1);
        (commandLine Toy.config (lockQuery "a.txt" None), Toy.succeeded "");
        (commandLine Toy.config (lockQuery "a.txt" None),
         Toy.succeeded caseyHolds)];
     Toy.summary := Toy.summary Toy.tidy; Toy.canMkdir := true |}.

(** [/w] has no store, and its metadata names a remote store that
    exists. *)
Definition hinted : Toy.World :=
  {| Toy.paths := ["/w/b.txt"; "/home/u/.xcs/projects/vic"];
     Toy.links := []; Toy.answers := [];
     Toy.outputs :=
       [(commandLine Toy.config (XattrGet "/w"),
         Toy.succeeded ("projects/vic" ++ nl))];
     Toy.summary := Toy.summary Toy.tidy; Toy.canMkdir := true |}.

(** [l.txt] is a symbolic link to [a.txt], and the user will answer no. *)
Definition linked : Toy.World :=
  {| Toy.paths := "/w/l.txt" :: Toy.paths Toy.tidy;
     Toy.links := [("l.txt", "/w/a.txt")]; Toy.answers := ["no"];
     Toy.outputs := []; Toy.summary := Toy.summary Toy.tidy;
     Toy.canMkdir := true |}.

(** A machine without state, on which every file exists and has two
    names, every command succeeds without output and the user answers
    with an empty line. *)
Module Bare.

#[global] Instance system : System unit := {|
  existsSync := fun _ _ => true;
  statSync := fun _ _ =>
    Ok {| st_mode := 33188%Z; st_nlink := 2%Z; st_isFile := true |};
  lstatIsSymbolicLink := fun _ _ => Ok false;
  realpathSync := fun p _ => Ok p;
  writeFileSync := fun _ _ w => (Ok tt, w);
  mkdirSync := fun _ _ w => (Ok tt, w);
  chmodSync := fun _ _ w => (Ok tt, w);
  unlinkSync := fun _ w => (Ok tt, w);
  runCommand := fun _ _ w => (Ok (Toy.succeeded ""), w);
  runClaude := fun _ _ w => (Ok (Toy.succeeded ""), w);
  runEditor := fun _ _ w => w;
  question := fun _ w => ("", w);
  lintFile := fun _ w => (LintReport "", w);
  resolve := Toy.toyResolve;
  resolve_absolute := Toy.toyResolveAbsolute
|}.

Definition start : State unit :=
  {| world := tt; trace := []; rl := false; enableSyntaxCheck := false |}.

End Bare.
(* ================================================================== *)
(** * Properties                                                        *)
(* ================================================================== *)

Section Logic.
Context {W : Type}.
Variable P : Event -> Prop.
Variable E : Z -> Prop.

Lemma sat_ret {A} (Q : A -> Prop) (a : A) :
  Q a -> satisfies (W:=W) P E Q (ret a).
Proof.
  intros HQ s. exists []. simpl. rewrite app_nil_r. auto.
Qed.

Lemma sat_bind {A B} (Q : A -> Prop) (R : B -> Prop) (m : M W A)
  (k : A -> M W B) :
  satisfies P E Q m ->
  (forall a, Q a -> satisfies P E R (k a)) ->
  satisfies P E R (bind m k).
Proof.
  intros Hm Hk s. unfold bind.
  destruct (Hm s) as (evs & Ht & HP & HQ).
  destruct (m s) as [[a | c | e] s1]; simpl in *.
  - destruct (Hk a HQ s1) as (evs' & Ht' & HP' & HR).
    exists (evs ++ evs')%list. rewrite Ht', Ht, app_assoc.
    split; [reflexivity |]. split; [apply Forall_app; auto | exact HR].
  - exists evs. auto.
  - exists evs. auto.
Qed.

Lemma sat_weaken {A} (Q Q' : A -> Prop) (m : M W A) :
  satisfies P E Q m -> (forall a, Q a -> Q' a) -> satisfies P E Q' m.
Proof.
  intros Hm HQ s. destruct (Hm s) as (evs & Ht & HP & H).
  exists evs. repeat split; auto.
  destruct (fst (m s)); auto.
Qed.

Lemma sat_emit (e : Event) :
  P e -> satisfies (W:=W) P E anything (emit e).
Proof.
  intros He s. exists [e]. simpl. repeat split; auto.
Qed.

Lemma sat_ask {A} (f : W -> A) : satisfies P E anything (ask f).
Proof.
  intros s. exists []. simpl. rewrite app_nil_r. repeat split; auto.
Qed.

Lemma sat_call {A} (f : W -> A * W) : satisfies P E anything (call f).
Proof.
  intros s. exists []. unfold call. destruct (f (world s)). simpl.
  rewrite app_nil_r. repeat split; auto.
Qed.

Lemma sat_getState : satisfies (W:=W) P E anything getState.
Proof.
  intros s. exists []. simpl. rewrite app_nil_r. repeat split; auto.
Qed.

Lemma sat_setReadline (b : bool) :
  satisfies (W:=W) P E anything (setReadline b).
Proof.
  intros s. exists []. simpl. rewrite app_nil_r. repeat split; auto.
Qed.

Lemma sat_setSyntaxCheck (b : bool) :
  satisfies (W:=W) P E anything (setSyntaxCheck b).
Proof.
  intros s. exists []. simpl. rewrite app_nil_r. repeat split; auto.
Qed.

Lemma sat_throw {A} (Q : A -> Prop) (e : string) :
  satisfies (W:=W) P E Q (throw e).
Proof.
  intros s. exists []. simpl. rewrite app_nil_r. repeat split; auto.
Qed.

Lemma sat_exit {A} (Q : A -> Prop) (c : Z) :
  E c -> satisfies (W:=W) P E Q (exit c).
Proof.
  intros Hc s. exists []. simpl. rewrite app_nil_r. repeat split; auto.
Qed.

Lemma sat_forEach {A} (f : A -> M W unit) (l : list A) :
  (forall a, satisfies P E anything (f a)) ->
  satisfies P E anything (forEach f l).
Proof.
  intros Hf. induction l as [| x r IH]; simpl.
  - apply sat_ret. exact I.
  - eapply sat_bind; [apply Hf | intros; apply IH].
Qed.

End Logic.

Arguments sat_ret {W P E A Q a}.
Arguments sat_bind {W P E A B Q R m k}.
Arguments sat_weaken {W P E A Q Q' m}.
Arguments sat_emit {W P E e}.
Arguments sat_ask {W P E A f}.
Arguments sat_call {W P E A f}.
Arguments sat_getState {W P E}.
Arguments sat_setReadline {W P E b}.
Arguments sat_setSyntaxCheck {W P E b}.
Arguments sat_throw {W P E A Q e}.
Arguments sat_exit {W P E A Q c}.
Arguments sat_forEach {W P E A f l}.

(** Steps of a proof by the rules above: split a sequence, or take the
    cases of the value a branch looks at. *)
Ltac sat_step :=
  match goal with
  | |- satisfies _ _ _ (bind _ _) => eapply sat_bind; [| intros ? ?]
  | |- satisfies _ _ _ (ret _) => apply sat_ret
  | |- satisfies _ _ _ (emit _) => apply sat_emit
  | |- satisfies _ _ _ (ask _) => apply sat_ask
  | |- satisfies _ _ _ (call _) => apply sat_call
  | |- satisfies _ _ _ getState => apply sat_getState
  | |- satisfies _ _ _ (setReadline _) => apply sat_setReadline
  | |- satisfies _ _ _ (setSyntaxCheck _) => apply sat_setSyntaxCheck
  | |- satisfies _ _ _ (throw _) => apply sat_throw
  | |- satisfies _ _ _ (exit _) => apply sat_exit
  | |- satisfies _ _ _ (match ?x with _ => _ end) => destruct x
  | |- satisfies _ _ _ (let (_, _) := ?x in _) => destruct x
  end.

(** Evaluation of the monad, leaving the calls to the system in place. *)
Ltac run_eval :=
  cbv beta iota zeta delta
    [bind ret emit call ask exit throw getState setReadline setSyntaxCheck
     log logError prompt shell execSync tryUnlink tryChmod closeReadline
     world trace rl enableSyntaxCheck fst snd negb].

(** ** The tests of the repository, on the model *)

Example underlineMessage_test :
  underlineMessage "test"
  = JS.str (ascii_of_nat 27) ++ "[4mtest" ++ JS.str (ascii_of_nat 27) ++ "[0m".
Proof. reflexivity. Qed.

Example getPathHint_home :
  getPathHint Toy.config "/home/u/Projects/myproject" = "Projects/myproject".
Proof. reflexivity. Qed.

Example getPathHint_volume :
  getPathHint Toy.config "/Volumes/MyDrive/Projects/myproject"
  = "Projects/myproject".
Proof. reflexivity. Qed.

Example getPathHint_plain :
  getPathHint Toy.config "/usr/local/bin" = "usr/local/bin".
Proof. reflexivity. Qed.

Example getPathHint_slashes :
  getPathHint Toy.config "/some/path/" = "some/path".
Proof. reflexivity. Qed.

Example findXcsBundleRoot_none :
  fst (findXcsBundleRoot Toy.config "/w/sub" (Toy.start Toy.tidy)) = Done None.
Proof. reflexivity. Qed.

Example findXcsBundleRoot_bundle :
  fst (findXcsBundleRoot Toy.config "/w/test.xcs/subdir" (Toy.start Toy.tidy))
  = Done (Some "/w/test.xcs").
Proof. reflexivity. Qed.

Example findXcsBundleRoot_home :
  fst (findXcsBundleRoot Toy.config "/home/u" (Toy.start Toy.tidy)) = Done None.
Proof. reflexivity. Qed.

Example dirname_samples :
  map Path.dirname ["/a/b/c.txt"; "/a"; "a.txt"; "a//b"; "/a/b/"; "//a"; ""]
  = ["/a/b"; "/"; "."; "a/"; "/a"; "//"; "."].
Proof. reflexivity. Qed.

Example basename_samples :
  map Path.basename ["/a/b/c.txt"; "a.txt"; "/a/b/"; "/"; ""]
  = ["c.txt"; "a.txt"; "b"; ""; ""].
Proof. reflexivity. Qed.

Example parseInt_samples :
  map JS.parseInt ["5"; " 12abc"; "-3"; "0"; "abc"; ""; "+7"]
  = [Some 5%Z; Some 12%Z; Some (-3)%Z; Some 0%Z; None; None; Some 7%Z].
Proof. reflexivity. Qed.

Example lockerOf_sample :
  lockerOf ("revision 1.2" ++ JS.str JS.tab ++ "locked by: casey;" ++ nl)
  = "casey".
Proof. reflexivity. Qed.

Example cli_version : cliRun ["--version"] = (Exit 0%Z, [EvLog "1.1.1"]).
Proof. reflexivity. Qed.

Example cli_no_arguments :
  cliRun []
  = (Exit 1%Z,
     [EvError "Usage: vic [-pc] [-n NUM] [-log] [-diff REV [REV]] file1 ..."]).
Proof. reflexivity. Qed.

Example cli_n_accepts_number :
  cliRun ["-n"; "2"; "file1.js"; "file2.js"; "file3.js"]
  = (Exit 1%Z,
     [EvError "Too many files (3). Maximum is 2.";
      EvError "Use -n NUM to increase the limit, e.g.: vic -n 5 file1 file2 ..."]).
Proof. reflexivity. Qed.

Example cli_default_limit :
  cliRun ["f1.js"; "f2.js"; "f3.js"; "f4.js"]
  = (Exit 1%Z,
     [EvError "Too many files (4). Maximum is 3.";
      EvError "Use -n NUM to increase the limit, e.g.: vic -n 5 file1 file2 ..."]).
Proof. reflexivity. Qed.

Example cli_higher_limit :
  fst (cliRun ["-n"; "5"; "f1.js"; "f2.js"; "f3.js"; "f4.js"]) = Done tt.
Proof. vm_compute. reflexivity. Qed.

Example cli_log_respects_limit :
  cliRun ["-n"; "2"; "-log"; "f1.js"; "f2.js"; "f3.js"]
  = (Exit 1%Z,
     [EvError "Too many files (3). Maximum is 2.";
      EvError ("Use -n NUM to increase the limit, e.g.: vic -n 5 "
               ++ "-log file1 file2 ...")]).
Proof. reflexivity. Qed.

Example cli_diff_requires_revision :
  cliRun ["-diff"; "file.js"]
  = (Exit 1%Z,
     [EvError "Usage: vic -diff REV [REV] file";
      EvError "  vic -diff 1.1 file.js        # diff 1.1 vs current";
      EvError "  vic -diff 1.1 1.3 file.js    # diff 1.1 vs 1.3"]).
Proof. reflexivity. Qed.

Example cli_diff_one_file :
  cliRun ["-diff"; "1.1"; "file1.js"; "file2.js"]
  = (Exit 1%Z, [EvError "Error: -diff requires exactly 1 file"]).
Proof. reflexivity. Qed.

Example cli_pc_log_no_history :
  cliRun ["-pc"; "-log"; "/tmp/nonexistent.js"]
  = (Done tt,
     [EvRun (XattrGet "/tmp") (Ok (Toy.succeeded ""));
      EvLog "No RCS history found for /tmp/nonexistent.js"]).
Proof. reflexivity. Qed.

(** ** Strings *)

Section Strings.
Import JS.

Lemma prefix_empty (s : string) : prefix "" s = true.
Proof. destruct s; reflexivity. Qed.

Lemma includes_char (c x : ascii) (r : string) :
  includes (String x r) (str c) = Ascii.eqb c x || includes r (str c).
Proof.
  simpl. destruct (ascii_dec c x) as [-> | Hne].
  - rewrite prefix_empty, Ascii.eqb_refl. reflexivity.
  - apply Ascii.eqb_neq in Hne. rewrite Hne. reflexivity.
Qed.

Lemma includes_char_empty (c : ascii) : includes "" (str c) = false.
Proof. reflexivity. Qed.

Lemma replaceAllChar_gone (c d : ascii) (s : string) :
  c <> d -> includes (replaceAllChar c d s) (str c) = false.
Proof.
  intros Hne. induction s as [| x r IH]; [reflexivity |].
  cbn [replaceAllChar]. rewrite includes_char, IH, orb_false_r.
  destruct (Ascii.eqb x c) eqn:Hx.
  - apply Ascii.eqb_neq. exact Hne.
  - rewrite Ascii.eqb_sym. exact Hx.
Qed.

Lemma replaceAllChar_keeps_out (a c d : ascii) (s : string) :
  a <> d -> includes s (str a) = false ->
  includes (replaceAllChar c d s) (str a) = false.
Proof.
  intros Hne. induction s as [| x r IH]; [reflexivity |].
  cbn [replaceAllChar]. rewrite !includes_char.
  intros H. apply orb_false_iff in H. destruct H as [Hx Hr].
  rewrite (IH Hr), orb_false_r.
  destruct (Ascii.eqb x c); [apply Ascii.eqb_neq; exact Hne | exact Hx].
Qed.

Lemma take_keeps_out (a : ascii) (n : nat) (s : string) :
  includes s (str a) = false -> includes (take n s) (str a) = false.
Proof.
  revert s. induction n as [| n IH]; intros [| x r]; try reflexivity.
  cbn [take]. rewrite !includes_char. intros H.
  apply orb_false_iff in H. destruct H as [Hx Hr].
  rewrite Hx, (IH _ Hr). reflexivity.
Qed.

Lemma take_length (n : nat) (s : string) : String.length (take n s) <= n.
Proof.
  revert s. induction n as [| n IH]; intros [| x r]; simpl; try lia.
  specialize (IH r). lia.
Qed.

Lemma sanitize_clean (out : string) : cleanMessage (sanitize out).
Proof.
  unfold cleanMessage, sanitize, nl. repeat split.
  - apply take_keeps_out, replaceAllChar_keeps_out; [discriminate |].
    apply replaceAllChar_gone. discriminate.
  - apply take_keeps_out, replaceAllChar_gone. discriminate.
  - apply take_length.
Qed.

Lemma sentinel_clean : cleanMessage "-".
Proof. unfold cleanMessage. repeat split; simpl; lia. Qed.

End Strings.

(** ** The walk up to the bundle root ends *)

Section Walk.
Import JS Path.

Lemma stripTrailingSlashes_empty (s : string) :
  stripTrailingSlashes s <> "" -> s <> "".
Proof. intros H ->. apply H. reflexivity. Qed.

Lemma beforeLastSlash_cons (c : ascii) (s : string) :
  beforeLastSlash (String c s)
  = match beforeLastSlash s with
    | Some p => Some (String c p)
    | None => if Ascii.eqb c "/" then Some "" else None
    end.
Proof. reflexivity. Qed.

Lemma beforeLastSlash_stripped (s pre : string) :
  beforeLastSlash (stripTrailingSlashes s) = Some pre ->
  String.length pre + 2 <= String.length s.
Proof.
  revert pre. induction s as [| c r IH]; intros pre H; [discriminate |].
  cbn [stripTrailingSlashes] in H.
  destruct (stripTrailingSlashes r) as [| x r'] eqn:Hr.
  - destruct (Ascii.eqb c "/") eqn:Hc; [discriminate |].
    unfold str in H. rewrite beforeLastSlash_cons in H. simpl in H.
    rewrite Hc in H. discriminate.
  - rewrite beforeLastSlash_cons in H.
    destruct (beforeLastSlash (String x r')) as [p |] eqn:Hp.
    + injection H as <-. specialize (IH p eq_refl). simpl. lia.
    + destruct (Ascii.eqb c "/"); [| discriminate].
      injection H as <-.
      assert (r <> "") by (apply stripTrailingSlashes_empty; rewrite Hr;
                            discriminate).
      destruct r; [contradiction | simpl; lia].
Qed.

(** [path.dirname] of an absolute path other than the root is absolute
    and strictly shorter. *)
Lemma dirname_absolute (p : string) :
  startsWith p "/" = true ->
  startsWith (dirname p) "/" = true /\
  (p <> "/" -> String.length (dirname p) < String.length p).
Proof.
  unfold startsWith. destruct p as [| c rest]; [discriminate |].
  intros H.
  assert (Hc : c = "/"%char)
    by (cbn [prefix] in H; destruct (ascii_dec "/" c);
        [congruence | discriminate]).
  subst c. clear H. unfold dirname. change (Ascii.eqb "/" "/") with true.
  destruct (beforeLastSlash (stripTrailingSlashes rest)) as [pre |] eqn:Hb.
  - apply beforeLastSlash_stripped in Hb.
    destruct (String.eqb pre "") eqn:He; simpl.
    + split; [reflexivity | intros _; lia].
    + split; [apply prefix_empty | intros _; lia].
  - split; [reflexivity |]. intros Hp.
    destruct rest; [contradiction | simpl; lia].
Qed.

(** With more fuel than the path is long, the walk does not depend on
    the fuel: the loop of [findXcsBundleRoot] has ended. *)
Lemma xcsWalk_enough_fuel (home : string) (fuel fuel' : nat)
  (current : string) :
  startsWith current "/" = true ->
  String.length current < fuel -> String.length current < fuel' ->
  xcsWalk home fuel current = xcsWalk home fuel' current.
Proof.
  revert fuel' current. induction fuel as [| f IH]; intros fuel' current Ha Hf Hf';
    [lia |].
  destruct fuel' as [| f']; [lia |]. cbn [xcsWalk].
  destruct (String.eqb current "/") eqn:Hroot; [reflexivity |]. simpl orb.
  destruct (String.eqb current home); [reflexivity |].
  destruct (endsWith current ".xcs"); [reflexivity |].
  apply String.eqb_neq in Hroot.
  destruct (dirname_absolute current Ha) as [Hd Hlt]. specialize (Hlt Hroot).
  apply IH; [exact Hd | lia | lia].
Qed.

(** The fuel [findXcsBundleRoot] gives the walk is enough, whether it
    starts from the resolved path or from its directory. *)
Lemma findXcsBundleRoot_fuel {W : Type} {Sys : System W} (home p : string)
  (fuel : nat) :
  (String.length (resolve p) < fuel ->
   xcsWalk home (S (String.length (resolve p))) (resolve p)
   = xcsWalk home fuel (resolve p)) /\
  (String.length (dirname (resolve p)) < fuel ->
   xcsWalk home (S (String.length (dirname (resolve p)))) (dirname (resolve p))
   = xcsWalk home fuel (dirname (resolve p))).
Proof.
  pose proof (resolve_absolute p) as Ha.
  split; intros Hf; apply xcsWalk_enough_fuel; try lia;
    [exact Ha | apply (dirname_absolute _ Ha)].
Qed.

End Walk.

(** ** The rules applied to the program *)

Create HintDb vic discriminated.

#[export] Hint Unfold log logError closeReadline prompt shell execSync
  execSyncGrep getXattrPath setXattrPath removeXattr tryUnlink tryChmod
  spawnEditor : vic.

#[export] Hint Extern 1 (anything _) => exact I : vic.

Ltac sat_any :=
  repeat first
    [ eapply (sat_bind (Q := anything)); [| intros ? _]
    | sat_step
    | progress autounfold with vic ].

Ltac sat_done := sat_any; simpl; auto with vic.

Section CommitMessage.
Context {W : Type} {Sys : System W}.
Variable cfg : Config.

Lemma generateCommitMessage_sat (P : Event -> Prop) (E : Z -> Prop)
  (diff : string) :
  (forall args r, P (EvClaude args r)) -> (forall l, P (EvLog l)) ->
  satisfies P E cleanMessage (generateCommitMessage cfg diff).
Proof.
  intros HC HL. unfold generateCommitMessage.
  destruct (negb (truthy (CLAUDE_CLI cfg)) || negb (truthy diff)
            || String.eqb (JS.trim diff) "").
  - apply sat_ret, sentinel_clean.
  - eapply (sat_bind (Q := anything)); [sat_done | intros r _].
    eapply (sat_bind (Q := anything)); [sat_done | intros _ _].
    destruct r as [result | e].
    + destruct (status result) as [[| p | p] |];
        try (apply sat_ret, sentinel_clean).
      destruct (truthy (stdout result)); [| apply sat_ret, sentinel_clean].
      apply sat_ret.
      destruct (truthy (sanitize (stdout result)));
        [apply sanitize_clean | apply sentinel_clean].
    + eapply (sat_bind (Q := anything)); [sat_done | intros _ _].
      apply sat_ret, sentinel_clean.
Qed.

Lemma getLockersName_sat (P : Event -> Prop) (E : Z -> Prop)
  (fname : string) (base : option string) :
  (forall f v r, P (EvRun (RlogPair f v) r)) ->
  satisfies P E anything (getLockersName cfg fname base).
Proof. intros HP. unfold getLockersName. sat_done. Qed.

Lemma runSyntaxCheck_sat (P : Event -> Prop) (E : Z -> Prop) (fname : string) :
  (forall l, P (EvLog l)) -> (forall l, P (EvError l)) ->
  (forall f r, P (EvLint f r)) ->
  satisfies P E anything (runSyntaxCheck fname).
Proof. intros H1 H2 H3. unfold runSyntaxCheck. sat_done. Qed.

Lemma checkinFile_cleanCheckin (f : FileInfo) :
  satisfies cleanCheckin never anything (checkinFile cfg f).
Proof.
  unfold checkinFile.
  eapply (sat_bind (Q := anything)); [sat_done | intros _ _].
  eapply (sat_bind (Q := anything)); [sat_done | intros r _].
  eapply (sat_bind (Q := cleanMessage)).
  - destruct r as [diffContent | e]; [| apply sat_ret, sentinel_clean].
    eapply (sat_bind (Q := cleanMessage)).
    + destruct (truthy (JS.trim diffContent)).
      * apply generateCommitMessage_sat; intros; exact I.
      * apply sat_ret, sentinel_clean.
    + intros m Hm.
      eapply (sat_bind (Q := anything)); [sat_done | intros _ _].
      apply sat_ret, Hm.
  - intros commitMessage Hm.
    eapply (sat_bind (Q := anything)); [sat_done | intros _ _].
    eapply (sat_bind (Q := anything)); [sat_done | intros _ _].
    eapply (sat_bind (Q := anything));
      [apply getLockersName_sat; intros; exact I | intros lname _].
    eapply (sat_bind (Q := anything)); [sat_done | intros _ _].
    eapply (sat_bind (Q := anything)); [sat_done | intros _ _].
    apply runSyntaxCheck_sat; intros; exact I.
Qed.

End CommitMessage.

(** C6.  Whatever the diff and whatever the summariser answers,
    [generateCommitMessage] returns a message without double quote and
    without newline, of at most 200 characters; it is the sentinel [-]
    when the diff is empty or blank, when no summariser is installed and
    when the summariser fails or times out; and every check-in command
    that [checkinFile] issues carries such a message. *)
Theorem commit_message_is_clean :
  forall (W : Type) (Sys : System W) (cfg : Config),
    (forall (diff : string) (s : State W),
        exists m,
          fst (generateCommitMessage cfg diff s) = Done m /\
          cleanMessage m /\
          (JS.trim diff = "" -> m = "-") /\
          (CLAUDE_CLI cfg = "" -> m = "-") /\
          (summarizerFailed
             (fst (runClaude (CLAUDE_CLI cfg)
                     ["--print"; "--max-turns"; "1"; CLAUDE_PROMPT ++ diff]
                     (world s))) -> m = "-")) /\
    (forall f : FileInfo,
        satisfies (W:=W) cleanCheckin never anything (checkinFile cfg f)).
Proof.
  intros W Sys cfg. split; [| apply checkinFile_cleanCheckin].
  intros diff s. unfold generateCommitMessage.
  destruct (truthy (CLAUDE_CLI cfg)) eqn:Hcli; simpl;
    [| exists "-"; repeat split; auto using sentinel_clean;
       apply sentinel_clean].
  destruct (truthy diff) eqn:Hdiff; simpl;
    [| exists "-"; repeat split; auto using sentinel_clean;
       apply sentinel_clean].
  destruct (String.eqb (JS.trim diff) "") eqn:Htrim;
    [exists "-"; repeat split; auto using sentinel_clean;
     apply sentinel_clean |].
  assert (Hne1 : JS.trim diff = "" -> False)
    by (intros H; rewrite H in Htrim; discriminate).
  assert (Hne2 : CLAUDE_CLI cfg = "" -> False)
    by (intros H; rewrite H in Hcli; discriminate).
  unfold bind, call, emit, log, ret.
  destruct (runClaude (CLAUDE_CLI cfg) _ (world s)) as [r w'] eqn:Hrun.
  simpl.
  destruct r as [result | e]; simpl.
  - destruct (status result) as [[| p | p] |] eqn:Hst; simpl;
      try (exists "-"; repeat split; try tauto; apply sentinel_clean).
    destruct (truthy (stdout result)); simpl;
      [| exists "-"; repeat split; try tauto; apply sentinel_clean].
    destruct (truthy (sanitize (stdout result))); simpl.
    + exists (sanitize (stdout result)).
      repeat split; try tauto; try apply sanitize_clean.
    + exists "-". repeat split; try tauto; apply sentinel_clean.
  - exists "-". repeat split; try tauto; apply sentinel_clean.
Qed.

(** ** The lock holder *)

Section Grep.
Import JS.

Lemma prefix_app (p a b : string) :
  prefix p a = true -> prefix p (a ++ b) = true.
Proof.
  revert a. induction p as [| c p IH]; intros a H.
  - apply prefix_empty.
  - destruct a as [| x a]; [discriminate |]. simpl in *.
    destruct (ascii_dec c x); [apply IH; exact H | discriminate].
Qed.

Lemma splitLines_first (s : string) :
  exists l ls rest, splitLines s = l :: ls /\ s = l ++ rest.
Proof.
  induction s as [| c r (l & ls & rest & Hs & Hr)].
  - exists "", [], "". split; reflexivity.
  - simpl. destruct (Ascii.eqb c newline).
    + exists "", (splitLines r), (String c r). split; reflexivity.
    + rewrite Hs. exists (String c l), ls, rest.
      split; [reflexivity | simpl; f_equal; exact Hr].
Qed.

Lemma includes_of_line (pat s l : string) :
  In l (splitLines s) -> includes l pat = true -> includes s pat = true.
Proof.
  revert l. induction s as [| c r IH]; intros l Hin Hl.
  - simpl in Hin. destruct Hin as [<- | []]. exact Hl.
  - simpl in Hin.
    destruct (splitLines_first r) as (l0 & ls & rest & Hs & Hr).
    destruct (Ascii.eqb c newline).
    + destruct Hin as [<- | Hin].
      * simpl in Hl. rewrite orb_false_r in Hl.
        destruct pat; [reflexivity | discriminate].
      * cbn [includes]. rewrite (IH l Hin Hl). apply orb_true_r.
    + rewrite Hs in Hin. destruct Hin as [<- | Hin].
      * cbn [includes] in Hl |- *. apply orb_true_iff in Hl.
        apply orb_true_iff. destruct Hl as [Hp | Hi].
        -- left. rewrite Hr. apply (prefix_app _ (String c l0) rest Hp).
        -- right. apply (IH l0); [rewrite Hs; left; reflexivity | exact Hi].
      * cbn [includes]. rewrite (IH l); [apply orb_true_r | | exact Hl].
        rewrite Hs. right. exact Hin.
Qed.

Lemma dropLastEmpty_In (l : string) (ls : list string) :
  In l (dropLastEmpty ls) -> In l ls.
Proof.
  induction ls as [| x r IH]; [intros [] |].
  cbn [dropLastEmpty]. destruct r as [| y r'].
  - destruct (String.eqb x ""); [intros [] | intros H; exact H].
  - intros [<- | H]; [left; reflexivity | right; apply IH, H].
Qed.

Lemma grepLines_none (pat text : string) :
  includes text pat = false -> grepLines pat text = [].
Proof.
  intros Hno. unfold grepLines, textLines.
  destruct (filter (fun l => includes l pat) (dropLastEmpty (splitLines text)))
    as [| l ls] eqn:Hf; [reflexivity |].
  assert (Hin : In l (l :: ls)) by (left; reflexivity).
  rewrite <- Hf in Hin. apply filter_In in Hin. destruct Hin as [Hin Hl].
  apply dropLastEmpty_In in Hin.
  rewrite (includes_of_line _ _ _ Hin Hl) in Hno. discriminate.
Qed.

Lemma holderOf_none (r : Try SpawnResult) :
  match r with
  | Ok res => includes (stdout res) "locked by:" = false
  | Err _ => True
  end ->
  holderOf r = "".
Proof.
  destruct r as [res | e]; [| reflexivity].
  intros H. unfold holderOf. rewrite (grepLines_none _ _ H). reflexivity.
Qed.

End Grep.

Section LockHolder.
Context {W : Type} {Sys : System W}.
Variable cfg : Config.

Lemma getLockersName_run (fname : string) (base : option string)
  (s : State W) :
  getLockersName cfg fname base s =
  let (r, w) := runCommand Sh (commandLine cfg (lockQuery fname base))
                  (world s) in
  (Done (holderOf r),
   {| world := w; trace := trace s ++ [EvRun (lockQuery fname base) r];
      rl := rl s; enableSyntaxCheck := enableSyntaxCheck s |}).
Proof.
  unfold getLockersName, execSyncGrep, lockQuery, lockLogFile, bind, call,
    emit, ret.
  destruct (runCommand Sh _ (world s)) as [r w]. simpl.
  destruct r as [res | e]; simpl; [| reflexivity].
  unfold holderOf. destruct (grepLines "locked by:" (stdout res)); reflexivity.
Qed.

(** C10, as amended.  The lock-holder query returns the empty string
    whenever the command that asks the log cannot be run, and whenever
    the output of the log has no [locked by:] in it, whatever the exit
    code of the log: a store entry that is missing or cannot be read, for
    which the log prints nothing, reads like a file that nobody holds. *)
Theorem getLockersName_empty_when_no_log :
  forall (fname : string) (rcsBasePath : option string) (s : State W),
    match fst (runCommand Sh (commandLine cfg (lockQuery fname rcsBasePath))
                 (world s)) with
    | Ok res => JS.includes (stdout res) "locked by:" = false
    | Err _ => True
    end ->
    fst (getLockersName cfg fname rcsBasePath s) = Done "".
Proof.
  intros fname base s H. rewrite getLockersName_run.
  destruct (runCommand Sh _ (world s)) as [r w]. simpl in *.
  destruct r as [res | e]; [| reflexivity].
  rewrite holderOf_none; [reflexivity | exact H].
Qed.

End LockHolder.


(** ** The history *)

Section History.
Import JS.

Lemma singleLine_cons (c : ascii) (s : string) :
  singleLine (String c s) = negb (Ascii.eqb newline c) && singleLine s.
Proof.
  unfold singleLine, nl. rewrite includes_char, negb_orb. reflexivity.
Qed.

Lemma singleLine_app (a b : string) :
  singleLine (a ++ b) = singleLine a && singleLine b.
Proof.
  induction a as [| c a IH]; [reflexivity |].
  simpl append. rewrite !singleLine_cons, IH, andb_assoc. reflexivity.
Qed.

Lemma splitLines_line (l rest : string) :
  singleLine l = true -> splitLines (l ++ nl ++ rest) = l :: splitLines rest.
Proof.
  induction l as [| c l IH]; intros H.
  - reflexivity.
  - rewrite singleLine_cons in H. apply andb_true_iff in H.
    destruct H as [Hc Hl]. simpl append. cbn [splitLines].
    rewrite Ascii.eqb_sym. apply negb_true_iff in Hc. rewrite Hc.
    simpl append in IH. rewrite (IH Hl). reflexivity.
Qed.

Lemma splitLines_unlines (ls : list string) :
  forallb singleLine ls = true -> splitLines (unlines ls) = (ls ++ [""])%list.
Proof.
  induction ls as [| l ls IH]; intros H; [reflexivity |].
  simpl in H. apply andb_true_iff in H. destruct H as [Hl Hls].
  cbn [unlines fold_right]. rewrite splitLines_line by exact Hl.
  fold (unlines ls). rewrite (IH Hls). reflexivity.
Qed.

Lemma prefix_of_longer (a b l : string) :
  prefix (a ++ b) l = true -> prefix a l = true.
Proof.
  revert l. induction a as [| c a IH]; intros l H.
  - apply prefix_empty.
  - destruct l as [| x l]; [discriminate |]. simpl in *.
    destruct (ascii_dec c x); [apply (IH _ H) | discriminate].
Qed.

Lemma spanNotSemi_app (d rest : string) :
  includes d ";" = false ->
  spanNotSemi (d ++ String ";" rest) = (d, String ";" rest).
Proof.
  induction d as [| c d IH]; intros H; [reflexivity |].
  change ";" with (str ";"%char) in H. rewrite includes_char in H.
  apply orb_false_iff in H. destruct H as [Hc Hd].
  simpl append. cbn [spanNotSemi]. rewrite Ascii.eqb_sym, Hc.
  change ";" with (str ";"%char) in IH. rewrite (IH Hd). reflexivity.
Qed.

Lemma matchDate_line (d rest : string) :
  truthy d = true -> includes d ";" = false ->
  matchDate ("date: " ++ d ++ String ";" rest) = Some d.
Proof.
  intros Hd Hs. destruct d as [| c d]; [discriminate |].
  unfold matchDate. simpl append.
  unfold dateAt. simpl prefix. simpl slice.
  change (String c (d ++ String ";" rest))
    with (String c d ++ String ";" rest).
  rewrite (spanNotSemi_app _ rest Hs). reflexivity.
Qed.

Lemma parse_header (header : list string) (st : ParseState) :
  forallb plainHeaderLine header = true -> inRevision st = false ->
  fold_left parseLine header st = st.
Proof.
  induction header as [| l ls IH]; intros H Hst; [reflexivity |].
  simpl in H. apply andb_true_iff in H. destruct H as [Hl Hls].
  unfold plainHeaderLine in Hl. apply andb_true_iff in Hl.
  destruct Hl as [_ Hl]. apply negb_true_iff in Hl.
  cbn [fold_left]. unfold parseLine at 2. rewrite Hl, Hst. simpl.
  apply (IH Hls Hst).
Qed.

Lemma parse_message (ms : list string) (title dat : string)
  (m0 : list string) (es : list HistoryEntry) :
  forallb plainMessageLine ms = true ->
  fold_left parseLine ms (openState title dat m0 es)
  = openState title dat (m0 ++ ms) es.
Proof.
  revert m0. induction ms as [| l ms IH]; intros m0 H.
  - rewrite app_nil_r. reflexivity.
  - simpl in H. apply andb_true_iff in H. destruct H as [Hl Hms].
    unfold plainMessageLine in Hl.
    repeat (apply andb_true_iff in Hl; destruct Hl as [Hl ?]).
    repeat match goal with
           | H : negb _ = true |- _ => apply negb_true_iff in H
           end.
    cbn [fold_left]. unfold parseLine at 2.
    assert (Hd : startsWith l "date: " = false).
    { destruct (startsWith l "date: ") eqn:Hd; [| reflexivity].
      unfold startsWith in *.
      rewrite (prefix_of_longer "date:" " " l Hd) in *. discriminate. }
    rewrite H3, Hd, H1, H0, H2, H. simpl. rewrite Hl. simpl.
    fold (openState title dat (m0 ++ [l]) es).
    rewrite (IH _ Hms), <- app_assoc. reflexivity.
Qed.

Lemma pushEntry_closed (st : ParseState) :
  currentRev st = "" -> pushEntry st = entries st.
Proof. intros H. unfold pushEntry. rewrite H. reflexivity. Qed.

Lemma removeFirst_here (lit s : string) :
  prefix lit s = true -> removeFirst lit s = slice (String.length lit) s.
Proof.
  intros H. destruct s as [| c s].
  - destruct lit; [reflexivity | discriminate].
  - cbn [removeFirst]. rewrite H. reflexivity.
Qed.

Lemma parse_title (c : ParseState) (title : string) :
  parseLine c ("revision " ++ title)
  = openState (trim title) (currentDate c) [] (pushEntry c).
Proof.
  unfold parseLine, startsWith.
  rewrite (removeFirst_here "revision " ("revision " ++ title));
    simpl prefix; rewrite ?prefix_empty; reflexivity.
Qed.

Lemma parse_separator (st : ParseState) :
  (inRevision st = false -> currentRev st = "") ->
  pushEntry (parseLine st REVISION_SEPARATOR) = pushEntry st /\
  currentDate (parseLine st REVISION_SEPARATOR) = currentDate st.
Proof.
  intros Hst. unfold parseLine, startsWith. simpl prefix. cbv iota.
  destruct (inRevision st) eqn:Hi; simpl; [| split; reflexivity].
  split; reflexivity.
Qed.

Lemma parse_date (title dat : string) (es : list HistoryEntry)
  (d rest : string) :
  truthy d = true -> includes d ";" = false ->
  parseLine (openState title dat [] es) ("date: " ++ d ++ String ";" rest)
  = openState title (trim d) [] es.
Proof.
  intros Hd Hs. unfold parseLine, startsWith.
  rewrite (matchDate_line d rest Hd Hs).
  simpl prefix. rewrite ?prefix_empty. reflexivity.
Qed.

Lemma parse_branches (title dat : string) (es : list HistoryEntry)
  (b : string) :
  parseLine (openState title dat [] es) ("branches:  " ++ b)
  = openState title dat [] es.
Proof.
  unfold parseLine, startsWith. simpl prefix. rewrite ?prefix_empty.
  simpl. rewrite ?andb_false_r. reflexivity.
Qed.

Lemma plainRevision_facts (r : Revision) :
  plainRevision r = true ->
  singleLine (revisionTitle r) = true /\
  truthy (trim (revisionTitle r)) = true /\
  truthy (r_date r) = true /\
  includes (r_date r) ";" = false /\
  singleLine (r_date r ++ ";  author: " ++ r_author r ++ ";  state: "
              ++ r_state r ++ ";" ++ r_lines r) = true /\
  match r_branches r with Some b => singleLine b | None => true end = true /\
  (List.length (r_log r) =? 0)%nat = false /\
  forallb plainMessageLine (r_log r) = true.
Proof.
  unfold plainRevision, loggedRevision. intros H.
  repeat (apply andb_true_iff in H; destruct H as [H ?]).
  repeat match goal with
         | H : negb _ = true |- _ => apply negb_true_iff in H
         end.
  repeat split; assumption.
Qed.

Lemma parse_revision (r : Revision) (st : ParseState) :
  plainRevision r = true ->
  (inRevision st = false -> currentRev st = "") ->
  fold_left parseLine (revisionLines r) st
  = openState (trim (revisionTitle r)) (trim (r_date r)) (r_log r)
      (pushEntry st).
Proof.
  intros Hr Hst.
  destruct (plainRevision_facts r Hr)
    as (Ht & Htt & Hd & Hds & Hdl & Hb & Hn & Hm).
  unfold revisionLines. rewrite !fold_left_app. cbn [fold_left].
  destruct (parse_separator st Hst) as [Hpush Hdate].
  rewrite parse_title, Hpush, Hdate.
  change (";  author: " ++ r_author r ++ ";  state: " ++ r_state r ++ ";"
          ++ r_lines r)
    with (String ";" ("  author: " ++ r_author r ++ ";  state: "
                      ++ r_state r ++ ";" ++ r_lines r)).
  rewrite (parse_date _ _ _ (r_date r) _ Hd Hds).
  assert (Hbr :
    fold_left parseLine
      match r_branches r with Some b => ["branches:  " ++ b] | None => [] end
      (openState (trim (revisionTitle r)) (trim (r_date r)) [] (pushEntry st))
    = openState (trim (revisionTitle r)) (trim (r_date r)) [] (pushEntry st)).
  { destruct (r_branches r); [| reflexivity].
    cbn [fold_left]. apply parse_branches. }
  rewrite Hbr.
  apply (parse_message (r_log r) _ _ [] _ Hm).
Qed.

Lemma pushEntry_open (r : Revision) (es : list HistoryEntry) :
  plainRevision r = true ->
  pushEntry (openState (trim (revisionTitle r)) (trim (r_date r)) (r_log r) es)
  = (es ++ [entryOf r])%list.
Proof.
  intros Hr.
  destruct (plainRevision_facts r Hr)
    as (Ht & Htt & Hd & Hds & Hdl & Hb & Hn & Hm).
  unfold pushEntry. simpl. rewrite Htt, Hn. reflexivity.
Qed.

Lemma parse_end (st : ParseState) :
  (inRevision st = false -> currentRev st = "") ->
  entries (fold_left parseLine [LOG_END; ""] st) = pushEntry st.
Proof.
  intros Hst. cbn [fold_left].
  assert (H1 : parseLine st LOG_END
               = if inRevision st
                 then {| inRevision := inRevision st;
                         currentRev := currentRev st;
                         currentDate := currentDate st;
                         currentMsg := currentMsg st;
                         entries := pushEntry st |}
                 else st).
  { unfold parseLine, startsWith. simpl prefix. cbv iota.
    destruct (inRevision st); reflexivity. }
  rewrite H1.
  assert (H2 : forall c, parseLine c "" = c).
  { intros c. unfold parseLine, startsWith. simpl prefix. cbv iota.
    simpl. rewrite ?andb_false_r. destruct (inRevision c); reflexivity. }
  rewrite H2. destruct (inRevision st) eqn:Hi; [reflexivity |].
  symmetry. apply pushEntry_closed, Hst. reflexivity.
Qed.

Lemma parse_revisions (revs : list Revision) (st : ParseState) :
  forallb plainRevision revs = true ->
  (inRevision st = false -> currentRev st = "") ->
  entries (fold_left parseLine
             (flat_map revisionLines revs ++ [LOG_END; ""]) st)
  = (pushEntry st ++ map entryOf revs)%list.
Proof.
  revert st. induction revs as [| r revs IH]; intros st H Hst.
  - cbn [flat_map app]. rewrite parse_end by exact Hst.
    rewrite app_nil_r. reflexivity.
  - simpl in H. apply andb_true_iff in H. destruct H as [Hr Hrevs].
    cbn [flat_map]. rewrite <- app_assoc, fold_left_app.
    rewrite (parse_revision r st Hr Hst).
    rewrite (IH _ Hrevs); [| discriminate].
    rewrite (pushEntry_open r _ Hr), <- app_assoc. reflexivity.
Qed.

Lemma plainMessage_single (ms : list string) :
  forallb plainMessageLine ms = true -> forallb singleLine ms = true.
Proof.
  rewrite !forallb_forall. intros H l Hl. specialize (H l Hl).
  unfold plainMessageLine in H.
  repeat (apply andb_true_iff in H; destruct H as [H ?]). assumption.
Qed.

Lemma revisionLines_single (r : Revision) :
  plainRevision r = true -> forallb singleLine (revisionLines r) = true.
Proof.
  intros Hr.
  destruct (plainRevision_facts r Hr)
    as (Ht & Htt & Hd & Hds & Hdl & Hb & Hn & Hm).
  unfold revisionLines. rewrite !forallb_app. cbn [forallb].
  rewrite (singleLine_app "revision " (revisionTitle r)), Ht.
  rewrite (singleLine_app "date: " _), Hdl.
  rewrite (plainMessage_single _ Hm).
  destruct (r_branches r) as [b |]; cbn [forallb];
    rewrite ?(singleLine_app "branches:  "), ?Hb; reflexivity.
Qed.

Lemma revisions_single (revs : list Revision) :
  forallb plainRevision revs = true ->
  forallb singleLine (flat_map revisionLines revs) = true.
Proof.
  induction revs as [| r revs IH]; intros H; [reflexivity |].
  simpl in H. apply andb_true_iff in H. destruct H as [Hr Hrevs].
  cbn [flat_map]. rewrite forallb_app, (revisionLines_single r Hr).
  apply (IH Hrevs).
Qed.

Lemma header_single (header : list string) :
  forallb plainHeaderLine header = true -> forallb singleLine header = true.
Proof.
  rewrite !forallb_forall. intros H l Hl. specialize (H l Hl).
  unfold plainHeaderLine in H. apply andb_true_iff in H. tauto.
Qed.

End History.

(** X29.  For a log in the format of [rlog], with a header that has no
    line starting with [revision ] and N revisions, newest first, whose
    messages have at least one line and no line that is empty or starts
    like a marker of the log ([revision ], [date:], [branches:], the
    separator, [===]), the history has exactly N entries, oldest first:
    the title of each revision, its date, and the lines of its message
    joined with spaces. *)
Theorem history_of_plain_log :
  forall (header : list string) (revs : list Revision),
    forallb plainHeaderLine header = true ->
    forallb plainRevision revs = true ->
    history (rlogText header revs) = List.rev (map entryOf revs) /\
    List.length (history (rlogText header revs)) = List.length revs.
Proof.
  intros header revs Hh Hr.
  assert (H : history (rlogText header revs) = List.rev (map entryOf revs)).
  { unfold history, parseLog, rlogText. f_equal.
    rewrite splitLines_unlines.
    - rewrite <- !app_assoc, fold_left_app.
      rewrite (parse_header header parseStart Hh eq_refl).
      cbn [app]. rewrite (parse_revisions revs parseStart Hr); reflexivity.
    - rewrite !forallb_app, (header_single _ Hh), (revisions_single _ Hr).
      reflexivity. }
  split; [exact H |].
  rewrite H, length_rev, length_map. reflexivity.
Qed.

(** ** The program never exits, except from [main] *)

Section NoExit.
Context {W : Type} {Sys : System W}.
Variable cfg : Config.

Lemma findXcsBundleRoot_sat (P : Event -> Prop) (E : Z -> Prop) (p : string) :
  satisfies P E anything (findXcsBundleRoot cfg p).
Proof. unfold findXcsBundleRoot. sat_done. Qed.

Lemma locateRcsFile_quiet (f : string) :
  satisfies anything never anything (locateRcsFile cfg f).
Proof.
  unfold locateRcsFile.
  sat_any; try apply findXcsBundleRoot_sat; simpl; auto with vic.
Qed.

Lemma showCommits_quiet (f : string) :
  satisfies anything never anything (showCommits cfg f).
Proof.
  unfold showCommits.
  eapply (sat_bind (Q := anything)); [apply locateRcsFile_quiet | intros o _].
  destruct o; [| sat_done].
  eapply (sat_bind (Q := anything)); [sat_done | intros r _].
  destruct r; [| sat_done].
  eapply (sat_bind (Q := anything)); [sat_done | intros _ _].
  eapply (sat_bind (Q := anything)); [| intros _ _; sat_done].
  apply sat_forEach. intros e. sat_done.
Qed.

End NoExit.

Section Quiet.
Context {W : Type} {Sys : System W}.
Variable cfg : Config.

Lemma sat_events_weaken {A} (P P' : Event -> Prop) (E : Z -> Prop)
  (Q : A -> Prop) (m : M W A) :
  (forall e, P e -> P' e) -> satisfies P E Q m -> satisfies P' E Q m.
Proof.
  intros HP Hm s. destruct (Hm s) as (evs & Ht & Hevs & H).
  exists evs. repeat split; auto.
  apply Forall_impl with (P := P); assumption.
Qed.

Lemma promptForRcsPath_quiet (d : string) :
  satisfies anything never anything (promptForRcsPath cfg d).
Proof. unfold promptForRcsPath. sat_done. Qed.

Lemma resolveRcsPath_quiet (p d : string) :
  satisfies anything never anything (resolveRcsPath cfg p d).
Proof.
  unfold resolveRcsPath.
  sat_any; try apply findXcsBundleRoot_sat; try apply promptForRcsPath_quiet;
    simpl; auto with vic.
Qed.

Lemma checkoutFile_prepare_quiet (f : string) :
  satisfies anything never anything (checkoutFile_prepare cfg f).
Proof.
  unfold checkoutFile_prepare, checkoutFile_symlink, checkoutFile_ensureExists,
    checkoutFile_hardLinks, checkoutFile_rcsPath, checkoutFile_ensureRcsDir,
    checkoutFile_initialCheckin.
  sat_any; try apply resolveRcsPath_quiet; simpl; auto with vic.
Qed.

Lemma checkoutFile_lockConflict_quiet (f : FileInfo) :
  satisfies anything never anything (checkoutFile_lockConflict cfg f).
Proof.
  unfold checkoutFile_lockConflict.
  sat_any; try (apply getLockersName_sat; intros; exact I);
    simpl; auto with vic.
Qed.

Lemma checkoutFile_drift_quiet (f : FileInfo) :
  satisfies anything never anything (checkoutFile_drift cfg f).
Proof. unfold checkoutFile_drift. sat_done. Qed.

Lemma checkoutFile_checkout_quiet (f : FileInfo) :
  satisfies anything never anything (checkoutFile_checkout cfg f).
Proof.
  unfold checkoutFile_checkout.
  sat_any; try (apply getLockersName_sat; intros; exact I);
    simpl; auto with vic.
Qed.

Lemma checkoutFile_quiet (f : string) :
  satisfies anything never anything (checkoutFile cfg f).
Proof.
  unfold checkoutFile, checkoutFile_upToCheckout, checkoutFile_readOnly.
  sat_any;
    try apply checkoutFile_prepare_quiet;
    try apply checkoutFile_lockConflict_quiet;
    try apply checkoutFile_drift_quiet;
    try apply checkoutFile_checkout_quiet;
    simpl; auto with vic.
Qed.

Lemma checkoutAll_quiet (args : list string) :
  satisfies anything never anything (checkoutAll cfg args).
Proof.
  induction args as [| a args IH]; simpl; [sat_done |].
  eapply (sat_bind (Q := anything)); [apply checkoutFile_quiet | intros o _].
  eapply (sat_bind (Q := anything)); [apply IH | intros l _]. sat_done.
Qed.

Lemma checkinFile_quiet (f : FileInfo) :
  satisfies anything never anything (checkinFile cfg f).
Proof.
  apply sat_events_weaken with (P := cleanCheckin); [intros; exact I |].
  apply checkinFile_cleanCheckin.
Qed.

End Quiet.

(** ** The ceiling on the number of files *)

Section Ceiling.
Context {W : Type} {Sys : System W}.
Variable cfg : Config.

Lemma main_batch (argv : list string) (s : State W) :
  batchInvocation cfg argv = true ->
  main cfg argv s =
  (if firstIs (argsAfterFlags argv) "-log" then
     if (maxFilesFor argv <? Z.of_nat (List.length (requestedFiles argv)))%Z
     then tooManyFiles (List.length (requestedFiles argv)) (maxFilesFor argv)
            "-log file1 file2 ..."
     else forEach (showCommits cfg) (requestedFiles argv)
   else
     if (maxFilesFor argv <? Z.of_nat (List.length (requestedFiles argv)))%Z
     then tooManyFiles (List.length (requestedFiles argv)) (maxFilesFor argv)
            "file1 file2 ..."
     else editFiles cfg (requestedFiles argv))
    (afterFlags argv s).
Proof.
  unfold batchInvocation, main, requestedFiles, maxFilesFor, argsAfterFlags,
    afterPc, afterFlags, editFiles, underXcs.
  intros H. repeat (apply andb_true_iff in H; destruct H as [H ?]).
  repeat match goal with
         | H : negb _ = true |- _ => apply negb_true_iff in H
         end.
  rewrite H, H2, H1.
  unfold argsAfterFlags, afterPc in H0. unfold bind at 1.
  destruct (firstIs argv "-pc"); simpl;
    destruct (firstIs _ "-n"); simpl;
    destruct (firstIs _ "-log"); simpl; try reflexivity;
    rewrite H0; reflexivity.
Qed.

Lemma tooManyFiles_run (n : nat) (maxFiles : Z) (hint : string)
  (argv : list string) (s : State W) :
  countError s (tooManyFiles (W:=W) n maxFiles hint (afterFlags argv s)).
Proof.
  assert (Hw : world (afterFlags argv s) = world s)
    by (unfold afterFlags; destruct (firstIs argv "-pc"); reflexivity).
  assert (Ht : trace (afterFlags argv s) = trace s)
    by (unfold afterFlags; destruct (firstIs argv "-pc"); reflexivity).
  unfold countError, tooManyFiles, logError, bind, emit, exit. simpl.
  rewrite Hw, Ht. repeat split. exists n, maxFiles. eexists. split.
  - rewrite <- app_assoc. reflexivity.
  - exists hint. reflexivity.
Qed.

Lemma editFiles_quiet (args : list string) :
  satisfies anything never anything (editFiles cfg args).
Proof.
  unfold editFiles, underXcs.
  eapply (sat_bind (Q := anything)); [sat_done | intros _ _].
  destruct (_ || _); [sat_done |].
  eapply (sat_bind (Q := anything)); [apply checkoutAll_quiet | intros l _].
  destruct (Nat.eqb _ _); [sat_done |].
  eapply (sat_bind (Q := anything)); [sat_done | intros _ _].
  eapply (sat_bind (Q := anything)); [sat_done | intros _ _].
  eapply (sat_bind (Q := anything)); [sat_done | intros _ _].
  eapply (sat_bind (Q := anything)); [| intros _ _; sat_done].
  apply sat_forEach. intros f. apply checkinFile_quiet.
Qed.

Lemma quiet_no_exit {A} (m : M W A) (s : State W) (c : Z) :
  satisfies anything never anything m -> fst (m s) <> Exit c.
Proof.
  intros Hm Hx. destruct (Hm s) as (evs & _ & _ & H).
  rewrite Hx in H. exact H.
Qed.

(** C1, as amended.  An invocation that edits files or shows their logs
    fails with the count error, exit code 1 and nothing done but the two
    lines of the error, exactly when it names more files than the
    ceiling in force: 3, or the number given to [-n] when that is an
    integer other than 0. *)
Theorem count_error_iff_over_ceiling :
  forall (argv : list string) (s : State W),
    batchInvocation cfg argv = true ->
    (countError s (main cfg argv s) <->
     (maxFilesFor argv < Z.of_nat (List.length (requestedFiles argv)))%Z).
Proof.
  intros argv s Hb. rewrite (main_batch argv s Hb).
  destruct (maxFilesFor argv <? Z.of_nat (List.length (requestedFiles argv)))%Z
    eqn:Hlt.
  - apply Z.ltb_lt in Hlt.
    destruct (firstIs (argsAfterFlags argv) "-log");
      (split; [intros _; exact Hlt | intros _; apply tooManyFiles_run]).
  - apply Z.ltb_ge in Hlt.
    destruct (firstIs (argsAfterFlags argv) "-log");
      (split; [| intros H; lia]); intros [Hx _]; exfalso.
    + eapply quiet_no_exit; [| exact Hx].
      apply sat_forEach. intros f. apply showCommits_quiet.
    + eapply quiet_no_exit; [| exact Hx].
      apply editFiles_quiet.
Qed.

End Ceiling.

(** ** The stale hint *)

Section StaleHint.
Context {W : Type} {Sys : System W}.
Variable cfg : Config.

Lemma bind_done {A B} (m : M W A) (k : A -> M W B) (s s1 : State W) (a : A) :
  m s = (Done a, s1) -> bind m k s = k a s1.
Proof. intros H. unfold bind. rewrite H. reflexivity. Qed.

Lemma findXcsBundleRoot_reads (p : string) (s : State W) :
  snd (findXcsBundleRoot cfg p s) = s.
Proof.
  destruct s as [w0 t0 r0 c0]. unfold findXcsBundleRoot. run_eval.
  destruct (existsSync (resolve p) w0); [| reflexivity].
  destruct (statSync (resolve p) w0); reflexivity.
Qed.

(** C5.  When the metadata directory carries a hint and the store root
    the hint stands for does not exist, [resolveRcsPath] purges the hint:
    it runs the removal command on the machine, and goes on in the world
    that the command leaves.  It asks the user for the store path there,
    closes the readline interface, and provides the store made from the
    answer: it creates the directory when it is missing and writes the
    new hint, or reports that the directory cannot be created.  So what
    it returns is null or the path made from the answer, never the path
    of the stale hint. *)
Theorem stale_hint_is_purged :
  forall (filePath fileDir : string) (s : State W) (xcsRoot : option string)
         (res : SpawnResult) (w1 : W),
    fst (findXcsBundleRoot cfg filePath s) = Done xcsRoot ->
    runCommand Sh (commandLine cfg (XattrGet (orElse xcsRoot fileDir)))
      (world s) = (Ok res, w1) ->
    status res = Some 0%Z ->
    truthy (JS.trim (stdout res)) = true ->
    existsSync (hintedPath cfg (orElse xcsRoot fileDir) (JS.trim (stdout res))) w1
    = false ->
    let dir := orElse xcsRoot fileDir in
    let removal := runCommand Sh (commandLine cfg (XattrRemove dir)) w1 in
    let asked := question (rcsPathQuestion cfg dir) (snd removal) in
    let p := pathInfoFor cfg dir (fst asked) in
    let purge :=
      [EvRun (XattrGet dir) (Ok res);
       EvRun (XattrRemove dir) (fst removal);
       EvLog "No RCS directory. Enter remote path or <enter>";
       EvQuestion (rcsPathQuestion cfg dir) (fst asked);
       EvCloseReadline] in
    resolveRcsPath cfg filePath fileDir s
    = (if existsSync (full p) (snd asked)
       then
         let written :=
           runCommand Sh (commandLine cfg (XattrSet dir (relative p)))
             (snd asked) in
         (Done (Some (full p)),
          withTrace s (snd written)
            (purge ++ [EvRun (XattrSet dir (relative p)) (fst written)])%list
            false)
       else
         let made := mkdirSync (full p) 509%Z (snd asked) in
         match fst made with
         | Ok _ =>
             let written :=
               runCommand Sh (commandLine cfg (XattrSet dir (relative p)))
                 (snd made) in
             (Done (Some (full p)),
              withTrace s (snd written)
                (purge ++ [EvMkdir (full p) 509%Z (fst made);
                           EvRun (XattrSet dir (relative p)) (fst written)])%list
                false)
         | Err e =>
             (Done None,
              withTrace s (snd made)
                (purge ++ [EvMkdir (full p) 509%Z (fst made);
                           EvLog ("Error creating directory " ++ full p
                                  ++ ": " ++ e)])%list
                false)
         end) /\
    (fst (resolveRcsPath cfg filePath fileDir s) = Done None \/
     fst (resolveRcsPath cfg filePath fileDir s) = Done (Some (full p))).
Proof.
  intros filePath fileDir s xcsRoot res w1 Hfind Hget Hst Hhint Hstale
    dir removal asked p purge.
  assert (Hroot : findXcsBundleRoot cfg filePath s = (Done xcsRoot, s)).
  { rewrite <- (findXcsBundleRoot_reads filePath s) at 2.
    rewrite <- Hfind. destruct (findXcsBundleRoot cfg filePath s); reflexivity. }
  assert (Hrun :
    resolveRcsPath cfg filePath fileDir s
    = (if existsSync (full p) (snd asked)
       then
         let written :=
           runCommand Sh (commandLine cfg (XattrSet dir (relative p)))
             (snd asked) in
         (Done (Some (full p)),
          withTrace s (snd written)
            (purge ++ [EvRun (XattrSet dir (relative p)) (fst written)])%list
            false)
       else
         let made := mkdirSync (full p) 509%Z (snd asked) in
         match fst made with
         | Ok _ =>
             let written :=
               runCommand Sh (commandLine cfg (XattrSet dir (relative p)))
                 (snd made) in
             (Done (Some (full p)),
              withTrace s (snd written)
                (purge ++ [EvMkdir (full p) 509%Z (fst made);
                           EvRun (XattrSet dir (relative p)) (fst written)])%list
                false)
         | Err e =>
             (Done None,
              withTrace s (snd made)
                (purge ++ [EvMkdir (full p) 509%Z (fst made);
                           EvLog ("Error creating directory " ++ full p
                                  ++ ": " ++ e)])%list
                false)
         end)).
  { unfold resolveRcsPath. rewrite (bind_done _ _ _ _ _ Hroot).
    subst purge p asked removal dir.
    set (dir := orElse xcsRoot fileDir) in *.
    destruct s as [w0 t0 r0 c0]. cbn [world trace] in *.
    unfold getXattrPath, removeXattr, setXattrPath, promptForRcsPath,
      withTrace.
    run_eval. rewrite Hget. run_eval. rewrite Hst, Hhint.
    fold (hintedPath cfg dir (JS.trim (stdout res))). rewrite Hstale.
    destruct (runCommand Sh (commandLine cfg (XattrRemove dir)) w1)
      as [removed w2].
    run_eval.
    destruct (question (rcsPathQuestion cfg dir) w2) as [answer w3].
    run_eval.
    destruct (existsSync (full (pathInfoFor cfg dir answer)) w3).
    - destruct (runCommand Sh _ w3) as [set w4]. run_eval.
      rewrite <- !app_assoc. reflexivity.
    - destruct (mkdirSync (full (pathInfoFor cfg dir answer)) 509 w3)
        as [[[] | e] w4]; run_eval.
      + destruct (runCommand Sh _ w4) as [set w5]. run_eval.
        rewrite <- !app_assoc. reflexivity.
      + rewrite <- !app_assoc. reflexivity. }
  split; [exact Hrun |].
  rewrite Hrun.
  destruct (existsSync (full p) (snd asked)); [right; reflexivity |].
  cbv zeta.
  destruct (mkdirSync (full p) 509 (snd asked)) as [[u | e] w4];
    [right | left]; reflexivity.
Qed.

End StaleHint.

(** ** The lock conflict *)

Section LockConflict.
Context {W : Type} {Sys : System W}.
Variable cfg : Config.

Lemma checkoutFile_lockConflict_run (f : FileInfo) (s : State W) :
  checkoutFile_lockConflict cfg f s =
  let q := lockQuery (fname f) (rcsBasePath f) in
  let (answer, w) := runCommand Sh (commandLine cfg q) (world s) in
  if truthy (holderOf answer) then
    let (ans, w1) := question unlockQuestion w in
    if declined ans then
      (Done None,
       {| world := w1;
          trace := trace s ++ EvRun q answer
                     :: conflictReport f (holderOf answer) ans;
          rl := true; enableSyntaxCheck := enableSyntaxCheck s |})
    else
      let (r, w2) := runCommand Bash
                       (commandLine cfg (Unlock (fname f) (rcsFile f))) w1 in
      (Done (Some tt),
       {| world := w2;
          trace := trace s ++ EvRun q answer
                     :: conflictReport f (holderOf answer) ans
                     ++ [EvRun (Unlock (fname f) (rcsFile f)) r];
          rl := true; enableSyntaxCheck := enableSyntaxCheck s |})
  else
    (Done (Some tt),
     {| world := w; trace := trace s ++ [EvRun q answer]; rl := rl s;
        enableSyntaxCheck := enableSyntaxCheck s |}).
Proof.
  unfold checkoutFile_lockConflict. unfold bind at 1.
  rewrite getLockersName_run. cbv zeta.
  destruct (runCommand Sh _ (world s)) as [answer w].
  destruct (truthy (holderOf answer)); [| reflexivity].
  unfold log, prompt, shell; unfold bind, emit, call, setReadline, ret. simpl.
  destruct (question unlockQuestion w) as [ans w1]. simpl.
  destruct (declined ans); simpl.
  - rewrite <- !app_assoc. reflexivity.
  - destruct (runCommand Bash _ w1) as [r w2]. simpl.
    rewrite <- !app_assoc. reflexivity.
Qed.

Lemma checkoutFile_from_prepare (fname0 : string) (s s1 : State W)
  (f : FileInfo) :
  checkoutFile_prepare cfg fname0 s = (Done (Some f), s1) ->
  checkoutFile cfg fname0 s =
  match checkoutFile_lockConflict cfg f s1 with
  | (Done (Some _), s2) =>
      match checkoutFile_drift cfg f s2 with
      | (Done (Some mode), s3) =>
          match checkoutFile_readOnly cfg f mode s3 with
          | (Done _, s4) =>
              checkoutFile_checkout cfg
                {| fname := fname f; rcsFile := rcsFile f;
                   baseName := baseName f; originalMode := mode;
                   rcsBasePath := rcsBasePath f |} s4
          | (Exit c, s4) => (Exit c, s4)
          | (Throw e, s4) => (Throw e, s4)
          end
      | (Done None, s3) => (Done None, s3)
      | (Exit c, s3) => (Exit c, s3)
      | (Throw e, s3) => (Throw e, s3)
      end
  | (Done None, s2) => (Done None, s2)
  | (Exit c, s2) => (Exit c, s2)
  | (Throw e, s2) => (Throw e, s2)
  end.
Proof.
  intros H.
  unfold checkoutFile, checkoutFile_upToCheckout, checkoutFile_upToDrift,
    bind, ret.
  rewrite H.
  destruct (checkoutFile_lockConflict cfg f s1) as [[[[]|] | c | e] s2];
    try reflexivity.
  destruct (checkoutFile_drift cfg f s2) as [[[mode|] | c | e] s3];
    try reflexivity.
  destruct (checkoutFile_readOnly cfg f mode s3) as [[[] | c | e] s4];
    reflexivity.
Qed.

(** C2, as amended.  When the checkout of a file reaches the lock check,
    the conflict is surfaced (the holder reported, the offer to unlock
    made) exactly when the reported holder is not empty, whoever the
    holder is; and when the answer to the offer has no [y] in it, the
    checkout of the file returns null with nothing done after the
    question. *)
Theorem lock_conflict_iff_held :
  forall (fname0 : string) (s s1 : State W) (f : FileInfo),
    checkoutFile_prepare cfg fname0 s = (Done (Some f), s1) ->
    let q := lockQuery (fname f) (rcsBasePath f) in
    let answer := fst (runCommand Sh (commandLine cfg q) (world s1)) in
    let holder := holderOf answer in
    exists evs,
      trace (snd (checkoutFile_lockConflict cfg f s1))
      = (trace s1 ++ EvRun q answer :: evs)%list /\
      (conflictSurfaced (fname f) holder evs <-> holder <> "") /\
      (forall ans,
          In (EvQuestion unlockQuestion ans) evs -> declined ans = true ->
          evs = conflictReport f holder ans /\
          fst (checkoutFile cfg fname0 s) = Done None /\
          trace (snd (checkoutFile cfg fname0 s))
          = (trace s1 ++ EvRun q answer :: evs)%list).
Proof.
  intros fname0 s s1 f Hprep q answer holder.
  rewrite (checkoutFile_from_prepare fname0 s s1 f Hprep).
  rewrite checkoutFile_lockConflict_run. cbv zeta.
  subst holder answer q.
  destruct (runCommand Sh _ (world s1)) as [answer w]. simpl fst.
  destruct (truthy (holderOf answer)) eqn:Hh.
  - assert (Hne : holderOf answer <> "")
      by (intros He; rewrite He in Hh; discriminate).
    destruct (question unlockQuestion w) as [ans w1].
    destruct (declined ans) eqn:Hd.
    + eexists. split; [reflexivity |]. split.
      * split; [intros _; exact Hne | intros _].
        split; [left; reflexivity |].
        exists ans. right. right. left. reflexivity.
      * intros a Hin Ha. simpl in Hin.
        destruct Hin as [Hin | [Hin | [Hin | []]]]; try discriminate.
        injection Hin as <-. repeat split.
    + destruct (runCommand Bash _ w1) as [r w2].
      eexists. split; [reflexivity |]. split.
      * split; [intros _; exact Hne | intros _].
        split; [left; reflexivity |].
        exists ans. right. right. left. reflexivity.
      * intros a Hin Ha. simpl in Hin.
        destruct Hin as [Hin | [Hin | [Hin | [Hin | []]]]]; try discriminate.
        injection Hin as <-. rewrite Ha in Hd. discriminate.
  - assert (He : holderOf answer = "").
    { destruct (holderOf answer); [reflexivity | discriminate]. }
    exists []. split; [reflexivity |]. split.
    + split; [intros [[] _] | intros Hne; contradiction].
    + intros a [].
Qed.

End LockConflict.

(** ** The lock after the checkout *)

Section LockAfterCheckout.
Context {W : Type} {Sys : System W}.
Variable cfg : Config.

Lemma checkoutFile_checkout_run (f : FileInfo) (s : State W) :
  checkoutFile_checkout cfg f s =
  let c := Checkout (fname f) (rcsFile f) in
  let q := lockQuery (fname f) (rcsBasePath f) in
  let (r, w) := runCommand Bash (commandLine cfg c) (world s) in
  match (match r with Ok res => status res | Err _ => Some 1%Z end) with
  | Some 0%Z =>
      let (answer, w1) := runCommand Sh (commandLine cfg q) w in
      if truthy (holderOf answer) then
        (Done (Some f),
         {| world := w1;
            trace := trace s ++ [EvRun c r; EvRun q answer; EvLog ""];
            rl := rl s; enableSyntaxCheck := enableSyntaxCheck s |})
      else
        (Done None,
         {| world := w1;
            trace := trace s ++ [EvRun c r; EvRun q answer;
                                 EvLog ("Could not lock " ++ fname f ++ ".")];
            rl := rl s; enableSyntaxCheck := enableSyntaxCheck s |})
  | _ =>
      (Done None,
       {| world := w;
          trace := trace s ++ [EvRun c r;
                               EvLog ("Checkout failed for " ++ fname f)];
          rl := rl s; enableSyntaxCheck := enableSyntaxCheck s |})
  end.
Proof.
  unfold checkoutFile_checkout, shell, log; unfold bind, call, emit, ret.
  cbv zeta. destruct (runCommand Bash _ (world s)) as [r w]. simpl.
  destruct (match r with Ok res => status res | Err _ => Some 1%Z end)
    as [[| p | p] |]; simpl; try (rewrite <- !app_assoc; reflexivity).
  rewrite getLockersName_run. simpl.
  destruct (runCommand Sh _ w) as [answer w1]. simpl.
  destruct (truthy (holderOf answer)); simpl;
    rewrite <- !app_assoc; reflexivity.
Qed.

Lemma checkoutFile_from_upToCheckout (fname0 : string) (s s1 : State W)
  (f : FileInfo) :
  checkoutFile_upToCheckout cfg fname0 s = (Done (Some f), s1) ->
  checkoutFile cfg fname0 s = checkoutFile_checkout cfg f s1.
Proof. intros H. unfold checkoutFile, bind. rewrite H. reflexivity. Qed.

Lemma checkoutAll_skips (fname0 : string) (rest : list string)
  (s : State W) :
  fst (checkoutFile cfg fname0 s) = Done None ->
  checkoutAll cfg (fname0 :: rest) s
  = checkoutAll cfg rest (snd (checkoutFile cfg fname0 s)).
Proof.
  intros H. cbn [checkoutAll]. unfold bind, ret.
  destruct (checkoutFile cfg fname0 s) as [o s1]. simpl in *. subst o.
  destruct (checkoutAll cfg rest s1) as [[l | c | e] s2]; reflexivity.
Qed.

(** C3.  When the checkout command of a file reports success and the
    lock-holder query that follows reports no holder, the checkout of
    the file returns null, with the line that the file could not be
    locked, and the batch goes on without the file. *)
Theorem checkout_fails_without_lock :
  forall (fname0 : string) (s s1 : State W) (f : FileInfo)
         (co : SpawnResult) (w : W),
    checkoutFile_upToCheckout cfg fname0 s = (Done (Some f), s1) ->
    runCommand Bash (commandLine cfg (Checkout (fname f) (rcsFile f)))
      (world s1) = (Ok co, w) ->
    status co = Some 0%Z ->
    holderOf (fst (runCommand Sh
                     (commandLine cfg (lockQuery (fname f) (rcsBasePath f)))
                     w)) = "" ->
    fst (checkoutFile cfg fname0 s) = Done None /\
    trace (snd (checkoutFile cfg fname0 s))
    = (trace s1 ++
       [EvRun (Checkout (fname f) (rcsFile f)) (Ok co);
        EvRun (lockQuery (fname f) (rcsBasePath f))
          (fst (runCommand Sh
                  (commandLine cfg (lockQuery (fname f) (rcsBasePath f))) w));
        EvLog ("Could not lock " ++ fname f ++ ".")])%list /\
    (forall rest,
        checkoutAll cfg (fname0 :: rest) s
        = checkoutAll cfg rest (snd (checkoutFile cfg fname0 s))).
Proof.
  intros fname0 s s1 f co w Hup Hco Hst Hholder.
  assert (Hrun :
    checkoutFile cfg fname0 s =
    (Done None,
     {| world := snd (runCommand Sh
                        (commandLine cfg
                           (lockQuery (fname f) (rcsBasePath f))) w);
        trace := trace s1 ++
          [EvRun (Checkout (fname f) (rcsFile f)) (Ok co);
           EvRun (lockQuery (fname f) (rcsBasePath f))
             (fst (runCommand Sh
                     (commandLine cfg (lockQuery (fname f) (rcsBasePath f)))
                     w));
           EvLog ("Could not lock " ++ fname f ++ ".")];
        rl := rl s1; enableSyntaxCheck := enableSyntaxCheck s1 |})).
  { rewrite (checkoutFile_from_upToCheckout fname0 s s1 f Hup).
    rewrite checkoutFile_checkout_run. cbv zeta. rewrite Hco, Hst.
    destruct (runCommand Sh _ w) as [answer w1]. simpl in *.
    rewrite Hholder. reflexivity. }
  split; [rewrite Hrun; reflexivity |].
  split; [rewrite Hrun; reflexivity |].
  intros rest. apply checkoutAll_skips. rewrite Hrun. reflexivity.
Qed.

End LockAfterCheckout.

(** ** The answer to the drift *)

Section Drift.
Context {W : Type} {Sys : System W}.
Variable cfg : Config.

Lemma checkoutFile_drift_run (f : FileInfo) (s : State W) :
  checkoutFile_drift cfg f s =
  let (diff, w) :=
    runCommand Bash
      (commandLine cfg (DiffTo (fname f) (rcsFile f) (tmpFile cfg)))
      (world s) in
  match (match diff with Ok res => status res | Err _ => Some 1%Z end) with
  | Some 0%Z =>
      (Done (Some (originalMode f)),
       withTrace s w
         [EvRun (DiffTo (fname f) (rcsFile f) (tmpFile cfg)) diff] (rl s))
  | _ =>
      let (cat, w1) :=
        runCommand Bash (commandLine cfg (Cat (tmpFile cfg))) w in
      let (unlinked, w2) := unlinkSync (tmpFile cfg) w1 in
      let (answer, w3) := question "---> " w2 in
      let report := driftReport cfg f diff cat unlinked answer in
      if JS.includes answer "1" then
        let (lk, w4) :=
          runCommand Bash (commandLine cfg (Lock (fname f) (rcsFile f))) w3 in
        let (ci, w5) :=
          runCommand Bash
            (commandLine cfg
               (Checkin "Sync uncommitted changes" (fname f) (rcsFile f)))
            w4 in
        let synced :=
          (report ++
           [EvLog ""; EvRun (Lock (fname f) (rcsFile f)) lk;
            EvRun (Checkin "Sync uncommitted changes" (fname f) (rcsFile f))
              ci])%list in
        match statSync (fname f) w5 with
        | Err e => (Throw e, withTrace s w5 synced true)
        | Ok newStats =>
            (Done (Some (st_mode newStats)),
             withTrace s w5 (synced ++ [EvLog ""]) true)
        end
      else if negb (JS.includes answer "3") then
        (Done None, withTrace s w3 (report ++ [EvLog "No changes made"]) true)
      else (Done (Some (originalMode f)), withTrace s w3 report true)
  end.
Proof.
  destruct s as [w0 t0 r0 c0].
  unfold checkoutFile_drift, withTrace, driftReport.
  run_eval.
  destruct (runCommand Bash _ w0) as [diff w].
  run_eval.
  destruct (match diff with Ok res => status res | Err _ => Some 1%Z end)
    as [[| p | p] |]; [reflexivity | | |];
    destruct (runCommand Bash _ w) as [cat w1]; run_eval;
    destruct (unlinkSync (tmpFile cfg) w1) as [unlinked w2]; run_eval;
    destruct (question "---> " w2) as [answer w3]; run_eval;
    (destruct (JS.includes answer "1"); run_eval;
     [ destruct (runCommand Bash _ w3) as [lk w4]; run_eval;
       destruct (runCommand Bash _ w4) as [ci w5]; run_eval;
       destruct (statSync (fname f) w5) as [st | e]; run_eval;
       rewrite <- !app_assoc; reflexivity
     | destruct (JS.includes answer "3"); run_eval;
       rewrite <- !app_assoc; reflexivity ]).
Qed.

Lemma driftReport_question (f : FileInfo) (diff cat : Try SpawnResult)
  (unlinked : Try unit) (answer q a : string) :
  In (EvQuestion q a) (driftReport cfg f diff cat unlinked answer) -> a = answer.
Proof.
  unfold driftReport. intros Hin. simpl in Hin.
  repeat (destruct Hin as [Hin | Hin]; try discriminate);
    [injection Hin as _ ->; reflexivity | contradiction].
Qed.

Lemma checkoutFile_stops_at_drift (fname0 : string) (s s1 : State W)
  (f : FileInfo) :
  checkoutFile_upToDrift cfg fname0 s = (Done (Some f), s1) ->
  fst (checkoutFile_drift cfg f s1) = Done None ->
  checkoutFile cfg fname0 s = (Done None, snd (checkoutFile_drift cfg f s1)).
Proof.
  intros H Hd. unfold checkoutFile, checkoutFile_upToCheckout, bind, ret.
  rewrite H. destruct (checkoutFile_drift cfg f s1) as [o s2].
  simpl in Hd. subst o. reflexivity.
Qed.

(** C4, as amended.  When the checkout of a file reaches the check for
    uncommitted changes and the user is asked what to do about them,
    every answer that has neither [1] (check the changes in) nor [3]
    (ignore them and continue) anywhere in it ends the session of the
    file like answer 2: the line that no changes were made, and null. *)
Theorem drift_other_answer_aborts :
  forall (fname0 : string) (s s1 : State W) (f : FileInfo)
         (evs : list Event) (answer : string),
    checkoutFile_upToDrift cfg fname0 s = (Done (Some f), s1) ->
    trace (snd (checkoutFile_drift cfg f s1)) = (trace s1 ++ evs)%list ->
    In (EvQuestion "---> " answer) evs ->
    JS.includes answer "1" = false ->
    JS.includes answer "3" = false ->
    fst (checkoutFile cfg fname0 s) = Done None /\
    trace (snd (checkoutFile cfg fname0 s)) = (trace s1 ++ evs)%list /\
    exists diff cat unlinked,
      evs = (driftReport cfg f diff cat unlinked answer
             ++ [EvLog "No changes made"])%list.
Proof.
  intros fname0 s s1 f evs answer Hup Htrace Hin H1 H3.
  assert (Hnone : fst (checkoutFile_drift cfg f s1) = Done None /\
                  exists diff cat unlinked,
                    evs = (driftReport cfg f diff cat unlinked answer
                           ++ [EvLog "No changes made"])%list).
  { assert (Hq : forall diff cat unlinked a rest,
               evs = (driftReport cfg f diff cat unlinked a ++ rest)%list ->
               (forall q' a', ~ In (EvQuestion q' a') rest) -> a = answer).
    { intros diff cat unlinked a rest -> Hrest.
      apply in_app_or in Hin. destruct Hin as [Hin | Hin].
      - symmetry. apply (driftReport_question _ _ _ _ _ _ _ Hin).
      - destruct (Hrest _ _ Hin). }
    rewrite checkoutFile_drift_run in Htrace |- *.
    destruct (runCommand Bash _ (world s1)) as [diff w].
    destruct (match diff with Ok res => status res | Err _ => Some 1%Z end)
      as [[| p | p] |];
      [ unfold withTrace in Htrace; cbn [snd trace] in Htrace;
        apply app_inv_head in Htrace; subst evs;
        destruct Hin as [Hin | []]; discriminate | | |];
      destruct (runCommand Bash _ w) as [cat w1];
      destruct (unlinkSync (tmpFile cfg) w1) as [unlinked w2];
      destruct (question "---> " w2) as [a w3]; cbv zeta in *;
      (destruct (JS.includes a "1") eqn:Ha1;
       [ destruct (runCommand Bash _ w3) as [lk w4];
         destruct (runCommand Bash _ w4) as [ci w5];
         destruct (statSync (fname f) w5) as [st | e];
         unfold withTrace in Htrace; cbn [snd trace] in Htrace;
         apply app_inv_head in Htrace; rewrite <- ?app_assoc in Htrace;
         symmetry in Htrace;
         (assert (a = answer)
            by (apply (Hq _ _ _ _ _ Htrace); intros q' a' Hr; simpl in Hr;
                repeat (destruct Hr as [Hr | Hr]; try discriminate);
                contradiction));
         congruence
       | destruct (JS.includes a "3") eqn:Ha3;
         unfold withTrace in Htrace |- *; cbn [fst snd trace] in Htrace |- *;
         apply app_inv_head in Htrace; symmetry in Htrace;
         [ assert (a = answer)
             by (apply (Hq diff cat unlinked a []);
                 [rewrite app_nil_r; exact Htrace | intros q' a' []]);
           congruence
         | assert (a = answer)
             by (apply (Hq _ _ _ _ _ Htrace); intros q' a' Hr; simpl in Hr;
                 repeat (destruct Hr as [Hr | Hr]; try discriminate);
                 contradiction);
           subst a; split; [reflexivity |];
           exists diff, cat, unlinked; exact Htrace ] ]). }
  destruct Hnone as [Hnone Hevs].
  rewrite (checkoutFile_stops_at_drift fname0 s s1 f Hup Hnone).
  split; [reflexivity |]. split; [exact Htrace | exact Hevs].
Qed.

End Drift.

(** ** The local store *)

Section LocalStore.
Context {W : Type} {Sys : System W}.
Variable cfg : Config.

Lemma checkoutFile_split (fname0 : string) (s : State W) :
  checkoutFile cfg fname0 s =
  ('(fname, dirName, baseName, mode) <-? checkoutFile_identify fname0 ;;
   '(rcsPath, rcsBasePath) <-? checkoutFile_rcsPath cfg fname dirName ;;
   checkoutFile_withStore cfg fname baseName mode rcsPath rcsBasePath) s.
Proof.
  unfold checkoutFile, checkoutFile_upToCheckout, checkoutFile_upToDrift,
    checkoutFile_prepare, checkoutFile_withStore, bind, ret.
  destruct (checkoutFile_identify fname0 s)
    as [[[[[[fname dirName] baseName] mode] |] | c | e] s1]; try reflexivity.
  destruct (checkoutFile_rcsPath cfg fname dirName s1)
    as [[[[rcsPath base] |] | c | e] s2]; try reflexivity.
  destruct (checkoutFile_ensureRcsDir rcsPath s2)
    as [[[[] |] | c | e] s3]; try reflexivity.
  destruct (checkoutFile_initialCheckin cfg fname _ s3)
    as [[[] | c | e] s4]; try reflexivity.
  destruct (checkoutFile_lockConflict cfg _ s4)
    as [[[[] |] | c | e] s5]; try reflexivity.
  destruct (checkoutFile_drift cfg _ s5)
    as [[[mode' |] | c | e] s6]; try reflexivity.
  destruct (checkoutFile_readOnly cfg _ mode' s6)
    as [[[] | c | e] s7]; reflexivity.
Qed.

Lemma checkoutFile_identify_local (rcs fname0 : string) :
  satisfies (localSessionEvent rcs) never anything
    (checkoutFile_identify fname0).
Proof.
  unfold checkoutFile_identify, checkoutFile_symlink,
    checkoutFile_ensureExists, checkoutFile_hardLinks, localSessionEvent.
  sat_any; simpl; auto with vic; split; auto; intros H; try exact H;
    discriminate.
Qed.

Lemma checkoutFile_withStore_local (fname baseName : string) (mode : Z)
  (rcsPath : string) (base : option string) :
  satisfies (localSessionEvent (rcsPath ++ "/" ++ baseName ++ ",v")) never
    (fun o => forall f, o = Some f ->
                        rcsFile f = rcsPath ++ "/" ++ baseName ++ ",v" /\
                        rcsBasePath f = base)
    (checkoutFile_withStore cfg fname baseName mode rcsPath base).
Proof.
  unfold checkoutFile_withStore, checkoutFile_ensureRcsDir,
    checkoutFile_initialCheckin, checkoutFile_lockConflict,
    checkoutFile_drift, checkoutFile_readOnly, checkoutFile_checkout,
    localSessionEvent.
  cbv zeta.
  sat_any;
    try (apply getLockersName_sat; intros; simpl; tauto);
    simpl; auto with vic;
    try (split; [intros H; try exact H; discriminate | reflexivity]);
    try discriminate.
  all: intros g Hg; injection Hg as <-; split; reflexivity.
Qed.

(** C7.  When the directory of the file to edit has a store root under
    the local convention, the checkout of the file uses that store root:
    the step that looks for the store yields that directory and no
    remote base path without doing anything, and the checkout goes on at
    once, in the same state, with the rest of the checkout on it.  So it runs no command that reads, writes or
    removes directory metadata, never asks for a store path, runs every
    RCS command on the entry of the file in that local store root, and
    the session it returns is on that entry. *)
Theorem local_store_skips_metadata :
  forall (fname0 : string) (s s1 : State W) (fname dirName baseName : string)
         (mode : Z),
    checkoutFile_identify fname0 s
    = (Done (Some (fname, dirName, baseName, mode)), s1) ->
    existsSync (dirName ++ "/" ++ RCS_DIR) (world s1) = true ->
    let rcs := (dirName ++ "/" ++ RCS_DIR) ++ "/" ++ baseName ++ ",v" in
    checkoutFile_rcsPath cfg fname dirName s1
    = (Done (Some (dirName ++ "/" ++ RCS_DIR, None)), s1) /\
    checkoutFile cfg fname0 s
    = checkoutFile_withStore cfg fname baseName mode
        (dirName ++ "/" ++ RCS_DIR) None s1 /\
    exists evs,
      trace (snd (checkoutFile cfg fname0 s)) = (trace s ++ evs)%list /\
      Forall (localSessionEvent rcs) evs /\
      (forall f, fst (checkoutFile cfg fname0 s) = Done (Some f) ->
                 rcsFile f = rcs /\ rcsBasePath f = None).
Proof.
  intros fname0 s s1 fname dirName baseName mode Hid Hex rcs.
  assert (Hpath : checkoutFile_rcsPath cfg fname dirName s1
                  = (Done (Some (dirName ++ "/" ++ RCS_DIR, None)), s1)).
  { destruct s1 as [w0 t0 r0 c0]. unfold checkoutFile_rcsPath. run_eval.
    cbn [world] in Hex. rewrite Hex. reflexivity. }
  split; [exact Hpath |].
  rewrite checkoutFile_split. rewrite (bind_done _ _ _ _ _ Hid).
  rewrite (bind_done _ _ _ _ _ Hpath).
  split; [reflexivity |].
  destruct (checkoutFile_identify_local rcs fname0 s) as (evs1 & Ht1 & HP1 & _).
  rewrite Hid in Ht1. cbn [snd] in Ht1.
  destruct (checkoutFile_withStore_local fname baseName mode
              (dirName ++ "/" ++ RCS_DIR) None s1) as (evs2 & Ht2 & HP2 & HQ).
  exists (evs1 ++ evs2)%list. split; [| split].
  - rewrite Ht2, Ht1, app_assoc. reflexivity.
  - apply Forall_app. split; assumption.
  - intros f Hf. rewrite Hf in HQ. apply (HQ f eq_refl).
Qed.

End LocalStore.

(** ** Under the remote store base *)

Section UnderXcs.
Context {W : Type} {Sys : System W}.
Variable cfg : Config.

(** C9, as amended.  When the working directory is the remote store base
    or beneath it, an invocation that edits files and names no more of
    them than the ceiling spawns the editor on the files as they were
    named, and does nothing else: the trace grows by the blank line and
    the editor, with no command of a session before or after. *)
Theorem xcs_edits_directly :
  forall (argv : list string) (s : State W),
    underXcs cfg = true ->
    editInvocation cfg argv = true ->
    (Z.of_nat (List.length (argsAfterFlags argv)) <= maxFilesFor argv)%Z ->
    main cfg argv s =
    (Done tt,
     {| world := runEditor (EDITOR cfg) (argsAfterFlags argv) (world s);
        trace := trace s ++ [EvLog ""; EvEditor (EDITOR cfg) (argsAfterFlags argv)];
        rl := rl s;
        enableSyntaxCheck := enableSyntaxCheck (afterFlags argv s) |}).
Proof.
  intros argv s Hx He Hn. unfold editInvocation in He.
  apply andb_true_iff in He. destruct He as [Hb Hl].
  apply negb_true_iff in Hl.
  rewrite (main_batch cfg argv s Hb).
  assert (Hf : requestedFiles argv = argsAfterFlags argv)
    by (unfold requestedFiles; rewrite Hl; reflexivity).
  rewrite Hl, Hf. apply Z.ltb_ge in Hn. rewrite Hn.
  unfold editFiles. rewrite Hx. unfold spawnEditor.
  assert (Hw : world (afterFlags argv s) = world s)
    by (unfold afterFlags; destruct (firstIs argv "-pc"); reflexivity).
  assert (Ht : trace (afterFlags argv s) = trace s)
    by (unfold afterFlags; destruct (firstIs argv "-pc"); reflexivity).
  assert (Hr : rl (afterFlags argv s) = rl s)
    by (unfold afterFlags; destruct (firstIs argv "-pc"); reflexivity).
  destruct (afterFlags argv s) as [w0 t0 r0 c0]. cbn [world trace rl] in *.
  subst. run_eval. rewrite <- app_assoc. reflexivity.
Qed.

End UnderXcs.

(** ** The properties on the scripted machine *)

(** C1 as it is stated fails for [-n 0]: one file is asked for, the
    ceiling given is 0, and the invocation goes on to edit the file,
    because a ceiling of 0 is read as no ceiling given. *)
Lemma count_error_ceiling_zero_counterexample :
  ~ (countError (Toy.start Toy.tidy)
       (main Toy.configInXcs ["-n"; "0"; "b.txt"] (Toy.start Toy.tidy)) <->
     (configuredCeiling ["-n"; "0"; "b.txt"]
      < Z.of_nat (List.length (requestedFiles ["-n"; "0"; "b.txt"])))%Z).
Proof.
  intros [_ H].
  assert (Hc : countError (Toy.start Toy.tidy)
                 (main Toy.configInXcs ["-n"; "0"; "b.txt"]
                    (Toy.start Toy.tidy)))
    by (apply H; reflexivity).
  destruct Hc as [Hx _]. vm_compute in Hx. discriminate.
Qed.

(** Five files against a ceiling of 2 given with [-n], and against the
    same ceiling three files of which [-log] is to show the log. *)
Lemma count_error_iff_over_ceiling_witness :
  batchInvocation Toy.config ["-n"; "2"; "a"; "b"; "c"] = true /\
  (countError (Toy.start Toy.tidy)
     (main Toy.config ["-n"; "2"; "a"; "b"; "c"] (Toy.start Toy.tidy)) <->
   (maxFilesFor ["-n"; "2"; "a"; "b"; "c"]
    < Z.of_nat (List.length (requestedFiles ["-n"; "2"; "a"; "b"; "c"])))%Z).
Proof.
  split; [reflexivity |].
  apply (count_error_iff_over_ceiling Toy.config ["-n"; "2"; "a"; "b"; "c"]
           (Toy.start Toy.tidy)).
  reflexivity.
Defined.

(** C2 as it is stated fails when the holder is the intended editor:
    casey holds the lock on [a.txt], casey is the one who edits, and the
    conflict is surfaced all the same. *)
Lemma lock_conflict_own_lock_counterexample :
  ~ (conflictSurfaced "a.txt" "casey"
       (trace (snd (checkoutFile_lockConflict Toy.config (toySession 33188)
                      (Toy.start Toy.lockedByCasey)))) <->
     conflictExpected "casey" "casey" = true).
Proof.
  intros [H _].
  assert (Hs : conflictSurfaced "a.txt" "casey"
                 (trace (snd (checkoutFile_lockConflict Toy.config
                                (toySession 33188)
                                (Toy.start Toy.lockedByCasey))))).
  { split; [vm_compute; right; left; reflexivity |].
    exists "n". vm_compute. right. right. right. left. reflexivity. }
  specialize (H Hs). discriminate.
Qed.

(** [a.txt] locked by casey, and the offer to unlock declined. *)
Lemma lock_conflict_iff_held_witness :
  checkoutFile_prepare Toy.config "a.txt" (Toy.start Toy.lockedByCasey)
  = (Done (Some (toySession 33188)), Toy.start Toy.lockedByCasey) /\
  fst (checkoutFile Toy.config "a.txt" (Toy.start Toy.lockedByCasey))
  = Done None.
Proof.
  assert (Hprep :
    checkoutFile_prepare Toy.config "a.txt" (Toy.start Toy.lockedByCasey)
    = (Done (Some (toySession 33188)), Toy.start Toy.lockedByCasey))
    by (vm_compute; reflexivity).
  split; [exact Hprep |].
  destruct (lock_conflict_iff_held Toy.config "a.txt"
              (Toy.start Toy.lockedByCasey) (Toy.start Toy.lockedByCasey)
              (toySession 33188) Hprep) as (evs & Ht & _ & Hd).
  vm_compute in Ht. injection Ht as <-.
  apply (Hd "n"); [right; right; left; reflexivity | reflexivity].
Defined.

(** The checkout of [a.txt] succeeds, and the log shows no lock. *)
Lemma checkout_fails_without_lock_witness :
  exists s1,
    checkoutFile_upToCheckout Toy.config "a.txt" (Toy.start Toy.tidy)
    = (Done (Some (toySession 33188)), s1) /\
    fst (checkoutFile Toy.config "a.txt" (Toy.start Toy.tidy)) = Done None.
Proof.
  eexists. split; [vm_compute; reflexivity |].
  eapply checkout_fails_without_lock;
    [vm_compute; reflexivity | vm_compute; reflexivity | reflexivity
     | vm_compute; reflexivity].
Defined.

(** C4 as it is stated fails for the response [23], which is neither
    option 1 nor option 3: the session is not given up, the file is
    checked out as it is after option 3, because a [3] anywhere in the
    response selects that option. *)
Lemma drift_answer_23_counterexample :
  otherResponse "23" = true /\
  fst (checkoutFile Toy.config "a.txt" (Toy.start driftedAnswer23))
  = Done (Some (toySession 33188)) /\
  ~ (otherResponse "23" = true ->
     fst (checkoutFile Toy.config "a.txt" (Toy.start driftedAnswer23))
     = Done None).
Proof.
  split; [reflexivity |]. split; [vm_compute; reflexivity |].
  intros H. specialize (H eq_refl). vm_compute in H. discriminate.
Qed.

(** [a.txt] has drifted, and the answer is 2. *)
Lemma drift_other_answer_aborts_witness :
  exists s1 evs,
    checkoutFile_upToDrift Toy.config "a.txt" (Toy.start Toy.drifted)
    = (Done (Some (toySession 33188)), s1) /\
    trace (snd (checkoutFile_drift Toy.config (toySession 33188) s1))
    = (trace s1 ++ evs)%list /\
    In (EvQuestion "---> " "2") evs /\
    fst (checkoutFile Toy.config "a.txt" (Toy.start Toy.drifted)) = Done None.
Proof.
  eexists. eexists.
  split; [vm_compute; reflexivity |].
  split; [vm_compute; reflexivity |].
  split; [do 12 right; left; reflexivity |].
  eapply drift_other_answer_aborts;
    [vm_compute; reflexivity | vm_compute; reflexivity
     | do 12 right; left; reflexivity | reflexivity | reflexivity].
Defined.

(** The metadata of [/w] names a store that is gone; the user presses
    enter, and the local store is created and noted as the hint. *)
Lemma stale_hint_is_purged_witness :
  fst (findXcsBundleRoot Toy.config "/w/b.txt" (Toy.start Toy.staleHint))
  = Done None /\
  existsSync (hintedPath Toy.config "/w" "projects/old") Toy.staleHint = false /\
  fst (resolveRcsPath Toy.config "/w/b.txt" "/w" (Toy.start Toy.staleHint))
  = Done (Some "/w/.rcs") /\
  trace (snd (resolveRcsPath Toy.config "/w/b.txt" "/w"
                (Toy.start Toy.staleHint)))
  = [EvRun (XattrGet "/w") (Ok (Toy.succeeded ("projects/old" ++ nl)));
     EvRun (XattrRemove "/w") (Ok (Toy.succeeded ""));
     EvLog "No RCS directory. Enter remote path or <enter>";
     EvQuestion (rcsPathQuestion Toy.config "/w") "";
     EvCloseReadline;
     EvMkdir "/w/.rcs" 509%Z (Ok tt);
     EvRun (XattrSet "/w" ".") (Ok (Toy.succeeded ""))].
Proof.
  split; [reflexivity |]. split; [reflexivity |].
  destruct (stale_hint_is_purged Toy.config "/w/b.txt" "/w"
              (Toy.start Toy.staleHint) None
              (Toy.succeeded ("projects/old" ++ nl))
              (snd (Toy.run (commandLine Toy.config (XattrGet "/w"))
                      Toy.staleHint)))
    as [Hrun _];
    [reflexivity | reflexivity | reflexivity | reflexivity | reflexivity |].
  rewrite Hrun. split; vm_compute; reflexivity.
Defined.

(** [a.txt] with its local store, on the machine where it can be
    locked: the session is on the entry of the local store. *)
Lemma local_store_skips_metadata_witness :
  checkoutFile_identify "a.txt" (Toy.start lockable)
  = (Done (Some ("a.txt", "/w", "a.txt", 33188%Z)), Toy.start lockable) /\
  existsSync ("/w" ++ "/" ++ RCS_DIR) lockable = true /\
  fst (checkoutFile Toy.config "a.txt" (Toy.start lockable))
  = Done (Some (toySession 33188)) /\
  rcsFile (toySession 33188) = "/w/.rcs/a.txt,v" /\
  exists evs,
    trace (snd (checkoutFile Toy.config "a.txt" (Toy.start lockable))) = evs /\
    Forall (localSessionEvent "/w/.rcs/a.txt,v") evs /\
    In (EvRun (Checkout "a.txt" "/w/.rcs/a.txt,v") (Ok (Toy.succeeded "")))
       evs.
Proof.
  assert (Hid :
    checkoutFile_identify "a.txt" (Toy.start lockable)
    = (Done (Some ("a.txt", "/w", "a.txt", 33188%Z)), Toy.start lockable))
    by (vm_compute; reflexivity).
  assert (Hf : fst (checkoutFile Toy.config "a.txt" (Toy.start lockable))
               = Done (Some (toySession 33188))) by (vm_compute; reflexivity).
  split; [exact Hid |]. split; [reflexivity |]. split; [exact Hf |].
  destruct (local_store_skips_metadata Toy.config "a.txt"
              (Toy.start lockable) (Toy.start lockable)
              "a.txt" "/w" "a.txt" 33188%Z Hid eq_refl)
    as (_ & _ & evs & Ht & HP & Hs).
  split; [apply (Hs _ Hf) |].
  exists evs. split; [exact Ht |]. split; [exact HP |].
  cbn [Toy.start trace app] in Ht. rewrite <- Ht.
  vm_compute. tauto.
Defined.

(** A log of three revisions, newest first. *)
Lemma history_of_plain_log_witness :
  forallb plainHeaderLine sampleHeader = true /\
  forallb plainRevision threeRevisions = true /\
  map rev (history (rlogText sampleHeader threeRevisions))
  = ["1.1"; "1.2"; "1.3"].
Proof.
  split; [reflexivity |]. split; [reflexivity |].
  destruct (history_of_plain_log sampleHeader threeRevisions eq_refl eq_refl)
    as [H _].
  rewrite H. reflexivity.
Defined.

(** C8.  On a log of three revisions, 1.3, 1.2 and 1.1, in which the
    message of revision 1.2 is the line [date: show the year in the
    footer], the history has two entries, 1.1 and 1.3, where three are
    due: the branch that reads the date of a revision takes every line
    that starts with [date: ], also a line of the message, so the
    revision has no message when it is to be stored, and is not
    stored. *)
Theorem history_loses_dated_message :
  forallb loggedRevision datedRevisions = true /\
  map r_number datedRevisions = ["1.3"; "1.2"; "1.1"] /\
  map r_log datedRevisions
  = [["Third version"]; ["date: show the year in the footer"];
     ["Initial checkin"]] /\
  map rev (history (rlogText sampleHeader datedRevisions)) = ["1.1"; "1.3"].
Proof. repeat split; reflexivity. Qed.

(** C9 as it is stated fails under the remote store base: with four
    files no editor is spawned, and with [-log] no editor is spawned and
    the log of the store is read. *)
Lemma xcs_without_editor_counterexample :
  underXcs Toy.configInXcs = true /\
  ~ (exists files,
        In (EvEditor (EDITOR Toy.configInXcs) files)
          (trace (snd (main Toy.configInXcs ["a"; "b"; "c"; "d"]
                         (Toy.start Toy.tidy))))) /\
  trace (snd (main Toy.configInXcs ["-log"; "/w/a.txt"] (Toy.start Toy.tidy)))
  = [EvRun (RlogFile "/w/.rcs/a.txt,v") (Ok (Toy.succeeded ""));
     EvLog (nl ++ underlineMessage "/w/a.txt" ++ nl); EvLog ""].
Proof.
  split; [reflexivity |]. split; [| vm_compute; reflexivity].
  intros [files H]. vm_compute in H.
  destruct H as [H | [H | []]]; discriminate.
Qed.

(** Two files named after [-pc], under the remote store base. *)
Lemma xcs_edits_directly_witness :
  underXcs Toy.configInXcs = true /\
  editInvocation Toy.configInXcs ["-pc"; "b.txt"; "c"] = true /\
  trace (snd (main Toy.configInXcs ["-pc"; "b.txt"; "c"] (Toy.start Toy.tidy)))
  = [EvLog ""; EvEditor "vi" ["b.txt"; "c"]].
Proof.
  split; [reflexivity |]. split; [reflexivity |].
  rewrite (xcs_edits_directly Toy.configInXcs ["-pc"; "b.txt"; "c"]
             (Toy.start Toy.tidy) eq_refl eq_refl);
    [reflexivity | vm_compute; discriminate].
Defined.

(** C10 as it is stated fails when the log fails after it printed the
    line of a lock: the holder is reported all the same, because the
    exit code of the log is not read. *)
Lemma getLockersName_failed_log_counterexample :
  logInvocationFailed
    (fst (runCommand Sh (commandLine Toy.config (lockQuery "a.txt" None))
            failedLogWithLock)) = true /\
  fst (getLockersName Toy.config "a.txt" None (Toy.start failedLogWithLock))
  = Done "casey" /\
  ~ (logInvocationFailed
       (fst (runCommand Sh (commandLine Toy.config (lockQuery "a.txt" None))
               failedLogWithLock)) = true ->
     fst (getLockersName Toy.config "a.txt" None (Toy.start failedLogWithLock))
     = Done "").
Proof.
  split; [reflexivity |]. split; [vm_compute; reflexivity |].
  intros H. specialize (H eq_refl). vm_compute in H. discriminate.
Qed.

(** The entry of [a.txt] is missing: the log fails and prints nothing,
    and nobody is reported as the holder. *)
Lemma getLockersName_empty_when_no_log_witness :
  fst (runCommand Sh (commandLine Toy.config (lockQuery "a.txt" None))
         missingEntry)
  = Ok (Toy.failed 1) /\
  fst (getLockersName Toy.config "a.txt" None (Toy.start missingEntry))
  = Done "".
Proof.
  split; [reflexivity |].
  apply (getLockersName_empty_when_no_log Toy.config "a.txt" None
           (Toy.start missingEntry)).
  reflexivity.
Defined.
(* ================================================================== *)
(** * Further properties of the program                                 *)
(* ================================================================== *)

(** [run_eval] in a hypothesis. *)
Ltac run_eval_in H :=
  cbv beta iota zeta delta
    [bind ret emit call ask exit throw getState setReadline setSyntaxCheck
     log logError prompt shell execSync tryUnlink tryChmod closeReadline
     world trace rl enableSyntaxCheck fst snd negb] in H.

(** ** Slashes at the ends of a path *)

Section Slashes.
Import JS.

Lemma startsWith_slash (c : ascii) (r : string) :
  startsWith (String c r) "/" = Ascii.eqb c "/".
Proof.
  unfold startsWith. cbn [prefix].
  destruct (ascii_dec "/" c) as [<- | Hne].
  - rewrite prefix_empty. reflexivity.
  - symmetry. apply Ascii.eqb_neq. congruence.
Qed.

Lemma stripLeadingSlashes_start (s : string) :
  startsWith (stripLeadingSlashes s) "/" = false.
Proof.
  induction s as [| c r IH]; [reflexivity |].
  destruct (Ascii.eqb c "/") eqn:Hc.
  - apply Ascii.eqb_eq in Hc. subst c. exact IH.
  - assert (Hs : stripLeadingSlashes (String c r) = String c r).
    { destruct c as [[] [] [] [] [] [] [] []]; try reflexivity.
      discriminate Hc. }
    rewrite Hs, startsWith_slash. exact Hc.
Qed.

Lemma endsWith_slash_cons (c : ascii) (r : string) :
  endsWith (String c r) "/"
  = match r with
    | "" => Ascii.eqb c "/"
    | _ => endsWith r "/"
    end.
Proof.
  cbn [endsWith]. destruct r as [| x r'].
  - cbn. rewrite orb_false_r. destruct (Ascii.eqb c "/"); reflexivity.
  - cbn [String.eqb]. destruct (Ascii.eqb c "/"); reflexivity.
Qed.

Lemma stripTrailingSlashes_end (s : string) :
  endsWith (stripTrailingSlashes s) "/" = false.
Proof.
  induction s as [| c r IH]; [reflexivity |].
  cbn [stripTrailingSlashes].
  destruct (stripTrailingSlashes r) as [| x r'] eqn:Hr.
  - destruct (Ascii.eqb c "/") eqn:Hc; [reflexivity |].
    unfold str. rewrite endsWith_slash_cons. exact Hc.
  - rewrite endsWith_slash_cons. exact IH.
Qed.

Lemma stripTrailingSlashes_start (s : string) :
  startsWith s "/" = false ->
  startsWith (stripTrailingSlashes s) "/" = false.
Proof.
  destruct s as [| c r]; [reflexivity |].
  rewrite startsWith_slash. intros Hc. cbn [stripTrailingSlashes].
  destruct (stripTrailingSlashes r).
  - rewrite Hc. unfold str. rewrite startsWith_slash. exact Hc.
  - rewrite startsWith_slash. exact Hc.
Qed.

End Slashes.

(** X1.  The hint that [getPathHint] makes of a directory neither starts
    nor ends with a slash, whatever the directory and the home
    directory. *)
Theorem getPathHint_no_slash_at_ends :
  forall (cfg : Config) (dir : string),
    JS.startsWith (getPathHint cfg dir) "/" = false /\
    JS.endsWith (getPathHint cfg dir) "/" = false.
Proof.
  intros cfg dir. unfold getPathHint. split.
  - apply stripTrailingSlashes_start, stripLeadingSlashes_start.
  - apply stripTrailingSlashes_end.
Qed.

(** ** Trimming *)

Section Trim.
Import JS.

Lemma trimStart_head (s : string) :
  match trimStart s with
  | "" => True
  | String c _ => is_ws c = false
  end.
Proof.
  induction s as [| c r IH]; [exact I |].
  cbn [trimStart]. destruct (is_ws c) eqn:Hc; [exact IH | exact Hc].
Qed.

Lemma trimStart_fixed (c : ascii) (r : string) :
  is_ws c = false -> trimStart (String c r) = String c r.
Proof. intros H. cbn [trimStart]. rewrite H. reflexivity. Qed.

Lemma trimEnd_head (c : ascii) (r : string) :
  is_ws c = false -> exists r', trimEnd (String c r) = String c r'.
Proof.
  intros H. cbn [trimEnd]. destruct (trimEnd r) as [| x r'].
  - rewrite H. exists "". reflexivity.
  - exists (String x r'). reflexivity.
Qed.

Lemma trimEnd_idem (s : string) : trimEnd (trimEnd s) = trimEnd s.
Proof.
  induction s as [| c r IH]; [reflexivity |].
  cbn [trimEnd]. destruct (trimEnd r) as [| x r'] eqn:Hr.
  - destruct (is_ws c) eqn:Hc; [reflexivity |].
    unfold str. cbn [trimEnd]. rewrite Hc. reflexivity.
  - cbn [trimEnd]. cbn [trimEnd] in IH. rewrite IH. reflexivity.
Qed.

Lemma trim_head (s : string) :
  match trim s with
  | "" => True
  | String c _ => is_ws c = false
  end.
Proof.
  unfold trim. pose proof (trimStart_head s) as H.
  destruct (trimStart s) as [| c r]; [exact I |].
  destruct (trimEnd_head c r H) as [r' ->]. exact H.
Qed.

Lemma trim_idem (s : string) : trim (trim s) = trim s.
Proof.
  pose proof (trim_head s) as H. unfold trim at 1.
  destruct (trim s) as [| c r] eqn:Ht; [reflexivity |].
  rewrite (trimStart_fixed c r H). rewrite <- Ht. unfold trim.
  apply trimEnd_idem.
Qed.

(** White space after a text that does not end with white space is
    trimmed away. *)
Lemma trimEnd_app_blank (s pad : string) :
  trimEnd pad = "" -> trimEnd (s ++ pad) = trimEnd s.
Proof.
  intros Hp. induction s as [| c r IH]; [exact Hp |].
  cbn [append trimEnd]. rewrite IH. reflexivity.
Qed.

Lemma trimStart_blank (pad : string) : trimStart pad = "" -> trimEnd pad = "".
Proof.
  induction pad as [| c r IH]; [reflexivity |].
  cbn [trimStart trimEnd]. destruct (is_ws c); [| discriminate].
  intros H. rewrite (IH H). reflexivity.
Qed.

Lemma trim_blank (pad : string) : trim pad = "" -> trimEnd pad = "".
Proof.
  unfold trim. intros H. apply trimStart_blank.
  pose proof (trimStart_head pad) as Hh.
  destruct (trimStart pad) as [| c r]; [reflexivity |].
  destruct (trimEnd_head c r Hh) as [r' Hr]. rewrite Hr in H. discriminate.
Qed.

(** A trimmed text followed by white space trims to itself. *)
Lemma trim_padded (s pad : string) :
  trim s = s -> trim pad = "" -> trim (s ++ pad) = s.
Proof.
  intros Hs Hp. pose proof (trim_head s) as Hh. rewrite Hs in Hh.
  destruct s as [| c r].
  - exact Hp.
  - unfold trim. cbn [append]. rewrite (trimStart_fixed c _ Hh).
    change (String c (r ++ pad)) with (String c r ++ pad).
    rewrite (trimEnd_app_blank _ _ (trim_blank _ Hp)).
    unfold trim in Hs. rewrite (trimStart_fixed c r Hh) in Hs. exact Hs.
Qed.

Lemma stripLeadingSlashes_fixed (s : string) :
  startsWith s "/" = false -> stripLeadingSlashes s = s.
Proof.
  destruct s as [| c r]; [reflexivity |].
  rewrite startsWith_slash. intros Hc.
  destruct c as [[] [] [] [] [] [] [] []]; try reflexivity. discriminate Hc.
Qed.

Lemma stripTrailingSlashes_fixed (s : string) :
  endsWith s "/" = false -> stripTrailingSlashes s = s.
Proof.
  induction s as [| c r IH]; [reflexivity |].
  rewrite endsWith_slash_cons. cbn [stripTrailingSlashes].
  destruct r as [| x r'].
  - intros Hc. cbn. rewrite Hc. reflexivity.
  - intros H. rewrite (IH H). reflexivity.
Qed.

End Trim.

Section HintRoundTrip.
Context {W : Type} {Sys : System W}.
Variable cfg : Config.

(** The relative path made from an answer, read back with white space
    after it, stands for the full path made from the same answer. *)
Lemma hint_decodes :
  forall (localDir answer pad : string),
    JS.startsWith (JS.trim answer) "/" = false ->
    JS.endsWith (JS.trim answer) "/" = false ->
    JS.trim pad = "" ->
    let p := pathInfoFor cfg localDir answer in
    let read := JS.trim (relative p ++ pad) in
    truthy read = true /\ hintedPath cfg localDir read = full p.
Proof.
  intros localDir answer pad Hs He Hp p read. subst p read.
  unfold pathInfoFor.
  destruct (String.eqb (JS.trim answer) "" || String.eqb (JS.trim answer) ".")
    eqn:Hloc; cbn [relative full].
  - rewrite (trim_padded "." pad eq_refl Hp). split; reflexivity.
  - rewrite (stripLeadingSlashes_fixed _ Hs), (stripTrailingSlashes_fixed _ He).
    rewrite (trim_padded _ pad (trim_idem answer) Hp).
    apply orb_false_iff in Hloc. destruct Hloc as [H1 H2].
    unfold truthy, hintedPath. rewrite H1, H2. split; reflexivity.
Qed.

End HintRoundTrip.

(** ** Reading the holder of a lock *)

Section Holder.
Import JS.

Lemma string_app_assoc (a b c : string) : (a ++ b) ++ c = a ++ b ++ c.
Proof. induction a as [| x a IH]; [reflexivity |]. cbn. rewrite IH. reflexivity. Qed.




Lemma includes_app_char (s t : string) (c : ascii) :
  includes (s ++ t) (str c) = includes s (str c) || includes t (str c).
Proof.
  induction s as [| x r IH]; [reflexivity |].
  cbn [append]. rewrite !includes_char, IH, orb_assoc. reflexivity.
Qed.











End Holder.

Section HolderQuery.
Import JS.










End HolderQuery.

Section ReadHolder.
Context {W : Type} {Sys : System W}.
Variable cfg : Config.


End ReadHolder.

(** ** Where the entries of the history come from *)

Section Origin.
Variable lines : list string.

Lemma truthy_nonempty (s : string) : truthy s = true -> s <> "".
Proof. unfold truthy. intros H ->. discriminate H. Qed.

Lemma pushEntry_parsed (st : ParseState) :
  parsed lines st -> Forall (entryRead lines) (pushEntry st).
Proof.
  intros (He & Hr & Hm). unfold pushEntry.
  destruct (truthy (currentRev st)) eqn:Ht; [| exact He].
  destruct (Nat.eqb (List.length (currentMsg st)) 0) eqn:Hn; [exact He |].
  cbn [andb negb]. apply Forall_app. split; [exact He |].
  constructor; [| constructor].
  pose proof (truthy_nonempty _ Ht) as Hne.
  split; [exact Hne |]. split; [destruct Hr; [contradiction | assumption] |].
  exists (currentMsg st). repeat split; [| exact Hm].
  intros Hnil. rewrite Hnil in Hn. discriminate Hn.
Qed.

Lemma parseLine_parsed (st : ParseState) (line : string) :
  In line lines -> parsed lines st -> parsed lines (parseLine st line).
Proof.
  intros Hin Hst. pose proof (pushEntry_parsed st Hst) as Hpush.
  destruct Hst as (He & Hr & Hm). unfold parseLine.
  destruct (JS.startsWith line "revision ") eqn:Hrev.
  { repeat split; cbn; [exact Hpush | | constructor].
    right. exists line. repeat split; assumption. }
  destruct (inRevision st && JS.startsWith line "date: ").
  { repeat split; cbn; assumption. }
  destruct (inRevision st && JS.startsWith line REVISION_SEPARATOR).
  { repeat split; cbn; [exact Hpush | left; reflexivity | constructor]. }
  destruct (inRevision st && JS.startsWith line "===").
  { repeat split; cbn; assumption. }
  destruct (inRevision st && truthy line && negb (JS.startsWith line "date:")
            && negb (JS.startsWith line "branches:")) eqn:Hmsg.
  - repeat split; cbn; [exact He | exact Hr |].
    apply Forall_app. split; [exact Hm |]. constructor; [| constructor].
    split; [exact Hin |].
    apply andb_true_iff in Hmsg. destruct Hmsg as [Hmsg _].
    apply andb_true_iff in Hmsg. destruct Hmsg as [Hmsg _].
    apply andb_true_iff in Hmsg. destruct Hmsg as [_ Hmsg].
    apply truthy_nonempty, Hmsg.
  - repeat split; assumption.
Qed.

Lemma parse_parsed (ls : list string) (st : ParseState) :
  (forall l, In l ls -> In l lines) -> parsed lines st ->
  parsed lines (fold_left parseLine ls st).
Proof.
  revert st. induction ls as [| l ls IH]; intros st Hsub Hst; [exact Hst |].
  cbn [fold_left]. apply IH.
  - intros l' Hl'. apply Hsub. right. exact Hl'.
  - apply parseLine_parsed; [apply Hsub; left; reflexivity | exact Hst].
Qed.

End Origin.

(** X4.  Every entry of the history stands for something in the log:
    its revision is not empty and was read off a line that starts with
    [revision ], and its message is made of lines of the log, at least
    one and none of them empty.  So the history of a text without such a
    line, the empty text for one, has no entry. *)
Theorem history_entries_are_read :
  forall (result : string),
    Forall (entryRead (JS.splitLines result)) (history result) /\
    ((forall line, In line (JS.splitLines result) ->
                   JS.startsWith line "revision " = false) ->
     history result = []).
Proof.
  intros result.
  assert (H : Forall (entryRead (JS.splitLines result)) (history result)).
  { unfold history, parseLog. apply Forall_rev.
    apply (parse_parsed (JS.splitLines result) (JS.splitLines result) parseStart).
    - intros l Hl. exact Hl.
    - repeat split; cbn; [constructor | left; reflexivity | constructor]. }
  split; [exact H |]. intros Hno.
  destruct (history result) as [| e es]; [reflexivity |].
  inversion H as [| e' es' (_ & (line & Hin & Hrev & _) & _) _]. subst.
  rewrite (Hno line Hin) in Hrev. discriminate Hrev.
Qed.

(** ** The bundle root is an ancestor *)

Section Ancestor.
Import JS Path.

Lemma prefix_cons (c : ascii) (a b : string) :
  prefix (String c a) (String c b) = prefix a b.
Proof. cbn [prefix]. destruct (ascii_dec c c); [reflexivity | contradiction]. Qed.

Lemma prefix_head (c x : ascii) (a b : string) :
  prefix (String c a) (String x b) = true -> c = x /\ prefix a b = true.
Proof.
  cbn [prefix]. destruct (ascii_dec c x); [auto | discriminate].
Qed.

Lemma prefix_trans (a b c : string) :
  prefix a b = true -> prefix b c = true -> prefix a c = true.
Proof.
  revert b c. induction a as [| x a IH]; intros b c Hab Hbc.
  - apply prefix_empty.
  - destruct b as [| y b]; [discriminate |].
    destruct c as [| z c]; [discriminate |].
    apply prefix_head in Hab. destruct Hab as [-> Hab].
    apply prefix_head in Hbc. destruct Hbc as [-> Hbc].
    rewrite prefix_cons. apply (IH b c Hab Hbc).
Qed.

Lemma prefix_refl (a : string) : prefix a a = true.
Proof. induction a as [| c a IH]; [reflexivity | rewrite prefix_cons; exact IH]. Qed.

Lemma stripTrailingSlashes_prefix (s : string) :
  prefix (stripTrailingSlashes s) s = true.
Proof.
  induction s as [| c r IH]; [reflexivity |].
  cbn [stripTrailingSlashes]. destruct (stripTrailingSlashes r) as [| x r'].
  - destruct (Ascii.eqb c "/"); [reflexivity |].
    unfold str. rewrite prefix_cons. apply prefix_empty.
  - rewrite prefix_cons. exact IH.
Qed.

Lemma beforeLastSlash_prefix (s pre : string) :
  beforeLastSlash s = Some pre -> prefix (pre ++ "/") s = true.
Proof.
  revert pre. induction s as [| c r IH]; intros pre H; [discriminate |].
  rewrite beforeLastSlash_cons in H.
  destruct (beforeLastSlash r) as [p |].
  - injection H as <-. cbn [append]. rewrite prefix_cons. apply IH. reflexivity.
  - destruct (Ascii.eqb c "/") eqn:Hc; [| discriminate].
    injection H as <-. apply Ascii.eqb_eq in Hc. subst c.
    cbn [append]. rewrite prefix_cons. apply prefix_empty.
Qed.

Lemma absolute_cons (p : string) :
  startsWith p "/" = true -> exists rest, p = String "/" rest.
Proof.
  destruct p as [| c rest]; [discriminate |].
  rewrite startsWith_slash. intros H. apply Ascii.eqb_eq in H. subst c.
  exists rest. reflexivity.
Qed.

(** The directory of an absolute path is the root, or two slashes before a
    third, or a proper ancestor: the path goes on with a slash after it. *)
Lemma dirname_ancestor (p : string) :
  startsWith p "/" = true ->
  prefix (dirname p) p = true /\
  (endsWith (dirname p) ".xcs" = true -> prefix (dirname p ++ "/") p = true).
Proof.
  intros Ha. destruct (absolute_cons p Ha) as [rest ->].
  unfold dirname. change (Ascii.eqb "/" "/") with true. cbn [andb].
  destruct (beforeLastSlash (stripTrailingSlashes rest)) as [pre |] eqn:Hb.
  - apply beforeLastSlash_prefix in Hb.
    pose proof (prefix_trans _ _ _ Hb (stripTrailingSlashes_prefix rest)) as Hp.
    destruct (String.eqb pre "") eqn:He.
    + apply String.eqb_eq in He. subst pre. cbn [append] in Hp.
      split; [rewrite prefix_cons; exact Hp | discriminate].
    + assert (H : prefix (String "/" pre ++ "/") (String "/" rest) = true)
        by (cbn [append]; rewrite prefix_cons; exact Hp).
      split; [| intros _; exact H].
      apply (prefix_of_longer _ "/"). exact H.
  - split; [rewrite prefix_cons; apply prefix_empty | discriminate].
Qed.

Lemma xcsWalk_ancestor (home : string) (fuel : nat) (current r : string) :
  startsWith current "/" = true ->
  xcsWalk home fuel current = Some r ->
  endsWith r ".xcs" = true /\ r <> "/" /\ r <> home /\
  (r = current \/ prefix (r ++ "/") current = true).
Proof.
  revert current. induction fuel as [| f IH]; intros current Ha H;
    [discriminate |].
  cbn [xcsWalk] in H.
  destruct (String.eqb current "/") eqn:Hroot; [discriminate |].
  destruct (String.eqb current home) eqn:Hhome; [discriminate |].
  cbn [orb] in H.
  destruct (endsWith current ".xcs") eqn:Hx.
  - injection H as <-. apply String.eqb_neq in Hroot, Hhome. auto.
  - destruct (dirname_ancestor current Ha) as [Hp Hq].
    destruct (IH (dirname current) (proj1 (dirname_absolute current Ha)) H)
      as (He & H1 & H2 & [-> | Hr]).
    + repeat split; auto.
    + repeat split; auto. right. apply (prefix_trans _ _ _ Hr Hp).
Qed.

End Ancestor.

Section BundleRoot.
Context {W : Type} {Sys : System W}.
Variable cfg : Config.

Lemma Done_inj {A} (a b : A) : @Done A a = Done b -> a = b.
Proof. intros H. injection H as H. exact H. Qed.

(** X5.  The bundle root that [findXcsBundleRoot] returns has a name
    that ends with [.xcs], is neither the root directory nor the home
    directory, and is the resolved path itself or one of its ancestors:
    the resolved path goes on with a slash after it. *)
Theorem findXcsBundleRoot_is_xcs_ancestor :
  forall (filePath : string) (s : State W) (r : string),
    fst (findXcsBundleRoot cfg filePath s) = Done (Some r) ->
    JS.endsWith r ".xcs" = true /\ r <> "/" /\ r <> HOME_DIR cfg /\
    (r = resolve filePath \/
     JS.startsWith (resolve filePath) (r ++ "/") = true).
Proof.
  intros filePath s r. pose proof (resolve_absolute filePath) as Ha.
  destruct s as [w0 t0 r0 c0]. unfold findXcsBundleRoot. run_eval.
  destruct (existsSync (resolve filePath) w0);
    [destruct (statSync (resolve filePath) w0) as [stats | e];
     [destruct (st_isFile stats) |] |];
    intros H; try discriminate H; apply Done_inj in H;
    try (apply (xcsWalk_ancestor _ _ _ _ Ha H)).
  destruct (dirname_ancestor _ Ha) as [Hp Hq].
  destruct (xcsWalk_ancestor _ _ _ _
              (proj1 (dirname_absolute _ Ha)) H)
    as (He & H1 & H2 & [-> | Hr]).
  - repeat split; auto.
  - repeat split; auto. right. unfold JS.startsWith.
    apply (prefix_trans _ _ _ Hr Hp).
Qed.

End BundleRoot.

(** ** What the checkout and the check-in of a file may do *)

Lemma strip_write_bits (mode : Z) :
  Z.land (Z.land mode (Z.lnot 146)) WRITE_BITS = 0%Z.
Proof.
  unfold WRITE_BITS. rewrite <- Z.land_assoc.
  change (Z.land (Z.lnot 146) 146) with 0%Z. apply Z.land_0_r.
Qed.

#[export] Hint Resolve strip_write_bits : vic.

Section Sessions.
Context {W : Type} {Sys : System W}.
Variable cfg : Config.
Variable E : Z -> Prop.

Lemma resolveRcsPath_checkout (p d : string) :
  satisfies (checkoutEvent cfg) E anything (resolveRcsPath cfg p d).
Proof.
  unfold resolveRcsPath, promptForRcsPath.
  sat_any; try apply findXcsBundleRoot_sat; simpl; auto with vic.
Qed.

Lemma checkoutFile_prepare_checkout (f : string) :
  satisfies (checkoutEvent cfg) E anything (checkoutFile_prepare cfg f).
Proof.
  unfold checkoutFile_prepare, checkoutFile_identify, checkoutFile_symlink,
    checkoutFile_ensureExists, checkoutFile_hardLinks, checkoutFile_rcsPath,
    checkoutFile_ensureRcsDir, checkoutFile_initialCheckin.
  sat_any; try apply resolveRcsPath_checkout; simpl; auto with vic.
Qed.

Lemma checkoutFile_checkout_events (f : string) :
  satisfies (checkoutEvent cfg) E anything (checkoutFile cfg f).
Proof.
  unfold checkoutFile, checkoutFile_upToCheckout, checkoutFile_upToDrift,
    checkoutFile_lockConflict, checkoutFile_drift, checkoutFile_readOnly,
    checkoutFile_checkout.
  sat_any;
    try apply checkoutFile_prepare_checkout;
    try (apply getLockersName_sat; intros; exact I);
    simpl; auto with vic.
Qed.

Lemma checkoutAll_checkout_events (args : list string) :
  satisfies (checkoutEvent cfg) E anything (checkoutAll cfg args).
Proof.
  induction args as [| a args IH]; simpl; [sat_done |].
  eapply (sat_bind (Q := anything));
    [apply checkoutFile_checkout_events | intros o _].
  eapply (sat_bind (Q := anything)); [apply IH | intros l _]. sat_done.
Qed.

End Sessions.

Section Checkin.
Context {W : Type} {Sys : System W}.
Variable cfg : Config.
Variable E : Z -> Prop.

Lemma generateCommitMessage_events (P : Event -> Prop) (diff : string) :
  (CLAUDE_CLI cfg <> "" -> forall args r, P (EvClaude args r)) ->
  (forall l, P (EvLog l)) ->
  satisfies P E cleanMessage (generateCommitMessage cfg diff).
Proof.
  intros HC HL. destruct (truthy (CLAUDE_CLI cfg)) eqn:Hcli.
  - apply truthy_nonempty in Hcli. specialize (HC Hcli).
    apply generateCommitMessage_sat; assumption.
  - unfold generateCommitMessage. rewrite Hcli.
    apply sat_ret, sentinel_clean.
Qed.

Lemma getLockersName_events (P : Event -> Prop) (fname : string)
  (base : option string) :
  (forall r, P (EvRun (lockQuery fname base) r)) ->
  satisfies P E anything (getLockersName cfg fname base).
Proof.
  intros HP. unfold getLockersName. sat_any; simpl; auto with vic.
Qed.

Lemma checkinFile_events (f : FileInfo) :
  satisfies (checkinEvent cfg f) E anything (checkinFile cfg f).
Proof.
  unfold checkinFile. fold (diffTmpFile cfg f).
  eapply (sat_bind (Q := anything)); [sat_done | intros _ _].
  eapply (sat_bind (Q := anything)); [sat_done | intros r _].
  eapply (sat_bind (Q := cleanMessage)).
  - destruct r as [diffContent | e]; [| apply sat_ret, sentinel_clean].
    eapply (sat_bind (Q := cleanMessage)).
    + destruct (truthy (JS.trim diffContent)).
      * apply generateCommitMessage_events; intros; simpl; auto.
      * apply sat_ret, sentinel_clean.
    + intros m Hm.
      eapply (sat_bind (Q := anything)); [sat_done | intros _ _].
      apply sat_ret, Hm.
  - intros commitMessage Hm.
    eapply (sat_bind (Q := anything)); [sat_done | intros _ _].
    eapply (sat_bind (Q := anything)); [sat_done | intros _ _].
    eapply (sat_bind (Q := anything));
      [apply getLockersName_events; intros; simpl; auto | intros lname _].
    eapply (sat_bind (Q := anything)); [sat_done | intros _ _].
    eapply (sat_bind (Q := anything)); [sat_done | intros _ _].
    unfold runSyntaxCheck. sat_done.
Qed.

End Checkin.

(** ** What an invocation may do *)

Section Invocation.
Context {W : Type} {Sys : System W}.
Variable cfg : Config.
Variable E : Z -> Prop.

Lemma locateRcsFile_readOnly (f : string) :
  satisfies readOnlyEvent E anything (locateRcsFile cfg f).
Proof.
  unfold locateRcsFile.
  sat_any; try apply findXcsBundleRoot_sat; simpl; auto with vic.
Qed.

Lemma showCommits_readOnly (f : string) :
  satisfies readOnlyEvent E anything (showCommits cfg f).
Proof.
  unfold showCommits.
  eapply (sat_bind (Q := anything)); [apply locateRcsFile_readOnly | intros o _].
  destruct o; [| sat_done].
  eapply (sat_bind (Q := anything)); [sat_done | intros r _].
  destruct r; [| sat_done].
  eapply (sat_bind (Q := anything)); [sat_done | intros _ _].
  eapply (sat_bind (Q := anything)); [| intros _ _; sat_done].
  apply sat_forEach. intros e. sat_done.
Qed.

Lemma showDiff_readOnly (f rev1 : string) (rev2 : option string) :
  JS.isRevision rev1 = true ->
  match rev2 with
  | Some r => JS.isRevision r = true
  | None => True
  end ->
  satisfies readOnlyEvent E anything (showDiff cfg f rev1 rev2).
Proof.
  intros H1 H2. unfold showDiff.
  eapply (sat_bind (Q := anything)); [apply locateRcsFile_readOnly | intros o _].
  destruct o; [| sat_done].
  sat_any; simpl; auto with vic.
  split; [exact H1 |].
  destruct rev2 as [r |]; [| exact I]. destruct (truthy r); [exact H2 | exact I].
Qed.

Lemma tooManyFiles_events (P : Event -> Prop) (n : nat) (maxFiles : Z)
  (hint : string) :
  (forall l, P (EvError l)) -> E 1%Z ->
  satisfies (W:=W) P E anything (tooManyFiles n maxFiles hint).
Proof. intros HP HE. unfold tooManyFiles. sat_done. Qed.

End Invocation.

Section Main.
Context {W : Type} {Sys : System W}.
Variable cfg : Config.

Lemma exitCode_error (argv : list string) : exitCode argv 1%Z.
Proof. right. reflexivity. Qed.

Lemma exitCode_version (argv : list string) :
  existsb (String.eqb "--version") argv = true -> exitCode argv 0%Z.
Proof.
  intros H. left. split; [reflexivity |].
  apply existsb_exists in H. destruct H as (x & Hin & Hx).
  apply String.eqb_eq in Hx. subst x. exact Hin.
Qed.

(** [main] shows logs, shows a diff between revisions that are numbers,
    or edits the files that are left once the flags are read. *)
Lemma main_events (P : Event -> Prop) (argv : list string) :
  (forall l, P (EvLog l)) -> (forall l, P (EvError l)) ->
  (forall f, satisfies P (exitCode argv) anything (showCommits cfg f)) ->
  (forall f rev1 rev2,
      JS.isRevision rev1 = true ->
      match rev2 with
      | Some r => JS.isRevision r = true
      | None => True
      end ->
      satisfies P (exitCode argv) anything (showDiff cfg f rev1 rev2)) ->
  (firstIs (argsAfterFlags argv) "-log" = false ->
   firstIs (argsAfterFlags argv) "-diff" = false ->
   satisfies P (exitCode argv) anything
     (editFiles cfg (argsAfterFlags argv))) ->
  satisfies P (exitCode argv) anything (main cfg argv).
Proof.
  intros HL HE Hlog Hdiff Hedit.
  pose proof (exitCode_error argv) as H1.
  unfold main.
  destruct (Nat.eqb (List.length argv) 0); [sat_done |].
  destruct (String.eqb (RCS_ROOT cfg) "." || String.eqb (RCS_ROOT cfg) "");
    [sat_done |].
  destruct (existsb (String.eqb "--version") argv) eqn:Hv;
    [pose proof (exitCode_version argv Hv); sat_done |].
  unfold argsAfterFlags, afterPc in Hedit.
  eapply (sat_bind (Q := fun args => args = afterPc argv)).
  { unfold afterPc. destruct (firstIs argv "-pc"); sat_any; reflexivity. }
  intros args ->. unfold afterPc.
  set (args := if firstIs argv "-pc" then tl argv else argv) in *.
  assert (Hrest :
    forall maxFiles args',
      args' = (if firstIs args "-n" then tl (tl args) else args) ->
      satisfies P (exitCode argv) anything
        (if firstIs args' "-log" then
           let args0 := tl args' in
           if (maxFiles <? Z.of_nat (List.length args0))%Z
           then tooManyFiles (List.length args0) maxFiles "-log file1 file2 ..."
           else forEach (showCommits cfg) args0
         else if firstIs args' "-diff" then
           let args0 := tl args' in
           match args0 with
           | rev1 :: args1 =>
               if negb (truthy rev1) || negb (JS.isRevision rev1) then
                 logError "Usage: vic -diff REV [REV] file" ;;
                 logError "  vic -diff 1.1 file.js        # diff 1.1 vs current" ;;
                 logError "  vic -diff 1.1 1.3 file.js    # diff 1.1 vs 1.3" ;;
                 exit 1%Z
               else
                 let '(rev2, args2) :=
                   match args1 with
                   | a :: rest =>
                       if truthy a && JS.isRevision a then (Some a, rest)
                       else (None, args1)
                   | [] => (None, args1)
                   end in
                 match args2 with
                 | [fname] => showDiff cfg fname rev1 rev2
                 | _ => logError "Error: -diff requires exactly 1 file" ;;
                        exit 1%Z
                 end
           | [] =>
               logError "Usage: vic -diff REV [REV] file" ;;
               logError "  vic -diff 1.1 file.js        # diff 1.1 vs current" ;;
               logError "  vic -diff 1.1 1.3 file.js    # diff 1.1 vs 1.3" ;;
               exit 1%Z
           end
         else if (maxFiles <? Z.of_nat (List.length args'))%Z then
           tooManyFiles (List.length args') maxFiles "file1 file2 ..."
         else
           log "" ;;
           if JS.startsWith (cwd cfg) (XCS_ROOT cfg ++ "/")
              || String.eqb (cwd cfg) (XCS_ROOT cfg)
           then spawnEditor cfg args'
           else
             checkedOutFiles <- checkoutAll cfg args' ;;
             if Nat.eqb (List.length checkedOutFiles) 0 then
               log "No files to edit." ;; closeReadline
             else
               closeReadline ;;
               spawnEditor cfg (map fname checkedOutFiles) ;;
               (if (1 <? List.length checkedOutFiles)%nat then log ""
                else ret tt) ;;
               forEach (checkinFile cfg) checkedOutFiles ;;
               closeReadline)).
  { intros maxFiles args' Hargs.
    destruct (firstIs args' "-log") eqn:Hl.
    { cbv zeta. destruct (_ <? _)%Z;
        [apply tooManyFiles_events; auto | apply sat_forEach, Hlog]. }
    destruct (firstIs args' "-diff") eqn:Hd.
    { cbv zeta. destruct (tl args') as [| rev1 args1]; [sat_done |].
      destruct (negb (truthy rev1) || negb (JS.isRevision rev1)) eqn:Hr1;
        [sat_done |].
      apply orb_false_iff in Hr1. destruct Hr1 as [_ Hr1].
      apply negb_false_iff in Hr1.
      destruct args1 as [| a rest].
      - sat_done.
      - destruct (truthy a && JS.isRevision a) eqn:Ha.
        + apply andb_true_iff in Ha. destruct Ha as [_ Ha].
          destruct rest as [| f rest]; [sat_done |].
          destruct rest as [| g rest']; [apply Hdiff; assumption | sat_done].
        + destruct rest as [| g rest']; [| sat_done].
          apply Hdiff; [assumption | exact I]. }
    destruct (_ <? _)%Z; [apply tooManyFiles_events; auto |].
    subst args'. apply Hedit; assumption. }
  destruct (firstIs args "-n"); apply Hrest; reflexivity.
Qed.

End Main.

Section Program.
Context {W : Type} {Sys : System W}.
Variable cfg : Config.
Import JS Path.

Lemma lastSegment_no_slash (s : string) : includes (lastSegment s) "/" = false.
Proof.
  induction s as [| c r IH]; [reflexivity |].
  cbn [lastSegment]. destruct (includes r "/") eqn:Hr; [exact IH |].
  destruct (Ascii.eqb c "/") eqn:Hc; [exact Hr |].
  change "/" with (str "/"%char) in *. rewrite includes_char, Hr.
  rewrite Ascii.eqb_sym, Hc. reflexivity.
Qed.

Lemma diffTmpFile_own (f : FileInfo) : ownTempFile cfg (diffTmpFile cfg f).
Proof.
  exists (basename (fname f) ++ ".diff"). split; [reflexivity |].
  change "/" with (str "/"%char). rewrite includes_app_char.
  unfold basename. change (str "/"%char) with "/".
  rewrite lastSegment_no_slash. reflexivity.
Qed.

Lemma tmpFile_own : ownTempFile cfg (tmpFile cfg).
Proof. exists "vic". split; reflexivity. Qed.

Lemma checkoutEvent_program (e : Event) :
  checkoutEvent cfg e -> programEvent cfg e.
Proof.
  destruct e as [| | | | c r | | | | | | |]; simpl; try tauto.
  - destruct c; simpl; try tauto; intros ->; apply tmpFile_own.
  - intros ->. apply tmpFile_own.
Qed.

Lemma checkinEvent_program (f : FileInfo) (e : Event) :
  checkinEvent cfg f e -> programEvent cfg e.
Proof.
  destruct e as [| | | | c r | | | | | | |]; simpl; try tauto.
  - destruct c; simpl; try tauto.
    + intros (_ & _ & ->). apply diffTmpFile_own.
    + intros ->. apply diffTmpFile_own.
  - intros ->. apply diffTmpFile_own.
Qed.

Lemma readOnlyEvent_program (e : Event) :
  readOnlyEvent e -> programEvent cfg e.
Proof.
  destruct e as [| | | | c r | | | | | | |]; simpl; try tauto.
  destruct c; simpl; tauto.
Qed.

Lemma editFiles_program (E : Z -> Prop) (args : list string) :
  satisfies (programEvent cfg) E anything (editFiles cfg args).
Proof.
  unfold editFiles.
  eapply (sat_bind (Q := anything)); [sat_done | intros _ _].
  destruct (underXcs cfg); [sat_done |].
  eapply (sat_bind (Q := anything)).
  { apply (sat_events_weaken (checkoutEvent cfg));
      [apply checkoutEvent_program | apply checkoutAll_checkout_events]. }
  intros l _.
  assert (Hin : satisfies (programEvent cfg) E anything
                  (forEach (checkinFile cfg) l)).
  { apply sat_forEach. intros f.
    apply (sat_events_weaken (checkinEvent cfg f));
      [apply checkinEvent_program | apply checkinFile_events]. }
  destruct (Nat.eqb _ _); [sat_done |].
  eapply (sat_bind (Q := anything)); [sat_done | intros _ _].
  eapply (sat_bind (Q := anything)); [sat_done | intros _ _].
  eapply (sat_bind (Q := anything)); [sat_done | intros _ _].
  eapply (sat_bind (Q := anything)); [exact Hin | intros _ _; sat_done].
Qed.

(** Whatever the arguments, [main] only does what [programEvent]
    allows, and exits with the codes of [exitCode]. *)
Lemma main_program (argv : list string) :
  satisfies (programEvent cfg) (exitCode argv) anything (main cfg argv).
Proof.
  apply main_events; try (intros; exact I).
  - intros f. apply (sat_events_weaken readOnlyEvent);
      [apply readOnlyEvent_program | apply showCommits_readOnly].
  - intros f rev1 rev2 H1 H2. apply (sat_events_weaken readOnlyEvent);
      [apply readOnlyEvent_program | apply showDiff_readOnly; assumption].
  - intros _ _. apply editFiles_program.
Qed.

(** The events that a run appends, one by one. *)
Lemma satisfies_each {A} (P : Event -> Prop) (E : Z -> Prop) (Q : A -> Prop)
  (m : M W A) (s : State W) :
  satisfies P E Q m ->
  exists evs,
    trace (snd (m s)) = (trace s ++ evs)%list /\ forall e, In e evs -> P e.
Proof.
  intros Hm. destruct (Hm s) as (evs & Ht & Hp & _).
  exists evs. split; [exact Ht |]. apply Forall_forall. exact Hp.
Qed.

End Program.

Section Safety.
Context {W : Type} {Sys : System W}.
Variable cfg : Config.


(** X7.  Whatever the arguments, the only files that [vic] removes
    with [unlinkSync] are its own temporary files in [/tmp]: the process
    id, a dot and a name without a slash. *)
Theorem only_own_temporary_files :
  forall (argv : list string) (s : State W),
    exists evs,
      trace (snd (main cfg argv s)) = (trace s ++ evs)%list /\
      forall p r, In (EvUnlink p r) evs -> ownTempFile cfg p.
Proof.
  intros argv s.
  destruct (satisfies_each _ _ _ _ s (main_program cfg argv))
    as (evs & Ht & He).
  exists evs. split; [exact Ht |].
  intros p r Hin. apply (He _ Hin).
Qed.

(** X8.  Without a summariser on the machine, no invocation runs one. *)
Theorem no_summariser_without_cli :
  CLAUDE_CLI cfg = "" ->
  forall (argv : list string) (s : State W),
    exists evs,
      trace (snd (main cfg argv s)) = (trace s ++ evs)%list /\
      forall args r, ~ In (EvClaude args r) evs.
Proof.
  intros Hcli argv s.
  destruct (satisfies_each _ _ _ _ s (main_program cfg argv))
    as (evs & Ht & He).
  exists evs. split; [exact Ht |].
  intros args r Hin. apply (He _ Hin). exact Hcli.
Qed.

(** X9.  The script exits by itself with code 0 only for [--version],
    and otherwise only with code 1. *)
Theorem vic_exit_codes :
  forall (argv : list string) (s : State W) (c : Z),
    fst (vic cfg argv s) = Exit c ->
    (c = 0%Z /\ In "--version" argv) \/ c = 1%Z.
Proof.
  intros argv s c. unfold vic.
  destruct (main_program cfg argv s) as (_ & _ & _ & H).
  destruct (main cfg argv s) as [[[] | c' | e] s']; cbn [fst] in *;
    try discriminate.
  intros Hc. injection Hc as <-. exact H.
Qed.

(** X10.  Whatever the arguments, every [rcsdiff] between revisions
    that [vic] runs names revisions that the pattern of [-diff] accepts;
    the command line holds them without quotes. *)
Theorem diff_revisions_are_numbers :
  forall (argv : list string) (s : State W),
    exists evs,
      trace (snd (main cfg argv s)) = (trace s ++ evs)%list /\
      forall rev1 rev2 file rcs r,
        In (EvRun (DiffRev rev1 rev2 file rcs) r) evs ->
        JS.isRevision rev1 = true /\
        forall rev, rev2 = Some rev -> JS.isRevision rev = true.
Proof.
  intros argv s.
  destruct (satisfies_each _ _ _ _ s (main_program cfg argv))
    as (evs & Ht & He).
  exists evs. split; [exact Ht |].
  intros rev1 rev2 file rcs r Hin. destruct (He _ Hin) as [H1 H2].
  split; [exact H1 |]. intros rev ->. exact H2.
Qed.



End Safety.

(** ** Revision numbers *)

Section Revisions.
Import JS.

Lemma spanDigits_split (s : string) :
  s = fst (spanDigits s) ++ snd (spanDigits s) /\
  allDigits (fst (spanDigits s)) = true /\
  match snd (spanDigits s) with
  | "" => True
  | String c _ => is_digit c = false
  end.
Proof.
  induction s as [| c r (H1 & H2 & H3)]; [repeat split |].
  cbn [spanDigits]. destruct (is_digit c) eqn:Hc.
  - destruct (spanDigits r) as [a b]. cbn [fst snd] in *.
    repeat split; [cbn; f_equal; exact H1 | cbn; rewrite Hc; exact H2 | exact H3].
  - repeat split. exact Hc.
Qed.

Lemma spanDigits_app (a : string) (c : ascii) (b : string) :
  allDigits a = true -> is_digit c = false ->
  spanDigits (a ++ String c b) = (a, String c b).
Proof.
  intros Ha Hc. induction a as [| x a IH].
  - cbn. rewrite Hc. reflexivity.
  - cbn [allDigits] in Ha. apply andb_true_iff in Ha. destruct Ha as [Hx Ha].
    cbn [append spanDigits]. rewrite Hx, (IH Ha). reflexivity.
Qed.

End Revisions.

(** X13.  The test of [-diff] on a revision, [/^\d+\.\d+$/], accepts a
    text exactly when it is digits, a dot and digits, with at least one
    digit on each side. *)
Theorem isRevision_iff_number :
  forall (s : string), JS.isRevision s = true <-> revisionNumber s.
Proof.
  intros s. unfold JS.isRevision, revisionNumber. split.
  - destruct (spanDigits_split s) as (Hs & Ha & _).
    destruct (JS.spanDigits s) as [a rest]. cbn [fst snd] in *.
    destruct a as [| x a]; [discriminate |].
    destruct rest as [| c b]; [discriminate |].
    destruct c as [[] [] [] [] [] [] [] []]; try discriminate.
    destruct b as [| y b]; [discriminate |]. intros Hb.
    exists (String x a), (String y b).
    repeat split; try discriminate; assumption.
  - intros (a & b & -> & Ha0 & Hb0 & Ha & Hb).
    change ("." ++ b) with (String "." b).
    rewrite (spanDigits_app a "." b Ha eq_refl).
    destruct a; [contradiction |]. destruct b; [contradiction | exact Hb].
Qed.

(** ** What a session holds *)

Section Session.
Context {W : Type} {Sys : System W}.
Variable cfg : Config.

Lemma checkoutFile_symlink_names (fname0 : string) (s s1 : State W)
  (fname dirName baseName : string) :
  checkoutFile_symlink fname0 s = (Done (Some (fname, dirName, baseName)), s1) ->
  (fname = fname0 /\ dirName = Path.dirname (resolve fname0) /\
   baseName = Path.basename fname0) \/
  (lstatIsSymbolicLink fname0 (world s) = Ok true /\
   realpathSync fname0 (world s) = Ok fname /\
   dirName = Path.dirname fname /\ baseName = Path.basename fname).
Proof.
  destruct s as [w0 t0 r0 c0]. unfold checkoutFile_symlink. run_eval.
  destruct (existsSync fname0 w0);
    [| intros H; injection H as <- <- <- _; left; auto].
  destruct (lstatIsSymbolicLink fname0 w0) as [[] | e] eqn:Hl;
    try (intros H; injection H as <- <- <- _; left; auto).
  destruct (realpathSync fname0 w0) as [realPath | e] eqn:Hr;
    [| intros H; injection H as <- <- <- _; left; auto].
  destruct (question "Edit the linked file? [Y/n] " w0) as [ans w1].
  run_eval.
  destruct (JS.includes ans "n" || JS.includes ans "N"); [discriminate |].
  intros H. injection H as <- <- <- _. right. auto.
Qed.

Lemma checkoutFile_identify_names (fname0 : string) (s s1 : State W)
  (fname dirName baseName : string) (mode : Z) :
  checkoutFile_identify fname0 s
  = (Done (Some (fname, dirName, baseName, mode)), s1) ->
  exists s0,
    checkoutFile_symlink fname0 s
    = (Done (Some (fname, dirName, baseName)), s0).
Proof.
  unfold checkoutFile_identify, bind, ret.
  destruct (checkoutFile_symlink fname0 s)
    as [[[[[f d] b] |] | c | e] s0]; try discriminate.
  destruct (checkoutFile_ensureExists f s0) as [[[[] |] | c | e] s2];
    try discriminate.
  destruct (checkoutFile_hardLinks f s2) as [[[m |] | c | e] s3];
    try discriminate.
  intros H. injection H as <- <- <- <- _. exists s0. reflexivity.
Qed.

Lemma checkoutFile_rcsPath_store (fname dirName : string) (s s1 : State W)
  (rcsPath : string) (base : option string) :
  checkoutFile_rcsPath cfg fname dirName s = (Done (Some (rcsPath, base)), s1) ->
  (base = None /\ rcsPath = dirName ++ "/" ++ RCS_DIR) \/ base = Some rcsPath.
Proof.
  unfold checkoutFile_rcsPath, bind, ask, ret.
  destruct (existsSync (dirName ++ "/" ++ RCS_DIR) (world s)).
  - intros H. injection H as <- <- _. left. auto.
  - destruct (resolveRcsPath cfg (resolve fname) dirName s)
      as [[[p |] | c | e] s2]; try discriminate.
    destruct (truthy p); [| discriminate].
    intros H. injection H as <- <- _. right. reflexivity.
Qed.

Lemma checkoutFile_withStore_session (file name : string) (mode : Z)
  (rcsPath : string) (base : option string) :
  satisfies anything never
    (fun o => forall f, o = Some f ->
                        fname f = file /\ baseName f = name /\
                        rcsFile f = rcsPath ++ "/" ++ name ++ ",v" /\
                        rcsBasePath f = base)
    (checkoutFile_withStore cfg file name mode rcsPath base).
Proof.
  unfold checkoutFile_withStore, checkoutFile_ensureRcsDir,
    checkoutFile_initialCheckin, checkoutFile_lockConflict,
    checkoutFile_drift, checkoutFile_readOnly, checkoutFile_checkout.
  cbv zeta.
  sat_any;
    try (apply getLockersName_sat; intros; exact I);
    simpl; auto with vic; try discriminate.
  all: intros g Hg; injection Hg as <-; repeat split; reflexivity.
Qed.

(** X14.  The session that [checkoutFile] returns is about the file
    named, or about the absolute path behind it when it is a symbolic
    link; its base name is the base name of that file, and its RCS file is
    that base name with [,v] in the store root: the [.rcs] directory
    beside the file when [rcsBasePath] is null, and [rcsBasePath]
    otherwise. *)
Theorem session_names_the_file :
  forall (fname0 : string) (s : State W) (f : FileInfo),
    fst (checkoutFile cfg fname0 s) = Done (Some f) ->
    baseName f = Path.basename (fname f) /\
    exists dirName,
      ((fname f = fname0 /\ dirName = Path.dirname (resolve fname0)) \/
       (lstatIsSymbolicLink fname0 (world s) = Ok true /\
        realpathSync fname0 (world s) = Ok (fname f) /\
        dirName = Path.dirname (fname f))) /\
      rcsFile f
      = orElse (rcsBasePath f) (dirName ++ "/" ++ RCS_DIR) ++ "/"
        ++ baseName f ++ ",v" /\
      rcsBasePath f <> Some "".
Proof.
  intros fname0 s f. rewrite checkoutFile_split. unfold bind at 1.
  destruct (checkoutFile_identify fname0 s)
    as [[[[[[fname dirName] base] mode] |] | c | e] s1] eqn:Hid;
    try discriminate.
  destruct (checkoutFile_identify_names _ _ _ _ _ _ _ Hid) as [s0 Hsym].
  apply checkoutFile_symlink_names in Hsym.
  unfold bind at 1.
  destruct (checkoutFile_rcsPath cfg fname dirName s1)
    as [[[[rcsPath rcsBase] |] | c | e] s2] eqn:Hpath; try discriminate.
  pose proof (checkoutFile_rcsPath_store _ _ _ _ _ _ Hpath) as Hstore.
  assert (Htruthy : rcsBase <> Some "").
  { unfold checkoutFile_rcsPath, bind, ask, ret in Hpath.
    destruct (existsSync _ (world s1)); [injection Hpath as _ <- _; discriminate |].
    destruct (resolveRcsPath cfg (resolve fname) dirName s1)
      as [[[p |] | c | e] s3]; try discriminate.
    destruct (truthy p) eqn:Hp; [| discriminate].
    injection Hpath as _ <- _. intros H. injection H as ->. discriminate Hp. }
  destruct (checkoutFile_withStore_session fname base mode rcsPath rcsBase s2)
    as (_ & _ & _ & HQ).
  intros Hf. rewrite Hf in HQ. destruct (HQ f eq_refl) as (H1 & H2 & H3 & H4).
  assert (Hbase : base = Path.basename fname)
    by (destruct Hsym as [(-> & _ & ->) | (_ & _ & _ & ->)]; reflexivity).
  split; [congruence |]. exists dirName. split; [| split].
  - rewrite H1.
    destruct Hsym as [(-> & -> & _) | (Hl & Hr & -> & _)]; [left | right]; auto.
  - rewrite H3, H4, H2.
    destruct Hstore as [(-> & ->) | ->]; [reflexivity |].
    unfold orElse. destruct (truthy rcsPath) eqn:Hp; [reflexivity |].
    exfalso. apply Htruthy. f_equal.
    unfold truthy in Hp. apply negb_false_iff, String.eqb_eq in Hp. exact Hp.
  - rewrite H4. exact Htruthy.
Qed.

End Session.

Section CheckoutResult.
Context {W : Type} {Sys : System W}.
Variable cfg : Config.

(** X15.  Once the checkout of a file reaches the checkout command, it
    yields the session exactly when the command exits with code 0 and the
    lock-holder query after it names a holder; otherwise it yields null.
    When the command fails, the holder is not asked for: the trace ends
    with the command and the line that the checkout failed. *)
Theorem checkout_yields_session_iff_locked :
  forall (fname0 : string) (s s1 : State W) (f : FileInfo),
    checkoutFile_upToCheckout cfg fname0 s = (Done (Some f), s1) ->
    let co := runCommand Bash
                (commandLine cfg (Checkout (fname f) (rcsFile f))) (world s1) in
    let code := match fst co with
                | Ok res => status res
                | Err _ => Some 1%Z
                end in
    let holder :=
      holderOf (fst (runCommand Sh
                       (commandLine cfg (lockQuery (fname f) (rcsBasePath f)))
                       (snd co))) in
    (fst (checkoutFile cfg fname0 s) = Done (Some f) <->
     code = Some 0%Z /\ holder <> "") /\
    (fst (checkoutFile cfg fname0 s) = Done (Some f) \/
     fst (checkoutFile cfg fname0 s) = Done None) /\
    (code <> Some 0%Z ->
     trace (snd (checkoutFile cfg fname0 s))
     = (trace s1 ++ [EvRun (Checkout (fname f) (rcsFile f)) (fst co);
                     EvLog ("Checkout failed for " ++ fname f)])%list).
Proof.
  intros fname0 s s1 f Hup co code holder. subst co code holder.
  rewrite (checkoutFile_from_upToCheckout cfg fname0 s s1 f Hup).
  rewrite checkoutFile_checkout_run. cbv zeta.
  destruct (runCommand Bash _ (world s1)) as [r w]. cbn [fst snd].
  destruct (match r with Ok res => status res | Err _ => Some 1%Z end)
    as [[| p | p] |]; cbn [fst snd];
    try (split; [split; [discriminate | intros [H _]; discriminate]
                | split; [right; reflexivity | reflexivity]]).
  destruct (runCommand Sh _ w) as [answer w1]. cbn [fst snd].
  destruct (truthy (holderOf answer)) eqn:Hh; cbn [fst snd].
  - apply truthy_nonempty in Hh.
    split; [tauto | split; [left; reflexivity | intros H; contradiction]].
  - unfold truthy in Hh. apply negb_false_iff, String.eqb_eq in Hh.
    split; [split; [discriminate | intros [_ H]; contradiction]
           | split; [right; reflexivity | intros H; contradiction]].
Qed.

End CheckoutResult.

Section HardLinks.
Context {W : Type} {Sys : System W}.
Variable cfg : Config.

Lemma checkoutFile_upToLinks_events (fname0 : string) :
  satisfies (W:=W) identifyEvent never anything (checkoutFile_upToLinks fname0).
Proof.
  unfold checkoutFile_upToLinks, checkoutFile_symlink,
    checkoutFile_ensureExists.
  sat_any; simpl; auto with vic.
Qed.

Lemma checkoutFile_from_upToLinks (fname0 : string) (s s1 : State W)
  (fname dirName baseName : string) :
  checkoutFile_upToLinks fname0 s
  = (Done (Some (fname, dirName, baseName)), s1) ->
  checkoutFile_identify fname0 s =
  match checkoutFile_hardLinks fname s1 with
  | (Done (Some mode), s2) =>
      (Done (Some (fname, dirName, baseName, mode)), s2)
  | (Done None, s2) => (Done None, s2)
  | (Exit c, s2) => (Exit c, s2)
  | (Throw e, s2) => (Throw e, s2)
  end.
Proof.
  unfold checkoutFile_upToLinks, checkoutFile_identify, bind, ret.
  destruct (checkoutFile_symlink fname0 s)
    as [[[[[f d] b] |] | c | e] s0]; try discriminate.
  destruct (checkoutFile_ensureExists f s0) as [[[[] |] | c | e] s2];
    try discriminate.
  intros H. injection H as <- <- <- <-.
  destruct (checkoutFile_hardLinks f s2) as [[[m |] | c | e] s3]; reflexivity.
Qed.

(** X16.  A file with more than one hard link is refused: once the file
    to edit is known and exists, [checkoutFile] prints the number of
    links and the advice and returns null, and all it has done until then
    is print, ask about a symbolic link and create the file; no command was
    run. *)
Theorem hard_links_are_refused :
  forall (fname0 : string) (s s1 : State W) (fname dirName baseName : string)
         (stats : Stats),
    checkoutFile_upToLinks fname0 s
    = (Done (Some (fname, dirName, baseName)), s1) ->
    statSync fname (world s1) = Ok stats ->
    (1 < st_nlink stats)%Z ->
    checkoutFile cfg fname0 s
    = (Done None,
       withTrace s1 (world s1)
         [EvLog ("There are " ++ JS.showZ (st_nlink stats)
                 ++ " links to this file.");
          EvLog "It is best to delete all names except one before continuing."]
         (rl s1)) /\
    exists evs,
      trace s1 = (trace s ++ evs)%list /\ Forall identifyEvent evs.
Proof.
  intros fname0 s s1 fname dirName baseName stats Hup Hstat Hn. split.
  - rewrite checkoutFile_split. unfold bind at 1.
    rewrite (checkoutFile_from_upToLinks _ _ _ _ _ _ Hup).
    apply Z.ltb_lt in Hn.
    destruct s1 as [w0 t0 r0 c0]. cbn [world] in Hstat.
    unfold checkoutFile_hardLinks, withTrace. run_eval.
    rewrite Hstat, Hn. run_eval. rewrite <- app_assoc. reflexivity.
  - destruct (checkoutFile_upToLinks_events fname0 s) as (evs & Ht & HP & _).
    rewrite Hup in Ht. exists evs. split; assumption.
Qed.

End HardLinks.

Section DriftAnswers.
Context {W : Type} {Sys : System W}.
Variable cfg : Config.

Lemma driftReport_answer (f : FileInfo) (diff cat : Try SpawnResult)
  (unlinked : Try unit) (a answer : string) (rest : list Event) :
  In (EvQuestion "---> " answer)
     (driftReport cfg f diff cat unlinked a ++ rest) ->
  (forall q' a', ~ In (EvQuestion q' a') rest) -> a = answer.
Proof.
  intros Hin Hrest. apply in_app_or in Hin. destruct Hin as [Hin | Hin].
  - symmetry. apply (driftReport_question _ _ _ _ _ _ _ _ Hin).
  - destruct (Hrest _ _ Hin).
Qed.

Ltac no_question :=
  let q := fresh "q" in
  let a := fresh "a" in
  let H := fresh "H" in
  intros q a H; simpl in H;
  repeat (destruct H as [H | H]; try discriminate); contradiction.

(** X17.  The check for uncommitted changes asks its question exactly
    when the diff does not exit with code 0: with code 0 it has run the
    diff and nothing else, and goes on with the mode the file had.  At
    the question, an answer with a [1] in it, whether or not it has a
    [3] too, makes [checkoutFile] lock the file and check the changes in
    with the message [Sync uncommitted changes], then go on with the mode
    the file has after that; an answer with a [3] and no [1] makes it go
    on as the file is, with the mode it had and no command after the
    question. *)
Theorem drift_answers :
  forall (f : FileInfo) (s : State W),
    let r := checkoutFile_drift cfg f s in
    let diff :=
      runCommand Bash
        (commandLine cfg (DiffTo (fname f) (rcsFile f) (tmpFile cfg)))
        (world s) in
    let code := match fst diff with
                | Ok res => status res
                | Err _ => Some 1%Z
                end in
    exists evs,
      trace (snd r) = (trace s ++ evs)%list /\
      (code = Some 0%Z ->
       fst r = Done (Some (originalMode f)) /\
       world (snd r) = snd diff /\
       evs = [EvRun (DiffTo (fname f) (rcsFile f) (tmpFile cfg)) (fst diff)]) /\
      (code <> Some 0%Z ->
       exists answer, In (EvQuestion "---> " answer) evs) /\
      (forall answer,
          In (EvQuestion "---> " answer) evs ->
          code <> Some 0%Z /\
          (JS.includes answer "1" = true ->
           exists cat unlinked lk ci tail,
             evs = (driftReport cfg f (fst diff) cat unlinked answer ++
                    EvLog "" :: EvRun (Lock (fname f) (rcsFile f)) lk ::
                    EvRun (Checkin "Sync uncommitted changes" (fname f)
                             (rcsFile f)) ci :: tail)%list /\
             match statSync (fname f) (world (snd r)) with
             | Ok newStats =>
                 fst r = Done (Some (st_mode newStats)) /\ tail = [EvLog ""]
             | Err e => fst r = Throw e /\ tail = []
             end) /\
          (JS.includes answer "1" = false -> JS.includes answer "3" = true ->
           fst r = Done (Some (originalMode f)) /\
           exists cat unlinked,
             evs = driftReport cfg f (fst diff) cat unlinked answer)).
Proof.
  intros f s r diff0 code. subst r code diff0.
  rewrite checkoutFile_drift_run.
  destruct (runCommand Bash _ (world s)) as [diff w]. cbn [fst snd].
  destruct (match diff with Ok res => status res | Err _ => Some 1%Z end)
    as [[| p | p] |].
  1: { eexists. split; [reflexivity |]. split; [| split].
       - intros _. repeat split; reflexivity.
       - intros Hc. destruct (Hc eq_refl).
       - intros answer [Hin | []]. discriminate Hin. }
  all: destruct (runCommand Bash _ w) as [cat w1];
    destruct (unlinkSync (tmpFile cfg) w1) as [unlinked w2];
    destruct (question "---> " w2) as [a w3]; cbv zeta.
  all: destruct (JS.includes a "1") eqn:Ha1;
    [ destruct (runCommand Bash _ w3) as [lk w4];
      destruct (runCommand Bash _ w4) as [ci w5];
      destruct (statSync (fname f) w5) as [st | e] eqn:Hst
    | destruct (JS.includes a "3") eqn:Ha3; cbn [negb] ].
  all: unfold withTrace; cbn [fst snd trace world].
  all: eexists; (split; [reflexivity |]).
  all: split; [intros Hc; discriminate Hc |].
  all: split;
    [ intros _; exists a; try (apply in_or_app; left);
      unfold driftReport; simpl; tauto |].
  all: intros answer Hin.
  all: try rewrite <- app_assoc in Hin.
  all: assert (a = answer)
         by (first
               [ apply (driftReport_answer _ _ _ _ _ _ _ Hin); no_question
               | apply (driftReport_answer f diff cat unlinked a answer []);
                 [rewrite app_nil_r; exact Hin | intros q' a' []] ]).
  all: subst a; (split; [intros Hc; discriminate Hc |]).
  all: (split; [intros H1 | intros H1 H3]); try congruence.
  all: try (exists cat, unlinked, lk, ci; eexists; rewrite Hst;
            split; [rewrite <- ?app_assoc; reflexivity | split; reflexivity]).
  all: split; [reflexivity | exists cat, unlinked; reflexivity].
Qed.

End DriftAnswers.

Section Hints.
Context {W : Type} {Sys : System W}.
Variable cfg : Config.

(** X18.  When the metadata directory carries a hint and the store root
    it stands for exists, [resolveRcsPath] returns that store root at
    once: it has read the hint and done nothing else, asked nothing and
    written nothing. *)
Theorem valid_hint_is_used :
  forall (filePath fileDir : string) (s : State W) (xcsRoot : option string)
         (res : SpawnResult) (w1 : W),
    fst (findXcsBundleRoot cfg filePath s) = Done xcsRoot ->
    runCommand Sh (commandLine cfg (XattrGet (orElse xcsRoot fileDir)))
      (world s) = (Ok res, w1) ->
    status res = Some 0%Z ->
    truthy (JS.trim (stdout res)) = true ->
    existsSync (hintedPath cfg (orElse xcsRoot fileDir) (JS.trim (stdout res))) w1
    = true ->
    resolveRcsPath cfg filePath fileDir s
    = (Done (Some (hintedPath cfg (orElse xcsRoot fileDir)
                     (JS.trim (stdout res)))),
       withTrace s w1 [EvRun (XattrGet (orElse xcsRoot fileDir)) (Ok res)]
         (rl s)).
Proof.
  intros filePath fileDir s xcsRoot res w1 Hfind Hget Hst Hhint Hex.
  assert (Hroot : findXcsBundleRoot cfg filePath s = (Done xcsRoot, s)).
  { rewrite <- (findXcsBundleRoot_reads cfg filePath s) at 2.
    rewrite <- Hfind. destruct (findXcsBundleRoot cfg filePath s); reflexivity. }
  unfold resolveRcsPath. rewrite (bind_done _ _ _ _ _ Hroot).
  set (dir := orElse xcsRoot fileDir) in *.
  destruct s as [w0 t0 r0 c0]. cbn [world trace] in *.
  unfold getXattrPath, withTrace. run_eval. rewrite Hget. run_eval.
  rewrite Hst, Hhint.
  fold (hintedPath cfg dir (JS.trim (stdout res))). rewrite Hex. reflexivity.
Qed.

(** X2.  The two paths that [promptForRcsPath] makes from an answer
    agree: when the attribute tool prints the relative path, which is
    the text that [setXattrPath] puts in its command, with or without
    white space after it, and the full path, which is the store that was
    returned at the prompt, exists, [resolveRcsPath] returns that same
    store at once and does not ask again.  This needs an answer that,
    trimmed, has no slash at its ends. *)
Theorem hint_round_trip :
  forall (filePath fileDir : string) (s : State W) (xcsRoot : option string)
         (res : SpawnResult) (w1 : W) (answer pad : string),
    JS.startsWith (JS.trim answer) "/" = false ->
    JS.endsWith (JS.trim answer) "/" = false ->
    JS.trim pad = "" ->
    fst (findXcsBundleRoot cfg filePath s) = Done xcsRoot ->
    runCommand Sh (commandLine cfg (XattrGet (orElse xcsRoot fileDir)))
      (world s) = (Ok res, w1) ->
    status res = Some 0%Z ->
    stdout res
    = relative (pathInfoFor cfg (orElse xcsRoot fileDir) answer) ++ pad ->
    existsSync (full (pathInfoFor cfg (orElse xcsRoot fileDir) answer)) w1
    = true ->
    resolveRcsPath cfg filePath fileDir s
    = (Done (Some (full (pathInfoFor cfg (orElse xcsRoot fileDir) answer))),
       withTrace s w1 [EvRun (XattrGet (orElse xcsRoot fileDir)) (Ok res)]
         (rl s)).
Proof.
  intros filePath fileDir s xcsRoot res w1 answer pad Hs He Hp Hfind Hget
    Hst Hout Hex.
  destruct (hint_decodes cfg (orElse xcsRoot fileDir) answer pad Hs He Hp)
    as [Hread Hpath].
  cbv zeta in Hread, Hpath. rewrite <- Hout in Hread, Hpath.
  assert (Hroot : findXcsBundleRoot cfg filePath s = (Done xcsRoot, s)).
  { rewrite <- (findXcsBundleRoot_reads cfg filePath s) at 2.
    rewrite <- Hfind. destruct (findXcsBundleRoot cfg filePath s); reflexivity. }
  unfold resolveRcsPath. rewrite (bind_done _ _ _ _ _ Hroot).
  set (dir := orElse xcsRoot fileDir) in *.
  rewrite <- Hpath in Hex |- *.
  destruct s as [w0 t0 r0 c0]. cbn [world trace] in *.
  unfold getXattrPath, withTrace. run_eval. rewrite Hget. run_eval.
  rewrite Hst, Hread.
  fold (hintedPath cfg dir (JS.trim (stdout res))). rewrite Hex. reflexivity.
Qed.

End Hints.

Section HintWritten.
Context {W : Type} {Sys : System W}.
Variable cfg : Config.

Ltac in_cases H :=
  simpl in H; repeat (destruct H as [H | H]; try discriminate H);
  try contradiction.

(** X19.  Every command with which [resolveRcsPath] writes a hint is
    made from the answer to the question it has asked: the text that the
    command holds between its double quotes is the relative path made
    from that answer, the store that [resolveRcsPath] returns is the full
    path made from the same answer, and no directory creation has
    failed.  When the directory cannot be created, it returns null and
    runs no such command.  The statement is about the command as the
    program makes it; what the shell makes of a quoted text with a
    dollar sign, a backquote or a backslash in it is the machine's
    part. *)
Theorem hint_command_is_made_from_the_answer :
  forall (filePath fileDir : string) (s : State W),
    let r := resolveRcsPath cfg filePath fileDir s in
    exists evs,
      trace (snd r) = (trace s ++ evs)%list /\
      (forall dir rel out,
          In (EvRun (XattrSet dir rel) out) evs ->
          exists answer,
            In (EvQuestion (rcsPathQuestion cfg dir) answer) evs /\
            rel = relative (pathInfoFor cfg dir answer) /\
            fst r = Done (Some (full (pathInfoFor cfg dir answer))) /\
            (forall p mode e, ~ In (EvMkdir p mode (Err e)) evs)) /\
      (forall p mode e,
          In (EvMkdir p mode (Err e)) evs ->
          fst r = Done None /\
          forall dir rel out, ~ In (EvRun (XattrSet dir rel) out) evs).
Proof.
  intros filePath fileDir s r.
  assert (Hr : r = resolveRcsPath cfg filePath fileDir s) by reflexivity.
  clearbody r.
  pose proof (findXcsBundleRoot_reads cfg filePath s) as Hreads.
  unfold resolveRcsPath in Hr. unfold bind at 1 in Hr.
  destruct (findXcsBundleRoot cfg filePath s) as [[xcsRoot | c | e] s0];
    cbn [snd] in Hreads; subst s0;
    [| subst r; exists []; rewrite app_nil_r; repeat split; intros;
       in_cases H
     | subst r; exists []; rewrite app_nil_r; repeat split; intros;
       in_cases H ].
  set (dir := orElse xcsRoot fileDir) in *.
  destruct s as [w0 t0 r0 c0].
  unfold getXattrPath, removeXattr, setXattrPath, promptForRcsPath in Hr.
  run_eval_in Hr.
  destruct (runCommand Sh (commandLine cfg (XattrGet dir)) w0) as [got w1].
  run_eval_in Hr.
  destruct got as [res | e];
    [destruct (status res) as [[| p | p] |];
     [destruct (truthy (JS.trim (stdout res)));
      [match type of Hr with
       | context [existsSync ?p w1] => destruct (existsSync p w1)
       end;
       [subst r; eexists; split; [reflexivity |]; split; intros; in_cases H
       | run_eval_in Hr;
         destruct (runCommand Sh (commandLine cfg (XattrRemove dir)) w1)
           as [removed w2]; run_eval_in Hr] |] | | |] |].
  all: match type of Hr with
       | context [question ?q ?w] =>
           destruct (question q w) as [answer w3]
       end; run_eval_in Hr.
  all: destruct (existsSync (full (pathInfoFor cfg dir answer)) w3);
    [ destruct (runCommand Sh _ w3) as [set w4]; run_eval_in Hr
    | destruct (mkdirSync (full (pathInfoFor cfg dir answer)) 509 w3)
        as [[[] | e'] w4]; run_eval_in Hr;
      [destruct (runCommand Sh _ w4) as [set w5]; run_eval_in Hr |] ].
  all: subst r; cbn [fst snd trace].
  all: eexists; (split; [rewrite <- ?app_assoc; reflexivity |]).
  all: split;
    [ intros d rel out Hin; in_cases Hin;
      injection Hin as <- <- _; exists answer;
      (split; [simpl; tauto |]); repeat split;
      intros p0 mode e0 Hm; in_cases Hm
    | intros p0 mode e0 Hm; in_cases Hm;
      (split; [reflexivity |]); intros d rel out Hin; in_cases Hin ].
Qed.

End HintWritten.

(** ** What is checked out is checked in *)

Section RunsThrough.
Context {W : Type}.

Lemma rt_ret {A} (a : A) : runsThrough (W:=W) (ret a).
Proof. intros s. exists a, []. simpl. rewrite app_nil_r. auto. Qed.

Lemma rt_bind {A B} (m : M W A) (k : A -> M W B) :
  runsThrough m -> (forall a, runsThrough (k a)) -> runsThrough (bind m k).
Proof.
  intros Hm Hk s. unfold bind.
  destruct (Hm s) as (a & evs & Ha & Ht).
  destruct (m s) as [o s1]. cbn [fst snd] in *. subst o.
  destruct (Hk a s1) as (b & evs' & Hb & Ht').
  exists b, (evs ++ evs')%list. split; [exact Hb |].
  rewrite Ht', Ht, app_assoc. reflexivity.
Qed.

Lemma rt_emit (e : Event) : runsThrough (W:=W) (emit e).
Proof. intros s. exists tt, [e]. split; reflexivity. Qed.

Lemma rt_call {A} (f : W -> A * W) : runsThrough (call f).
Proof.
  intros s. unfold call. destruct (f (world s)) as [a w].
  exists a, []. simpl. rewrite app_nil_r. auto.
Qed.

Lemma rt_ask {A} (f : W -> A) : runsThrough (ask f).
Proof. intros s. exists (f (world s)), []. simpl. rewrite app_nil_r. auto. Qed.

Lemma rt_getState : runsThrough (W:=W) getState.
Proof. intros s. exists s, []. simpl. rewrite app_nil_r. auto. Qed.

Lemma rt_setReadline (b : bool) : runsThrough (W:=W) (setReadline b).
Proof. intros s. exists tt, []. simpl. rewrite app_nil_r. auto. Qed.

Lemma emits_now {A B} (c : Event -> Prop) (m : M W A) (k : A -> M W B) :
  emits c m -> (forall a, satisfies anything anything anything (k a)) ->
  emits c (bind m k).
Proof.
  intros Hm Hk s. unfold bind. destruct (Hm s) as (evs & Ht & Hc).
  destruct (m s) as [[a | x | e] s1]; cbn [snd] in *;
    try (exists evs; split; assumption).
  destruct (Hk a s1) as (evs' & Ht' & _).
  exists (evs ++ evs')%list. split.
  - rewrite Ht', Ht, app_assoc. reflexivity.
  - apply Exists_app. left. exact Hc.
Qed.

Lemma emits_later {A B} (c : Event -> Prop) (m : M W A) (k : A -> M W B) :
  runsThrough m -> (forall a, emits c (k a)) -> emits c (bind m k).
Proof.
  intros Hm Hk s. unfold bind. destruct (Hm s) as (a & evs & Ha & Ht).
  destruct (m s) as [o s1]. cbn [fst snd] in *. subst o.
  destruct (Hk a s1) as (evs' & Ht' & Hc).
  exists (evs ++ evs')%list. split.
  - rewrite Ht', Ht, app_assoc. reflexivity.
  - apply Exists_app. right. exact Hc.
Qed.

End RunsThrough.

Ltac rt_step :=
  match goal with
  | |- runsThrough (bind _ _) => apply rt_bind; [| intros ?]
  | |- runsThrough (ret _) => apply rt_ret
  | |- runsThrough (emit _) => apply rt_emit
  | |- runsThrough (call _) => apply rt_call
  | |- runsThrough (ask _) => apply rt_ask
  | |- runsThrough getState => apply rt_getState
  | |- runsThrough (setReadline _) => apply rt_setReadline
  | |- runsThrough (match ?x with _ => _ end) => destruct x
  end.

Ltac rt_done := repeat first [rt_step | progress autounfold with vic].

Section CheckedIn.
Context {W : Type} {Sys : System W}.
Variable cfg : Config.

Lemma generateCommitMessage_returns (diff : string) :
  satisfies anything never cleanMessage (generateCommitMessage cfg diff) /\
  runsThrough (generateCommitMessage cfg diff).
Proof.
  split.
  - apply generateCommitMessage_sat; intros; exact I.
  - unfold generateCommitMessage. rt_done.
Qed.

Lemma checkinFile_checks_in (f : FileInfo) :
  emits (checksIn f) (checkinFile cfg f).
Proof.
  unfold checkinFile.
  apply emits_later; [rt_done | intros _].
  apply emits_later; [rt_done | intros r].
  intros s0.
  set (msgOf := match r with
                | Ok diffContent =>
                    m <- (if truthy (JS.trim diffContent)
                          then generateCommitMessage cfg diffContent
                          else ret "-") ;;
                    tryUnlink _ ;; ret m
                | Err _ => ret "-"
                end).
  assert (Hmsg : satisfies anything never cleanMessage msgOf /\
                 runsThrough msgOf).
  { subst msgOf. destruct r as [diffContent | e].
    - destruct (truthy (JS.trim diffContent)).
      + destruct (generateCommitMessage_returns diffContent) as [H1 H2].
        split.
        * eapply (sat_bind (Q := cleanMessage)); [exact H1 | intros m Hm].
          eapply (sat_bind (Q := anything)); [sat_done | intros _ _].
          apply sat_ret, Hm.
        * apply rt_bind; [exact H2 | intros m]. unfold generateCommitMessage.
          rt_done.
      + split.
        * eapply (sat_bind (Q := cleanMessage));
            [apply sat_ret, sentinel_clean | intros m Hm].
          eapply (sat_bind (Q := anything)); [sat_done | intros _ _].
          apply sat_ret, Hm.
        * rt_done.
    - split; [apply sat_ret, sentinel_clean | apply rt_ret]. }
  destruct Hmsg as [Hclean Hrt]. unfold bind at 1.
  destruct (Hrt s0) as (m & evs & Hm & Ht).
  destruct (Hclean s0) as (_ & _ & _ & Hcm).
  destruct (msgOf s0) as [o s1]. cbn [fst snd] in *. subst o.
  assert (Hrest : emits (checksIn f)
    ((if negb (String.eqb m "-")
      then log (underlineMessage "Commit message:" ++ nl ++ m ++ nl)
      else ret tt) ;;
     shell cfg (Checkin m (fname f) (rcsFile f)) ;;
     lname <- getLockersName cfg (fname f) (rcsBasePath f) ;;
     (if truthy lname
      then shell cfg (Unlock (fname f) (rcsFile f)) ;;
           log ("File " ++ fname f ++ " has been unlocked.")
      else ret tt) ;;
     tryChmod (fname f) (originalMode f) ;;
     runSyntaxCheck (fname f))).
  { apply emits_later; [rt_done | intros _].
    apply emits_now.
    - intros s. unfold shell, bind, call, emit, ret.
      destruct (runCommand Bash _ (world s)) as [r0 w0]. cbn [fst snd trace].
      exists [EvRun (Checkin m (fname f) (rcsFile f)) r0].
      split; [reflexivity |]. constructor. exists m, r0. split; auto.
    - intros _. unfold runSyntaxCheck.
      sat_any; try (apply getLockersName_sat; intros; exact I);
        simpl; auto with vic. }
  destruct (Hrest s1) as (evs' & Ht' & Hc).
  exists (evs ++ evs')%list. split.
  - rewrite Ht', Ht, app_assoc. reflexivity.
  - apply Exists_app. right. exact Hc.
Qed.

End CheckedIn.

Section EditPath.
Context {W : Type} {Sys : System W}.
Variable cfg : Config.

Lemma forEach_checks_in (sessions : list FileInfo) (s : State W) :
  fst (forEach (checkinFile cfg) sessions s) = Done tt ->
  exists evs,
    trace (snd (forEach (checkinFile cfg) sessions s)) = (trace s ++ evs)%list /\
    Forall (checkinEvent_any cfg sessions) evs /\
    forall f, In f sessions -> Exists (checksIn f) evs.
Proof.
  revert s. induction sessions as [| f rest IH]; intros s Hdone.
  - exists []. cbn. rewrite app_nil_r. repeat split; [constructor |].
    intros f [].
  - cbn [forEach] in *. unfold bind in *.
    destruct (checkinFile_checks_in cfg f s) as (evs1 & Ht1 & Hc1).
    destruct (checkinFile_events cfg never f s) as (evs0 & Ht0 & Hp0 & _).
    rewrite Ht1 in Ht0. apply app_inv_head in Ht0. subst evs0.
    destruct (checkinFile cfg f s) as [[[] | c | e] s1]; try discriminate.
    cbn [snd] in *.
    destruct (IH s1 Hdone) as (evs2 & Ht2 & Hp2 & Hc2).
    exists (evs1 ++ evs2)%list. split; [| split].
    + rewrite Ht2, Ht1, app_assoc. reflexivity.
    + apply Forall_app. split.
      * apply Forall_impl with (P := checkinEvent cfg f); [| exact Hp0].
        intros e He. exists f. split; [left; reflexivity | exact He].
      * apply Forall_impl with (P := checkinEvent_any cfg rest); [| exact Hp2].
        intros e (g & Hg & He). exists g. split; [right; exact Hg | exact He].
    + intros g [<- | Hg]; apply Exists_app; [left; exact Hc1 |].
      right. apply (Hc2 g Hg).
Qed.

Lemma closeReadline_run (s : State W) :
  closeReadline s =
  (Done tt,
   {| world := world s;
      trace := trace s ++ (if rl s then [EvCloseReadline] else []);
      rl := false; enableSyntaxCheck := enableSyntaxCheck s |}).
Proof.
  destruct s as [w0 t0 r0 c0]. unfold closeReadline. run_eval.
  destruct r0; [reflexivity | rewrite app_nil_r; reflexivity].
Qed.

Lemma main_edit (argv : list string) (s : State W) :
  editInvocation cfg argv = true ->
  (Z.of_nat (List.length (argsAfterFlags argv)) <= maxFilesFor argv)%Z ->
  main cfg argv s = editFiles cfg (argsAfterFlags argv) (afterFlags argv s).
Proof.
  intros He Hn. unfold editInvocation in He.
  apply andb_true_iff in He. destruct He as [Hb Hl].
  apply negb_true_iff in Hl. rewrite (main_batch cfg argv s Hb).
  assert (Hf : requestedFiles argv = argsAfterFlags argv)
    by (unfold requestedFiles; rewrite Hl; reflexivity).
  rewrite Hl, Hf. apply Z.ltb_ge in Hn. rewrite Hn. reflexivity.
Qed.

Lemma editFiles_checkout (args : list string) (s : State W) :
  underXcs cfg = false ->
  editFiles cfg args s =
  bind (checkoutAll cfg args)
    (fun checkedOutFiles =>
       if Nat.eqb (List.length checkedOutFiles) 0 then
         log "No files to edit." ;; closeReadline
       else
         closeReadline ;;
         spawnEditor cfg (map fname checkedOutFiles) ;;
         (if (1 <? List.length checkedOutFiles)%nat then log "" else ret tt) ;;
         forEach (checkinFile cfg) checkedOutFiles ;;
         closeReadline)
    (withTrace s (world s) [EvLog ""] (rl s)).
Proof.
  intros Hx. unfold editFiles. rewrite Hx.
  destruct s as [w0 t0 r0 c0]. reflexivity.
Qed.

End EditPath.

Section Editor.
Context {W : Type} {Sys : System W}.
Variable cfg : Config.

Lemma checkinEvent_notEditor (f : FileInfo) (e : Event) :
  checkinEvent cfg f e -> notEditor e.
Proof. destruct e; simpl; tauto. Qed.

Lemma checkoutEvent_notEditor (e : Event) : checkoutEvent cfg e -> notEditor e.
Proof. destruct e; simpl; tauto. Qed.

Lemma forEach_checkin_notEditor (sessions : list FileInfo) :
  satisfies notEditor never anything (forEach (checkinFile cfg) sessions).
Proof.
  apply sat_forEach. intros f.
  apply (sat_events_weaken (checkinEvent cfg f));
    [apply checkinEvent_notEditor | apply checkinFile_events].
Qed.

(** What [main] does once the files are checked out. *)
Lemma edit_sessions (sessions : list FileInfo) (s : State W) :
  let r := (closeReadline ;;
            spawnEditor cfg (map fname sessions) ;;
            (if (1 <? List.length sessions)%nat then log "" else ret tt) ;;
            forEach (checkinFile cfg) sessions ;;
            closeReadline) s in
  exists post,
    trace (snd r)
    = (trace s ++ closeEvents s
       ++ EvEditor (EDITOR cfg) (map fname sessions) :: post)%list /\
    Forall notEditor post /\
    (fst r = Done tt ->
     rl (snd r) = false /\ forall f, In f sessions -> Exists (checksIn f) post).
Proof.
  intros r. unfold closeEvents.
  set (s1 := {| world := runEditor (EDITOR cfg) (map fname sessions) (world s);
                trace := trace s ++ (if rl s then [EvCloseReadline] else [])
                         ++ [EvEditor (EDITOR cfg) (map fname sessions)];
                rl := false; enableSyntaxCheck := enableSyntaxCheck s |}).
  assert (Hlog : exists evs s2,
             (if (1 <? List.length sessions)%nat then log "" else ret tt) s1
             = (Done tt, s2) /\ trace s2 = (trace s1 ++ evs)%list /\
             Forall notEditor evs).
  { destruct (1 <? List.length sessions)%nat.
    - eexists [EvLog ""], _. split; [reflexivity |].
      split; [reflexivity | repeat constructor].
    - exists [], s1. split; [reflexivity |].
      split; [rewrite app_nil_r; reflexivity | constructor]. }
  destruct Hlog as (evs1 & s2 & Hlog & Ht2 & Hp1).
  assert (Hrun : r = (forEach (checkinFile cfg) sessions ;; closeReadline) s2).
  { subst r. unfold bind at 1. rewrite closeReadline_run.
    unfold spawnEditor. unfold bind at 1. unfold bind at 1.
    unfold call at 1. cbn [world trace rl enableSyntaxCheck].
    unfold emit at 1. cbn [world trace rl enableSyntaxCheck].
    rewrite <- app_assoc. fold s1. unfold bind at 1. rewrite Hlog.
    reflexivity. }
  clearbody r. subst r.
  destruct (forEach_checkin_notEditor sessions s2) as (evs2 & Ht3 & Hp2 & _).
  pose proof (forEach_checks_in cfg sessions s2) as Hin.
  unfold bind.
  destruct (forEach (checkinFile cfg) sessions s2) as [[[] | c | e] s3];
    cbn [fst snd] in *.
  - rewrite closeReadline_run. cbn [fst snd trace rl].
    exists (evs1 ++ evs2 ++ (if rl s3 then [EvCloseReadline] else []))%list.
    split; [| split].
    + rewrite Ht3, Ht2. subst s1. cbn [trace].
      rewrite <- !app_assoc. reflexivity.
    + repeat (apply Forall_app; split); try assumption.
      destruct (rl s3); repeat constructor.
    + intros _. split; [reflexivity |].
      destruct (Hin eq_refl) as (evs' & Ht' & _ & Hc).
      rewrite Ht3 in Ht'. apply app_inv_head in Ht'. subst evs'.
      intros f Hf. apply Exists_app. right. apply Exists_app. left.
      apply (Hc f Hf).
  - exists (evs1 ++ evs2)%list. split; [| split].
    + rewrite Ht3, Ht2. subst s1. cbn [trace].
      rewrite <- !app_assoc. reflexivity.
    + apply Forall_app. split; assumption.
    + discriminate.
  - exists (evs1 ++ evs2)%list. split; [| split].
    + rewrite Ht3, Ht2. subst s1. cbn [trace].
      rewrite <- !app_assoc. reflexivity.
    + apply Forall_app. split; assumption.
    + discriminate.
Qed.

(** X20.  When an invocation that edits files gets no session from the
    checkouts, it says that there are no files to edit, closes the
    readline interface and returns: all it has done is what the checkouts
    did; the editor is not opened and nothing is checked in. *)
Theorem no_session_no_editor :
  forall (argv : list string) (s : State W),
    editInvocation cfg argv = true ->
    underXcs cfg = false ->
    (Z.of_nat (List.length (argsAfterFlags argv)) <= maxFilesFor argv)%Z ->
    let s0 := afterFlags argv s in
    let out := checkoutAll cfg (argsAfterFlags argv)
                 (withTrace s0 (world s0) [EvLog ""] (rl s0)) in
    fst out = Done [] ->
    fst (main cfg argv s) = Done tt /\
    rl (snd (main cfg argv s)) = false /\
    exists evs,
      trace (snd (main cfg argv s))
      = (trace s ++ EvLog "" :: evs ++ EvLog "No files to edit."
         :: closeEvents (snd out))%list /\
      Forall (checkoutEvent cfg) evs.
Proof.
  intros argv s He Hx Hn s0 out Hout.
  assert (Ht0 : trace s0 = trace s)
    by (subst s0; unfold afterFlags; destruct (firstIs argv "-pc"); reflexivity).
  destruct (checkoutAll_checkout_events cfg never (argsAfterFlags argv)
              (withTrace s0 (world s0) [EvLog ""] (rl s0)))
    as (evs & Ht & Hp & _).
  fold out in Ht.
  assert (Hmain : main cfg argv s
                  = (log "No files to edit." ;; closeReadline) (snd out)).
  { rewrite (main_edit cfg argv s He Hn). fold s0.
    rewrite (editFiles_checkout cfg _ s0 Hx). unfold bind at 1. fold out.
    destruct out as [o s2]. cbn [fst snd] in *. subst o. reflexivity. }
  rewrite Hmain. clearbody out. destruct out as [o s2]. cbn [fst snd] in *.
  unfold log, bind, emit. cbv beta iota.
  rewrite closeReadline_run. cbn [fst snd trace rl world enableSyntaxCheck].
  split; [reflexivity |]. split; [reflexivity |].
  exists evs. split; [| exact Hp].
  rewrite Ht. unfold withTrace, closeEvents. cbn [trace]. rewrite Ht0.
  rewrite <- !app_assoc. reflexivity.
Qed.

(** X21.  When an invocation that edits files gets sessions from the
    checkouts, it closes the readline interface, opens the editor once,
    on the files of all the sessions together and in their order, and
    does not open it again; and when it returns, it has run the
    check-in command of every session with a clean message, and the
    readline interface is closed. *)
Theorem sessions_are_edited_and_checked_in :
  forall (argv : list string) (s : State W) (sessions : list FileInfo),
    editInvocation cfg argv = true ->
    underXcs cfg = false ->
    (Z.of_nat (List.length (argsAfterFlags argv)) <= maxFilesFor argv)%Z ->
    let s0 := afterFlags argv s in
    let out := checkoutAll cfg (argsAfterFlags argv)
                 (withTrace s0 (world s0) [EvLog ""] (rl s0)) in
    fst out = Done sessions ->
    sessions <> [] ->
    exists pre post,
      trace (snd (main cfg argv s))
      = (trace s ++ EvLog "" :: pre ++ closeEvents (snd out)
         ++ EvEditor (EDITOR cfg) (map fname sessions) :: post)%list /\
      Forall (checkoutEvent cfg) pre /\
      Forall notEditor post /\
      (fst (main cfg argv s) = Done tt ->
       rl (snd (main cfg argv s)) = false /\
       forall f, In f sessions -> Exists (checksIn f) post).
Proof.
  intros argv s sessions He Hx Hn s0 out Hout Hne.
  assert (Ht0 : trace s0 = trace s)
    by (subst s0; unfold afterFlags; destruct (firstIs argv "-pc"); reflexivity).
  destruct (checkoutAll_checkout_events cfg never (argsAfterFlags argv)
              (withTrace s0 (world s0) [EvLog ""] (rl s0)))
    as (pre & Ht & Hp & _).
  fold out in Ht.
  assert (Hmain : main cfg argv s
                  = (closeReadline ;;
                     spawnEditor cfg (map fname sessions) ;;
                     (if (1 <? List.length sessions)%nat then log ""
                      else ret tt) ;;
                     forEach (checkinFile cfg) sessions ;;
                     closeReadline) (snd out)).
  { rewrite (main_edit cfg argv s He Hn). fold s0.
    rewrite (editFiles_checkout cfg _ s0 Hx). unfold bind at 1. fold out.
    destruct out as [o s2]. cbn [fst snd] in *. subst o.
    destruct sessions as [| f rest]; [contradiction | reflexivity]. }
  rewrite Hmain. clearbody out. destruct out as [o s2]. cbn [fst snd] in *.
  destruct (edit_sessions sessions s2) as (post & Htr & Hpost & Hdone).
  exists pre, post. split; [| split; [exact Hp | split; [exact Hpost |]]].
  - rewrite Htr, Ht. unfold withTrace. cbn [trace]. rewrite Ht0.
    rewrite <- !app_assoc. reflexivity.
  - exact Hdone.
Qed.

End Editor.

(** ** Without RCS *)

Section NoRcs.
Context {W : Type} {Sys : System W}.

Lemma lastSlash_none (s : string) :
  JS.includes s "/" = false -> Path.beforeLastSlash s = None.
Proof.
  induction s as [| c r IH]; [reflexivity |].
  change "/" with (JS.str "/"%char). rewrite includes_char.
  intros H. apply orb_false_iff in H. destruct H as [Hc Hr].
  rewrite beforeLastSlash_cons, (IH Hr), Ascii.eqb_sym, Hc. reflexivity.
Qed.

Lemma stripTrailingSlashes_no_slash (s : string) :
  JS.includes s "/" = false -> JS.stripTrailingSlashes s = s.
Proof.
  induction s as [| c r IH]; [reflexivity |].
  change "/" with (JS.str "/"%char). rewrite includes_char.
  intros H. apply orb_false_iff in H. destruct H as [Hc Hr].
  cbn [JS.stripTrailingSlashes]. rewrite (IH Hr).
  destruct r; [| reflexivity]. rewrite Ascii.eqb_sym, Hc. reflexivity.
Qed.

Lemma dirname_no_slash (p : string) :
  JS.includes p "/" = false -> Path.dirname p = ".".
Proof.
  destruct p as [| c r]; [reflexivity |].
  change "/" with (JS.str "/"%char). rewrite includes_char.
  intros H. apply orb_false_iff in H. destruct H as [Hc Hr].
  unfold Path.dirname.
  rewrite (stripTrailingSlashes_no_slash r Hr), (lastSlash_none r Hr).
  rewrite Ascii.eqb_sym, Hc. reflexivity.
Qed.

(** X22.  When the module was loaded on a machine where [which rcs]
    names no path, because the command fails or prints nothing or
    prints a name without a slash, every invocation with arguments,
    [--version] included, prints that no RCS was found and exits with
    code 1, and does nothing else. *)
Theorem no_rcs_no_run :
  forall (cfg : Config) (w : W) (argv : list string) (s : State W),
    loadedOn cfg w ->
    JS.includes (which "rcs" w) "/" = false ->
    argv <> [] ->
    main cfg argv s
    = (Exit 1%Z,
       withTrace s (world s)
         [EvError "No RCS found! Install: brew install rcs"] (rl s)).
Proof.
  intros cfg w argv s Hload Hwhich Hargs. unfold loadedOn in Hload.
  rewrite (dirname_no_slash _ Hwhich) in Hload.
  unfold main. destruct argv as [| a argv]; [contradiction |].
  cbn [List.length Nat.eqb]. rewrite Hload. cbn [String.eqb orb].
  destruct s as [w0 t0 r0 c0]. reflexivity.
Qed.

End NoRcs.

(** ** Where the history of a file is looked for *)

Section Locate.
Context {W : Type} {Sys : System W}.
Variable cfg : Config.

(** X23.  The RCS file that [showCommits] and [showDiff] go on with
    exists when they go on, and is the base name of the file with [,v]
    in some directory: the [.rcs] directory beside the file when there
    is one, and then nothing was run to find it.  When they do not go
    on, the last line printed says that there is no RCS history for the
    file. *)
Theorem rcs_file_is_located_or_reported :
  forall (fname : string) (s : State W),
    let r := locateRcsFile cfg fname s in
    let localRcsPath := Path.dirname (resolve fname) ++ "/" ++ RCS_DIR in
    (forall rcs,
        fst r = Done (Some rcs) ->
        existsSync rcs (world (snd r)) = true /\
        (exists dir, rcs = dir ++ "/" ++ Path.basename fname ++ ",v") /\
        (existsSync localRcsPath (world s) = true ->
         rcs = localRcsPath ++ "/" ++ Path.basename fname ++ ",v" /\
         snd r = s)) /\
    (fst r = Done None ->
     exists evs,
       trace (snd r)
       = (trace s ++ evs ++ [EvLog ("No RCS history found for " ++ fname)])%list).
Proof.
  intros fname s r localRcsPath.
  assert (Hr : r = locateRcsFile cfg fname s) by reflexivity. clearbody r.
  pose proof (findXcsBundleRoot_reads cfg (resolve fname) s) as Hreads.
  unfold locateRcsFile in Hr. fold localRcsPath in Hr.
  unfold bind at 1, ask at 1 in Hr. cbv beta iota in Hr.
  destruct (existsSync localRcsPath (world s)) eqn:Hlocal.
  - destruct s as [w0 t0 r0 c0]. run_eval_in Hr. cbn [world] in Hlocal.
    destruct (existsSync (localRcsPath ++ "/" ++ Path.basename fname ++ ",v") w0)
      eqn:Hex; subst r; cbn [fst snd world trace]; split.
    + intros rcs H. apply Done_inj in H. injection H as H. subst rcs.
      split; [exact Hex |]. split; [exists localRcsPath; reflexivity |].
      intros _. split; reflexivity.
    + discriminate.
    + discriminate.
    + intros _. exists []. reflexivity.
  - unfold bind at 1 in Hr. unfold bind at 1 in Hr.
    destruct (findXcsBundleRoot cfg (resolve fname) s)
      as [[xcsRoot | c | e] s0]; cbn [snd] in Hreads; subst s0;
      cbv beta iota in Hr;
      [| subst r; cbn [fst]; split; intros; discriminate
       | subst r; cbn [fst]; split; intros; discriminate].
    destruct s as [w0 t0 r0 c0]. unfold getXattrPath in Hr. run_eval_in Hr.
    destruct (runCommand Sh _ w0) as [got w1]. run_eval_in Hr.
    assert (Hnone :
      r = (Done None,
           {| world := w1;
              trace := (t0 ++ [EvRun (XattrGet (orElse xcsRoot
                                        (Path.dirname (resolve fname)))) got])
                       ++ [EvLog ("No RCS history found for " ++ fname)];
              rl := r0; enableSyntaxCheck := c0 |}) ->
      (forall rcs,
          fst r = Done (Some rcs) ->
          existsSync rcs (world (snd r)) = true /\
          (exists dir, rcs = dir ++ "/" ++ Path.basename fname ++ ",v") /\
          (false = true ->
           rcs = localRcsPath ++ "/" ++ Path.basename fname ++ ",v" /\
           snd r = {| world := w0; trace := t0; rl := r0;
                      enableSyntaxCheck := c0 |})) /\
      (fst r = Done None ->
       exists evs,
         trace (snd r)
         = (trace {| world := w0; trace := t0; rl := r0;
                     enableSyntaxCheck := c0 |} ++ evs
            ++ [EvLog ("No RCS history found for " ++ fname)])%list)).
    { intros ->. cbn [fst snd trace]. split; [discriminate |].
      intros _. eexists [_]. rewrite <- app_assoc. reflexivity. }
    destruct got as [res | e];
      [destruct (status res) as [[| p | p] |];
       [destruct (truthy (JS.trim (stdout res))) | | |] |];
      try (apply Hnone; exact Hr).
    clear Hnone.
    destruct (String.eqb (JS.trim (stdout res)) "."); run_eval_in Hr.
    all: match type of Hr with
         | context [existsSync ?p ?w] => destruct (existsSync p w) eqn:Hex
         end; subst r; cbn [fst snd world trace]; split;
      try discriminate.
    all: try (intros rcs H; apply Done_inj in H; injection H as H;
              subst rcs;
              split; [exact Hex |];
              split; [| intros Hf; discriminate Hf];
              match type of Hex with
              | existsSync (?a ++ ?b ++ ?c ++ _) _ = true =>
                  exists (a ++ b ++ c); rewrite !string_app_assoc; reflexivity
              end).
    all: intros _; eexists [_]; rewrite <- app_assoc; reflexivity.
Qed.

End Locate.

Section Symlink.
Context {W : Type} {Sys : System W}.
Variable cfg : Config.

(** X24.  When the file named is a symbolic link, [checkoutFile] says
    where it leads and asks whether to edit the linked file; an answer
    with an [n] in it, in either case, ends the checkout there with null:
    nothing else was printed, asked or run, and no file was created. *)
Theorem declined_link_is_left_alone :
  forall (fname0 realPath : string) (s : State W),
    existsSync fname0 (world s) = true ->
    lstatIsSymbolicLink fname0 (world s) = Ok true ->
    realpathSync fname0 (world s) = Ok realPath ->
    let answer := fst (question "Edit the linked file? [Y/n] " (world s)) in
    JS.includes answer "n" || JS.includes answer "N" = true ->
    checkoutFile cfg fname0 s
    = (Done None,
       withTrace s (snd (question "Edit the linked file? [Y/n] " (world s)))
         [EvLog (fname0 ++ " is a symbolic link to " ++ realPath);
          EvQuestion "Edit the linked file? [Y/n] " answer]
         true).
Proof.
  intros fname0 realPath s Hex Hl Hr answer Hn. subst answer.
  rewrite checkoutFile_split. unfold bind at 1.
  assert (Hsym : checkoutFile_symlink fname0 s
                 = (Done None,
                    withTrace s
                      (snd (question "Edit the linked file? [Y/n] " (world s)))
                      [EvLog (fname0 ++ " is a symbolic link to " ++ realPath);
                       EvQuestion "Edit the linked file? [Y/n] "
                         (fst (question "Edit the linked file? [Y/n] "
                                 (world s)))]
                      true)).
  { destruct s as [w0 t0 r0 c0]. cbn [world] in *.
    unfold checkoutFile_symlink, withTrace. run_eval.
    rewrite Hex, Hl, Hr. run_eval.
    destruct (question "Edit the linked file? [Y/n] " w0) as [ans w1].
    run_eval. cbn [fst snd] in Hn. rewrite Hn.
    rewrite <- app_assoc. reflexivity. }
  unfold checkoutFile_identify. unfold bind at 1. rewrite Hsym. reflexivity.
Qed.

End Symlink.

(** ** The syntax check runs with [-pc] only *)

Section Flag.
Context {W : Type}.
Variable b : bool.
Variable P : Event -> Prop.

Lemma fl_ret {A} (Q : A -> Prop) (a : A) : Q a -> flagged (W:=W) b P Q (ret a).
Proof.
  intros HQ s Hs. exists []. simpl. rewrite app_nil_r. auto.
Qed.

Lemma fl_bind {A B} (Q : A -> Prop) (R : B -> Prop) (m : M W A)
  (k : A -> M W B) :
  flagged b P Q m -> (forall a, Q a -> flagged b P R (k a)) ->
  flagged b P R (bind m k).
Proof.
  intros Hm Hk s Hs. unfold bind.
  destruct (Hm s Hs) as (evs & Ht & HP & Hf & HQ).
  destruct (m s) as [[a | c | e] s1]; cbn [fst snd] in *.
  - destruct (Hk a HQ s1 Hf) as (evs' & Ht' & HP' & Hf' & HR).
    exists (evs ++ evs')%list. rewrite Ht', Ht, app_assoc.
    split; [reflexivity |]. split; [apply Forall_app; auto | auto].
  - exists evs. auto.
  - exists evs. auto.
Qed.

Lemma fl_emit (e : Event) : P e -> flagged (W:=W) b P anything (emit e).
Proof.
  intros He s Hs. exists [e]. simpl. repeat split; auto.
Qed.

Lemma fl_ask {A} (f : W -> A) : flagged b P anything (ask f).
Proof.
  intros s Hs. exists []. simpl. rewrite app_nil_r. repeat split; auto.
Qed.

Lemma fl_call {A} (f : W -> A * W) : flagged b P anything (call f).
Proof.
  intros s Hs. exists []. unfold call. destruct (f (world s)). simpl.
  rewrite app_nil_r. repeat split; auto.
Qed.

Lemma fl_getState :
  flagged (W:=W) b P (fun s => enableSyntaxCheck s = b) getState.
Proof.
  intros s Hs. exists []. simpl. rewrite app_nil_r. repeat split; auto.
Qed.

Lemma fl_getState_any : flagged (W:=W) b P anything getState.
Proof.
  intros s Hs. exists []. simpl. rewrite app_nil_r. repeat split; auto.
Qed.

Lemma fl_setReadline (r : bool) : flagged (W:=W) b P anything (setReadline r).
Proof.
  intros s Hs. exists []. simpl. rewrite app_nil_r. repeat split; auto.
Qed.

Lemma fl_throw {A} (Q : A -> Prop) (e : string) :
  flagged (W:=W) b P Q (throw e).
Proof.
  intros s Hs. exists []. simpl. rewrite app_nil_r. repeat split; auto.
Qed.

Lemma fl_exit {A} (Q : A -> Prop) (c : Z) : flagged (W:=W) b P Q (exit c).
Proof.
  intros s Hs. exists []. simpl. rewrite app_nil_r. repeat split; auto.
Qed.

Lemma fl_forEach {A} (f : A -> M W unit) (l : list A) :
  (forall a, flagged b P anything (f a)) ->
  flagged b P anything (forEach f l).
Proof.
  intros Hf. induction l as [| x r IH]; simpl.
  - apply fl_ret. exact I.
  - eapply fl_bind; [apply Hf | intros; apply IH].
Qed.

End Flag.

Arguments fl_ret {W b P A Q a}.
Arguments fl_bind {W b P A B Q R m k}.
Arguments fl_emit {W b P e}.
Arguments fl_ask {W b P A f}.
Arguments fl_call {W b P A f}.
Arguments fl_getState {W b P}.
Arguments fl_getState_any {W b P}.
Arguments fl_setReadline {W b P r}.
Arguments fl_throw {W b P A Q e}.
Arguments fl_exit {W b P A Q c}.
Arguments fl_forEach {W b P A f l}.

Ltac fl_step :=
  match goal with
  | |- flagged _ _ _ (bind _ _) => eapply fl_bind; [| intros ? ?]
  | |- flagged _ _ _ (ret _) => apply fl_ret
  | |- flagged _ _ _ (emit _) => apply fl_emit
  | |- flagged _ _ _ (ask _) => apply fl_ask
  | |- flagged _ _ _ (call _) => apply fl_call
  | |- flagged _ _ _ getState => apply fl_getState_any
  | |- flagged _ _ _ (setReadline _) => apply fl_setReadline
  | |- flagged _ _ _ (throw _) => apply fl_throw
  | |- flagged _ _ _ (exit _) => apply fl_exit
  | |- flagged _ _ _ (match ?x with _ => _ end) => destruct x
  | |- flagged _ _ _ (let (_, _) := ?x in _) => destruct x
  end.

Ltac fl_any :=
  repeat first
    [ eapply (fl_bind (Q := anything)); [| intros ? _]
    | fl_step
    | progress autounfold with vic ].

Ltac fl_done := fl_any; simpl; auto with vic.

Section Unchecked.
Context {W : Type} {Sys : System W}.
Variable cfg : Config.
Variable b : bool.

Lemma getLockersName_flagged (P : Event -> Prop) (f : string)
  (base : option string) :
  (forall c r, P (EvRun c r)) ->
  flagged b P anything (getLockersName cfg f base).
Proof. intros HP. unfold getLockersName. fl_done. Qed.

Lemma findXcsBundleRoot_flagged (P : Event -> Prop) (p : string) :
  flagged b P anything (findXcsBundleRoot cfg p).
Proof. unfold findXcsBundleRoot. fl_done. Qed.

Lemma generateCommitMessage_flagged (diff : string) :
  flagged b notLint anything (generateCommitMessage cfg diff).
Proof. unfold generateCommitMessage. fl_done. Qed.

Lemma locateRcsFile_flagged (f : string) :
  flagged b notLint anything (locateRcsFile cfg f).
Proof.
  unfold locateRcsFile.
  fl_any; try apply findXcsBundleRoot_flagged; simpl; auto with vic.
Qed.

Lemma showCommits_flagged (f : string) :
  flagged b notLint anything (showCommits cfg f).
Proof.
  unfold showCommits.
  eapply (fl_bind (Q := anything)); [apply locateRcsFile_flagged | intros o _].
  destruct o; [| fl_done].
  eapply (fl_bind (Q := anything)); [fl_done | intros r _].
  destruct r; [| fl_done].
  eapply (fl_bind (Q := anything)); [fl_done | intros _ _].
  eapply (fl_bind (Q := anything)); [| intros _ _; fl_done].
  apply fl_forEach. intros e. fl_done.
Qed.

Lemma showDiff_flagged (f rev1 : string) (rev2 : option string) :
  flagged b notLint anything (showDiff cfg f rev1 rev2).
Proof.
  unfold showDiff.
  eapply (fl_bind (Q := anything)); [apply locateRcsFile_flagged | intros o _].
  destruct o; fl_done.
Qed.

Lemma resolveRcsPath_flagged (p d : string) :
  flagged b notLint anything (resolveRcsPath cfg p d).
Proof.
  unfold resolveRcsPath, promptForRcsPath.
  fl_any; try apply findXcsBundleRoot_flagged; simpl; auto with vic.
Qed.

Lemma checkoutFile_prepare_flagged (f : string) :
  flagged b notLint anything (checkoutFile_prepare cfg f).
Proof.
  unfold checkoutFile_prepare, checkoutFile_identify, checkoutFile_symlink,
    checkoutFile_ensureExists, checkoutFile_hardLinks, checkoutFile_rcsPath,
    checkoutFile_ensureRcsDir, checkoutFile_initialCheckin.
  fl_any; try apply resolveRcsPath_flagged; simpl; auto with vic.
Qed.

Lemma checkoutFile_flagged (f : string) :
  flagged b notLint anything (checkoutFile cfg f).
Proof.
  unfold checkoutFile, checkoutFile_upToCheckout, checkoutFile_upToDrift,
    checkoutFile_lockConflict, checkoutFile_drift, checkoutFile_readOnly,
    checkoutFile_checkout.
  fl_any;
    try apply checkoutFile_prepare_flagged;
    try (apply getLockersName_flagged; intros; exact I);
    simpl; auto with vic.
Qed.

Lemma checkoutAll_flagged (args : list string) :
  flagged b notLint anything (checkoutAll cfg args).
Proof.
  induction args as [| a args IH]; simpl; [fl_done |].
  eapply (fl_bind (Q := anything)); [apply checkoutFile_flagged | intros o _].
  eapply (fl_bind (Q := anything)); [apply IH | intros l _]. fl_done.
Qed.

(** The check-in of a session up to the syntax check. *)
Lemma checkinFile_flagged (P : Event -> Prop) (f : FileInfo) :
  (forall e, notLint e -> P e) ->
  flagged b P anything (runSyntaxCheck (fname f)) ->
  flagged b P anything (checkinFile cfg f).
Proof.
  intros HP Hlint. unfold checkinFile.
  assert (HP' : forall e, notLint e -> P e) by exact HP.
  eapply (fl_bind (Q := anything));
    [fl_done; apply HP; exact I | intros _ _].
  eapply (fl_bind (Q := anything));
    [fl_done; apply HP; exact I | intros r _].
  eapply (fl_bind (Q := anything)).
  { destruct r as [diffContent | e]; [| fl_done].
    eapply (fl_bind (Q := anything)).
    - destruct (truthy (JS.trim diffContent)); [| fl_done].
      unfold generateCommitMessage. fl_done; apply HP; exact I.
    - intros m _. fl_done; apply HP; exact I. }
  intros commitMessage _.
  eapply (fl_bind (Q := anything));
    [fl_done; apply HP; exact I | intros _ _].
  eapply (fl_bind (Q := anything));
    [fl_done; apply HP; exact I | intros _ _].
  eapply (fl_bind (Q := anything));
    [apply getLockersName_flagged; intros; apply HP; exact I | intros lname _].
  eapply (fl_bind (Q := anything));
    [fl_done; apply HP; exact I | intros _ _].
  eapply (fl_bind (Q := anything));
    [fl_done; apply HP; exact I | intros _ _].
  exact Hlint.
Qed.

End Unchecked.

Section SyntaxCheck.
Context {W : Type} {Sys : System W}.
Variable cfg : Config.

Lemma runSyntaxCheck_unchecked (file : string) :
  flagged (W:=W) false notLint anything (runSyntaxCheck file).
Proof.
  unfold runSyntaxCheck.
  eapply (fl_bind (Q := fun s => enableSyntaxCheck s = false));
    [apply fl_getState | intros s' Hs'].
  rewrite Hs'. cbn [negb]. fl_done.
Qed.

Lemma editFiles_unchecked (args : list string) :
  flagged false notLint anything (editFiles cfg args).
Proof.
  unfold editFiles.
  eapply (fl_bind (Q := anything)); [fl_done | intros _ _].
  destruct (underXcs cfg); [fl_done |].
  eapply (fl_bind (Q := anything)); [apply checkoutAll_flagged | intros l _].
  destruct (Nat.eqb _ _); [fl_done |].
  eapply (fl_bind (Q := anything)); [fl_done | intros _ _].
  eapply (fl_bind (Q := anything)); [fl_done | intros _ _].
  eapply (fl_bind (Q := anything)); [fl_done | intros _ _].
  eapply (fl_bind (Q := anything)); [| intros _ _; fl_done].
  apply fl_forEach. intros f.
  apply checkinFile_flagged; [auto | apply runSyntaxCheck_unchecked].
Qed.

(** X25.  An invocation that edits files without [-pc] never runs
    eslint. *)
Theorem eslint_needs_pc :
  forall (argv : list string) (s : State W),
    editInvocation cfg argv = true ->
    firstIs argv "-pc" = false ->
    enableSyntaxCheck s = false ->
    exists evs,
      trace (snd (main cfg argv s)) = (trace s ++ evs)%list /\
      forall file r, ~ In (EvLint file r) evs.
Proof.
  intros argv s He Hpc Hs. unfold editInvocation in He.
  apply andb_true_iff in He. destruct He as [Hb Hl].
  apply negb_true_iff in Hl. rewrite (main_batch cfg argv s Hb), Hl.
  assert (H0 : afterFlags argv s = s) by (unfold afterFlags; rewrite Hpc; reflexivity).
  rewrite H0.
  assert (Hok : forall evs, Forall notLint evs ->
                            forall file r, ~ In (EvLint file r) evs).
  { intros evs Hall file r Hin.
    apply (proj1 (Forall_forall _ _) Hall _ Hin). }
  destruct (_ <? _)%Z.
  - assert (Hm : flagged (W:=W) false notLint anything
                   (tooManyFiles (List.length (requestedFiles argv))
                      (maxFilesFor argv) "file1 file2 ..."))
      by (unfold tooManyFiles; fl_done).
    destruct (Hm s Hs) as (evs & Ht & Hp & _).
    exists evs. split; [exact Ht | apply Hok, Hp].
  - destruct (editFiles_unchecked (requestedFiles argv) s Hs)
      as (evs & Ht & Hp & _).
    exists evs. split; [exact Ht | apply Hok, Hp].
Qed.

Lemma ewl_bind {A B} (file : string) (m : M W A) (k : A -> M W B) :
  runsThrough m -> flagged true notLint anything m ->
  (forall a, endsWithLint file (k a)) ->
  endsWithLint file (bind m k).
Proof.
  intros Hrt Hfl Hk s Hs. unfold bind.
  destruct (Hrt s) as (a & evs0 & Ha & Ht0).
  destruct (Hfl s Hs) as (evs & Ht & Hp & Hf & _).
  destruct (m s) as [o s1]. cbn [fst snd] in *. subst o.
  destruct (Hk a s1 Hf) as (evs' & r & Ht' & Hp').
  exists (evs ++ evs')%list, r. split.
  - rewrite Ht', Ht, <- !app_assoc. reflexivity.
  - apply Forall_app. split; assumption.
Qed.

Lemma runSyntaxCheck_checks (file : string) :
  endsWithLint (W:=W) file (runSyntaxCheck file).
Proof.
  intros s Hs. destruct s as [w0 t0 r0 c0]. cbn [enableSyntaxCheck] in Hs.
  subst c0. unfold runSyntaxCheck. run_eval.
  destruct (lintFile file w0) as [r w1]. run_eval.
  exists [], r. split; [| constructor].
  destruct r; run_eval; cbn [lintReport app]; rewrite <- ?app_assoc;
    reflexivity.
Qed.

(** X26.  With the syntax check switched on, the check-in of a session
    always ends with the syntax check of the file of the session,
    followed by its report or its error; the syntax check is entered
    once, after everything else of the check-in. *)
Theorem checkin_ends_with_eslint :
  forall (f : FileInfo), endsWithLint (W:=W) (fname f) (checkinFile cfg f).
Proof.
  intros f. unfold checkinFile.
  apply ewl_bind; [rt_done | fl_done | intros _].
  apply ewl_bind; [rt_done | fl_done | intros r].
  apply ewl_bind.
  { destruct r as [diffContent | e]; [| rt_done].
    apply rt_bind; [| intros m; rt_done].
    destruct (truthy (JS.trim diffContent)); [| rt_done].
    unfold generateCommitMessage. rt_done. }
  { destruct r as [diffContent | e]; [| fl_done].
    eapply (fl_bind (Q := anything)); [| intros m _; fl_done].
    destruct (truthy (JS.trim diffContent)); [| fl_done].
    unfold generateCommitMessage. fl_done. }
  intros commitMessage.
  apply ewl_bind; [rt_done | fl_done | intros _].
  apply ewl_bind; [rt_done | fl_done | intros _].
  apply ewl_bind;
    [ unfold getLockersName; rt_done
    | apply getLockersName_flagged; intros; exact I | intros lname].
  apply ewl_bind; [rt_done | fl_done | intros _].
  apply ewl_bind; [rt_done | fl_done | intros _].
  apply runSyntaxCheck_checks.
Qed.

End SyntaxCheck.

(** ** Numbers on the command line *)

Section Numbers.
Import JS.

Lemma digitsValue_acc (d : Decimal.uint) (p : positive) :
  digitsValue (Z.pos p) (NilEmpty.string_of_uint d)
  = Z.pos (Pos.of_uint_acc d p).
Proof.
  revert p. induction d as [| d IH | d IH | d IH | d IH | d IH | d IH | d IH
                            | d IH | d IH | d IH]; intros p;
    [reflexivity | ..];
    cbn [NilEmpty.string_of_uint digitsValue Pos.of_uint_acc];
    match goal with
    | |- (if is_digit ?c then _ else _) = _ =>
        change (is_digit c) with true; cbv iota
    end;
    rewrite <- IH; f_equal.
  all: match goal with
       | |- context [Z.of_nat ?n] =>
           let v := eval vm_compute in (Z.of_nat n) in
           change (Z.of_nat n) with v
       end; lia.
Qed.

Lemma digitsValue_uint (d : Decimal.uint) :
  digitsValue 0 (NilEmpty.string_of_uint d) = Z.of_N (Pos.of_uint d).
Proof.
  induction d as [| d IH | d IH | d IH | d IH | d IH | d IH | d IH
                  | d IH | d IH | d IH];
    [reflexivity | exact IH | ..];
    cbn [NilEmpty.string_of_uint digitsValue Pos.of_uint Z.of_N];
    match goal with
    | |- (if is_digit ?c then _ else _) = _ =>
        change (is_digit c) with true; cbv iota
    end;
    rewrite <- digitsValue_acc; f_equal.
Qed.

Lemma parseInt_digit (c : ascii) (r : string) :
  is_digit c = true ->
  parseInt (String c r) = Some (digitsValue 0 (String c r)) /\
  parseInt (String "-" (String c r))
  = Some (Z.opp (digitsValue 0 (String c r))).
Proof.
  destruct c as [[] [] [] [] [] [] [] []]; try discriminate;
    intros _; split; reflexivity.
Qed.

Lemma string_of_uint_digit (d : Decimal.uint) :
  d <> Decimal.Nil ->
  exists c r, NilEmpty.string_of_uint d = String c r /\ is_digit c = true.
Proof.
  destruct d; [contradiction | ..]; intros _; eexists; eexists;
    (split; [reflexivity | reflexivity]).
Qed.

Lemma to_uint_value (p : positive) :
  Pos.to_uint p <> Decimal.Nil /\
  digitsValue 0 (NilEmpty.string_of_uint (Pos.to_uint p)) = Z.pos p.
Proof.
  pose proof (DecimalPos.Unsigned.of_to p) as H. split.
  - intros Hn. rewrite Hn in H. discriminate H.
  - rewrite digitsValue_uint, H. reflexivity.
Qed.

End Numbers.

(** X27.  An integer that a JavaScript number holds exactly, written
    the way the program prints numbers, is read back by [parseInt] as
    the same number; so [-n] followed by such a number other than 0 makes
    that number the ceiling, with or without [-pc] in front. *)
Theorem ceiling_is_the_number_given :
  forall (n : Z),
    (Z.abs n <= 2 ^ 53)%Z ->
    JS.parseInt (JS.showZ n) = Some n /\
    (n <> 0%Z ->
     forall files,
       maxFilesFor ("-n" :: JS.showZ n :: files) = n /\
       maxFilesFor ("-pc" :: "-n" :: JS.showZ n :: files) = n).
Proof.
  intros n _.
  assert (H : JS.parseInt (JS.showZ n) = Some n).
  { unfold JS.showZ. destruct n as [| p | p]; [reflexivity | |];
      destruct (to_uint_value p) as [Hnil Hval];
      destruct (string_of_uint_digit _ Hnil) as (c & r & Hs & Hc);
      cbn [Z.to_int NilZero.string_of_int];
      unfold NilZero.string_of_uint;
      destruct (Pos.to_uint p) eqn:Hp; try contradiction;
      rewrite Hs in *; destruct (parseInt_digit c r Hc) as [H1 H2];
      rewrite ?H1, ?H2, Hval; reflexivity. }
  split; [exact H |]. intros Hn files.
  unfold maxFilesFor, afterPc, maxFilesOf. cbn [firstIs String.eqb tl hd_error].
  change (Ascii.eqb "-" "-") with true. cbv iota.
  cbn. rewrite H. destruct n; [contradiction | |]; split; reflexivity.
Qed.

(** ** The extension of a file *)

Section Extension.

Lemma splitOn_whole (sep : ascii) (s : string) :
  JS.includes s (JS.str sep) = false -> splitOn sep s = [s].
Proof.
  induction s as [| c r IH]; [reflexivity |].
  rewrite includes_char. intros H. apply orb_false_iff in H.
  destruct H as [Hc Hr]. cbn [splitOn].
  rewrite Ascii.eqb_sym, Hc, (IH Hr). reflexivity.
Qed.

Lemma splitOn_last (sep : ascii) (stem ext : string) :
  JS.includes ext (JS.str sep) = false ->
  exists pre,
    splitOn sep (stem ++ String sep ext) = (pre ++ [ext])%list /\ pre <> [].
Proof.
  intros Hext. induction stem as [| c r (pre & Hs & Hne)].
  - exists [""]. cbn [append splitOn]. rewrite Ascii.eqb_refl.
    rewrite (splitOn_whole sep ext Hext). split; [reflexivity | discriminate].
  - cbn [append splitOn]. rewrite Hs.
    destruct pre as [| p ps]; [contradiction |].
    destruct (Ascii.eqb c sep).
    + exists ("" :: p :: ps). split; [reflexivity | discriminate].
    + exists (String c p :: ps). split; [reflexivity | discriminate].
Qed.

End Extension.

(** X28.  The rule set of the syntax check is chosen by the text after
    the last dot of the file name, or by the whole name when it has no
    dot, in small letters: names that differ only in what comes before
    the last dot, or in the case of what comes after it, get the same
    rules. *)
Theorem lint_rules_by_extension :
  forall (ext : string),
    JS.includes ext "." = false ->
    lintRules ext = rulesOf (toLowerCase ext) /\
    forall stem,
      lintRules (stem ++ "." ++ ext) = rulesOf (toLowerCase ext) /\
      lintRules (stem ++ "." ++ toLowerCase ext) = rulesOf (toLowerCase ext).
Proof.
  intros ext Hext.
  assert (Hlower : forall s, JS.includes s "." = false ->
                             JS.includes (toLowerCase s) "." = false).
  { intros s. change "." with (JS.str "."%char).
    induction s as [| c r IH]; [reflexivity |].
    cbn [toLowerCase]. rewrite !includes_char.
    intros H. apply orb_false_iff in H. destruct H as [Hc Hr].
    rewrite (IH Hr), orb_false_r.
    destruct c as [[] [] [] [] [] [] [] []]; try reflexivity; discriminate Hc. }
  assert (Hidem : forall s, toLowerCase (toLowerCase s) = toLowerCase s).
  { intros s. induction s as [| c r IH]; [reflexivity |].
    cbn [toLowerCase]. rewrite IH. f_equal.
    destruct c as [[] [] [] [] [] [] [] []]; reflexivity. }
  assert (Hlast : forall stem e, JS.includes e "." = false ->
                                 lintExtension (stem ++ "." ++ e) = toLowerCase e).
  { intros stem e He. unfold lintExtension.
    destruct (splitOn_last "." stem e He) as (pre & Hs & _).
    change ("." ++ e) with (String "." e). rewrite Hs, last_last.
    reflexivity. }
  split.
  - unfold lintRules, lintExtension.
    rewrite (splitOn_whole "." ext Hext). reflexivity.
  - intros stem. unfold lintRules.
    rewrite (Hlast stem ext Hext), (Hlast stem _ (Hlower ext Hext)), Hidem.
    split; reflexivity.
Qed.

(** ** The further properties on the scripted machines *)

(** The answer [ projects/vic ], and the attribute tool printing a
    newline after the value. *)
Lemma hint_round_trip_witness :
  JS.startsWith (JS.trim " projects/vic ") "/" = false /\
  JS.endsWith (JS.trim " projects/vic ") "/" = false /\
  stdout (Toy.succeeded ("projects/vic" ++ nl))
  = relative (pathInfoFor Toy.config "/w" " projects/vic ") ++ nl /\
  fst (resolveRcsPath Toy.config "/w/b.txt" "/w" (Toy.start hinted))
  = Done (Some (full (pathInfoFor Toy.config "/w" " projects/vic "))).
Proof.
  split; [reflexivity |]. split; [reflexivity |]. split; [reflexivity |].
  rewrite (hint_round_trip Toy.config "/w/b.txt" "/w" (Toy.start hinted)
             None (Toy.succeeded ("projects/vic" ++ nl))
             (snd (Toy.run (commandLine Toy.config (XattrGet "/w")) hinted))
             " projects/vic " nl);
    reflexivity.
Defined.


(** A file two levels inside the bundle [/w/my.xcs]. *)
Lemma findXcsBundleRoot_is_xcs_ancestor_witness :
  fst (findXcsBundleRoot Toy.config "/w/my.xcs/sub/notes.txt"
         (Toy.start Toy.tidy))
  = Done (Some "/w/my.xcs") /\
  JS.endsWith "/w/my.xcs" ".xcs" = true /\
  JS.startsWith "/w/my.xcs/sub/notes.txt" ("/w/my.xcs" ++ "/") = true.
Proof.
  assert (H : fst (findXcsBundleRoot Toy.config "/w/my.xcs/sub/notes.txt"
                     (Toy.start Toy.tidy))
              = Done (Some "/w/my.xcs")) by reflexivity.
  split; [exact H |].
  destruct (findXcsBundleRoot_is_xcs_ancestor Toy.config
              "/w/my.xcs/sub/notes.txt" (Toy.start Toy.tidy) "/w/my.xcs" H)
    as (He & _ & _ & Hp).
  split; [exact He |]. destruct Hp as [Hp | Hp]; [discriminate Hp | exact Hp].
Defined.


(** [a.txt] edited on the machine without a summariser. *)
Lemma no_summariser_without_cli_witness :
  CLAUDE_CLI configNoClaude = "" /\
  forall args r,
    ~ In (EvClaude args r)
        (trace (snd (main configNoClaude ["a.txt"] (Toy.start lockable)))).
Proof.
  split; [reflexivity |].
  destruct (no_summariser_without_cli configNoClaude eq_refl ["a.txt"]
              (Toy.start lockable)) as (evs & Ht & Hn).
  rewrite Ht. exact Hn.
Defined.

(** The version asked for. *)
Lemma vic_exit_codes_witness :
  fst (vic Toy.config ["--version"] (Toy.start Toy.tidy)) = Exit 0%Z /\
  In "--version" ["--version"].
Proof.
  assert (H : fst (vic Toy.config ["--version"] (Toy.start Toy.tidy))
              = Exit 0%Z) by reflexivity.
  split; [exact H |].
  destruct (vic_exit_codes Toy.config ["--version"] (Toy.start Toy.tidy)
              0%Z H) as [[_ Hin] | Hc]; [exact Hin | discriminate Hc].
Defined.

(** The checkout of [a.txt] on the machine where it can be locked. *)
Lemma session_names_the_file_witness :
  fst (checkoutFile Toy.config "a.txt" (Toy.start lockable))
  = Done (Some (toySession 33188)) /\
  baseName (toySession 33188) = Path.basename (fname (toySession 33188)) /\
  rcsBasePath (toySession 33188) <> Some "".
Proof.
  assert (H : fst (checkoutFile Toy.config "a.txt" (Toy.start lockable))
              = Done (Some (toySession 33188))) by (vm_compute; reflexivity).
  split; [exact H |].
  destruct (session_names_the_file Toy.config "a.txt" (Toy.start lockable)
              (toySession 33188) H) as (Hb & dirName & _ & _ & Hn).
  split; [exact Hb | exact Hn].
Defined.

(** The checkout of [a.txt] locks it on one machine and not on the
    other. *)
Lemma checkout_yields_session_iff_locked_witness :
  exists s1,
    checkoutFile_upToCheckout Toy.config "a.txt" (Toy.start lockable)
    = (Done (Some (toySession 33188)), s1) /\
    (fst (checkoutFile Toy.config "a.txt" (Toy.start lockable))
     = Done (Some (toySession 33188)) \/
     fst (checkoutFile Toy.config "a.txt" (Toy.start lockable)) = Done None).
Proof.
  eexists. split; [vm_compute; reflexivity |].
  eapply checkout_yields_session_iff_locked. vm_compute. reflexivity.
Defined.

(** A file with two names. *)
Lemma hard_links_are_refused_witness :
  checkoutFile_upToLinks "a.txt" Bare.start
  = (Done (Some ("a.txt", "/w", "a.txt")), Bare.start) /\
  fst (checkoutFile Toy.config "a.txt" Bare.start) = Done None.
Proof.
  assert (H : checkoutFile_upToLinks "a.txt" Bare.start
              = (Done (Some ("a.txt", "/w", "a.txt")), Bare.start))
    by (vm_compute; reflexivity).
  split; [exact H |].
  destruct (hard_links_are_refused Toy.config "a.txt" Bare.start Bare.start
              "a.txt" "/w" "a.txt"
              {| st_mode := 33188%Z; st_nlink := 2%Z; st_isFile := true |}
              H eq_refl eq_refl) as [Hc _].
  rewrite Hc. reflexivity.
Defined.

(** The metadata of [/w] names a store that exists. *)
Lemma valid_hint_is_used_witness :
  fst (findXcsBundleRoot Toy.config "/w/b.txt" (Toy.start hinted)) = Done None /\
  existsSync (hintedPath Toy.config "/w" "projects/vic") hinted = true /\
  fst (resolveRcsPath Toy.config "/w/b.txt" "/w" (Toy.start hinted))
  = Done (Some "/home/u/.xcs/projects/vic").
Proof.
  split; [reflexivity |]. split; [reflexivity |].
  rewrite (valid_hint_is_used Toy.config "/w/b.txt" "/w" (Toy.start hinted)
             None (Toy.succeeded ("projects/vic" ++ nl))
             (snd (Toy.run (commandLine Toy.config (XattrGet "/w")) hinted)));
    reflexivity.
Defined.

(** [a.txt] is locked by casey and the offer to unlock is declined. *)
Lemma no_session_no_editor_witness :
  editInvocation Toy.config ["a.txt"] = true /\
  underXcs Toy.config = false /\
  fst (main Toy.config ["a.txt"] (Toy.start Toy.lockedByCasey)) = Done tt /\
  rl (snd (main Toy.config ["a.txt"] (Toy.start Toy.lockedByCasey))) = false.
Proof.
  split; [reflexivity |]. split; [reflexivity |].
  destruct (no_session_no_editor Toy.config ["a.txt"]
              (Toy.start Toy.lockedByCasey) eq_refl eq_refl)
    as (Hd & Hr & _);
    [vm_compute; discriminate | vm_compute; reflexivity |].
  split; [exact Hd | exact Hr].
Defined.

(** [a.txt] is checked out, edited and checked in. *)
Lemma sessions_are_edited_and_checked_in_witness :
  editInvocation Toy.config ["a.txt"] = true /\
  underXcs Toy.config = false /\
  exists pre post,
    trace (snd (main Toy.config ["a.txt"] (Toy.start lockable)))
    = (EvLog "" :: pre ++ EvEditor "vi" ["a.txt"] :: post)%list /\
    Exists (checksIn (toySession 33188)) post.
Proof.
  split; [reflexivity |]. split; [reflexivity |].
  destruct (sessions_are_edited_and_checked_in Toy.config ["a.txt"]
              (Toy.start lockable) [toySession 33188] eq_refl eq_refl)
    as (pre & post & Ht & _ & _ & Hdone);
    [vm_compute; discriminate | vm_compute; reflexivity | discriminate |].
  exists pre, post. split; [exact Ht |].
  apply Hdone; [vm_compute; reflexivity | left; reflexivity].
Defined.

(** [which rcs] prints nothing on the scripted machine. *)
Lemma no_rcs_no_run_witness :
  loadedOn configNoRcs Toy.tidy /\
  JS.includes (which "rcs" Toy.tidy) "/" = false /\
  fst (main configNoRcs ["--version"] (Toy.start Toy.tidy)) = Exit 1%Z.
Proof.
  split; [reflexivity |]. split; [reflexivity |].
  rewrite (no_rcs_no_run configNoRcs Toy.tidy ["--version"]
             (Toy.start Toy.tidy));
    [reflexivity | reflexivity | reflexivity | discriminate].
Defined.

(** [l.txt] leads to [a.txt], and the answer is no. *)
Lemma declined_link_is_left_alone_witness :
  existsSync "l.txt" linked = true /\
  lstatIsSymbolicLink "l.txt" linked = Ok true /\
  realpathSync "l.txt" linked = Ok "/w/a.txt" /\
  fst (checkoutFile Toy.config "l.txt" (Toy.start linked)) = Done None.
Proof.
  split; [reflexivity |]. split; [reflexivity |]. split; [reflexivity |].
  rewrite (declined_link_is_left_alone Toy.config "l.txt" "/w/a.txt"
             (Toy.start linked)); reflexivity.
Defined.

(** [a.txt] edited without [-pc]. *)
Lemma eslint_needs_pc_witness :
  editInvocation Toy.config ["a.txt"] = true /\
  firstIs ["a.txt"] "-pc" = false /\
  forall file r,
    ~ In (EvLint file r)
        (trace (snd (main Toy.config ["a.txt"] (Toy.start lockable)))).
Proof.
  split; [reflexivity |]. split; [reflexivity |].
  destruct (eslint_needs_pc Toy.config ["a.txt"] (Toy.start lockable)
              eq_refl eq_refl eq_refl) as (evs & Ht & Hn).
  rewrite Ht. exact Hn.
Defined.

(** A ceiling of 12. *)
Lemma ceiling_is_the_number_given_witness :
  (Z.abs 12 <= 2 ^ 53)%Z /\
  JS.parseInt (JS.showZ 12) = Some 12%Z /\
  maxFilesFor ["-pc"; "-n"; JS.showZ 12; "a.txt"] = 12%Z.
Proof.
  assert (Hb : (Z.abs 12 <= 2 ^ 53)%Z) by (vm_compute; discriminate).
  split; [exact Hb |].
  destruct (ceiling_is_the_number_given 12 Hb) as [Hp Hc].
  split; [exact Hp |].
  apply (Hc ltac:(discriminate) ["a.txt"]).
Defined.

(** A script with its extension in capitals. *)
Lemma lint_rules_by_extension_witness :
  JS.includes "JS" "." = false /\
  lintRules ("/w/tool" ++ "." ++ "JS") = Some JsRules.
Proof.
  split; [reflexivity |].
  destruct (lint_rules_by_extension "JS" eq_refl) as [_ H].
  destruct (H "/w/tool") as [H1 _]. rewrite H1. reflexivity.
Defined.
